(** * Auth0Client (src/Auth0Client.ts): a shallow embedding

    The client of an OAuth2 authorization-code-with-PKCE flow.  The class
    [Auth0Client] is embedded method by method: JavaScript objects become
    records whose optional properties are [option]s, the asynchronous methods
    become computations in a state-and-exception monad over the browser state
    they touch (credential cache, transaction store, client storage, cross-tab
    lock), and every call that leaves the class is recorded in a trace. *)

From stdpp Require Import base option list gmap.
From Stdlib Require Import ZArith Lia Ascii String.
From stdpp Require Import strings.

Local Open Scope string_scope.
Local Open Scope Z_scope.

(** ** JavaScript values *)

Module Js.

(** A value of type [string | undefined]; [None] is [undefined], which is
    also what reading an absent property gives. *)
Definition truthy (v : option string) : bool :=
  match v with
  | Some s => negb (String.eqb s EmptyString)
  | None => false
  end.

(** [a || b] on strings. *)
Definition or_else (a : option string) (b : option string) : option string :=
  if truthy a then a else b.

(** [a || 'lit'] where the right operand is a string literal. *)
Definition or_lit (a : option string) (b : string) : string :=
  match a with
  | Some s => if String.eqb s EmptyString then b else s
  | None => b
  end.

(** An optional property of an options object: [None] when the object has
    no such property, [Some None] when it has the property with the value
    [undefined], [Some (Some s)] when it has it with a string.  A spread
    copies the property in the last two cases.  [read] is the property
    access, which gives [undefined] in the first two. *)
Definition read (p : option (option string)) : option string :=
  match p with
  | Some v => v
  | None => None
  end.

(** Truthiness of a [boolean | undefined]. *)
Definition truthyb (v : option bool) : bool :=
  match v with
  | Some b => b
  | None => false
  end.

(** [s.split(c)] for a one-character separator: never empty. *)
Fixpoint split (c : ascii) (s : string) : list string :=
  match s with
  | EmptyString => [EmptyString]
  | String a r =>
      if Ascii.eqb a c then EmptyString :: split c r
      else match split c r with
           | p :: ps => String a p :: ps
           | [] => [String a EmptyString]
           end
  end.

(** [pieces.join('')]. *)
Definition join_empty (pieces : list string) : string :=
  foldr String.append EmptyString pieces.

(** [pieces.join(' ')]. *)
Fixpoint join_space (pieces : list string) : string :=
  match pieces with
  | [] => EmptyString
  | [p] => p
  | p :: ps => p ++ " " ++ join_space ps
  end.

End Js.

(** ** Scopes (module ./scope) *)

Module Scope.

(** The definitions of this module model [getUniqueScopes] of ./scope, which
    is not among the sources; see [getUniqueScopes] below. *)

(** A blank: the character class [\s] on ASCII. *)
Definition is_space (a : ascii) : bool := Ascii.is_space a.

(** The scope names of a scope string: its maximal runs of non-blank
    characters, in order.  [cur] is the run being read. *)
Fixpoint tokens_from (cur : string) (s : string) : list string :=
  match s with
  | EmptyString => if String.eqb cur EmptyString then [] else [cur]
  | String a r =>
      if is_space a
      then (if String.eqb cur EmptyString then tokens_from EmptyString r
            else cur :: tokens_from EmptyString r)
      else tokens_from (cur ++ String a EmptyString) r
  end.

Definition tokens (s : string) : list string := tokens_from EmptyString s.

(** Keeps the first occurrence of every name. *)
Fixpoint dedupe_from (seen : list string) (l : list string) : list string :=
  match l with
  | [] => []
  | x :: r =>
      if bool_decide (x ∈ seen) then dedupe_from seen r
      else x :: dedupe_from (x :: seen) r
  end.

Definition dedupe (l : list string) : list string := dedupe_from [] l.

Definition arg_tokens (a : option string) : list string :=
  match a with
  | Some s => tokens s
  | None => []
  end.

(** The ordered-unique union of the scope names of the arguments. *)
Definition union (scopes : list (option string)) : list string :=
  dedupe (List.concat (map arg_tokens scopes)).

(** A scope name: not empty, no blank in it. *)
Fixpoint no_blank (s : string) : bool :=
  match s with
  | EmptyString => true
  | String a r => negb (is_space a) && no_blank r
  end.

Definition is_name (s : string) : bool :=
  negb (String.eqb s EmptyString) && no_blank s.

(** Modelled from the spec: [getUniqueScopes] of ./scope is not among the
    sources.  The spec (4.1 step 2) has it compute the ordered-unique
    union of its arguments, duplicates removed: the scope names of the
    arguments in the order given, an [undefined] argument contributing
    nothing, every name kept at its first occurrence, joined by single
    blanks. *)
Definition getUniqueScopes (scopes : list (option string)) : string :=
  Js.join_space (union scopes).

(** Modelled from the spec: the constant [DEFAULT_SCOPE] of ./constants is
    not among the sources; the spec's example (section 8) gives the default
    scope as [openid profile email]. *)
Definition DEFAULT_SCOPE : string := "openid profile email".

End Scope.


(** ** Data *)

(** Opaque JSON payloads: the caller's [appState], the user profile and the
    claims of a decoded id token. *)
Definition Json : Type := string.

(** What a [throw] carries. *)
Inductive JsError : Type :=
| Error (message : string)
| TypeError (message : string)
| AuthenticationError (error : option string) (error_description : option string)
    (state : option string) (appState : option Json)
| CollaboratorError (name : string).

Inductive Result (A : Type) : Type :=
| Ok (a : A)
| Throw (e : JsError).

Arguments Ok {A} a.
Arguments Throw {A} e.

(** [max_age] is typed [string | number]. *)
Inductive MaxAge : Type :=
| MaxAgeNumber (n : Z)
| MaxAgeString (s : string).

Record Auth0ClientOptions : Type := {
  o_domain : string;
  o_issuer : option string;
  o_client_id : string;
  o_redirect_uri : option string;
  o_leeway : option Z;
  o_max_age : option MaxAge;
  o_scope : option string;
  o_audience : option string;
  o_useRefreshTokens : option bool;
  o_advancedOptions_defaultScope : option string;
  o_auth0Client : option Json
}.

(** The fields of an [Auth0Client] instance that the methods read. *)
Record Auth0Client : Type := {
  options : Auth0ClientOptions;
  domainUrl : string;
  tokenIssuer : string;
  defaultScope : string;
  scope : option string
}.

Record Transaction : Type := {
  tx_nonce : string;
  tx_code_verifier : string;
  tx_appState : option Json;
  tx_scope : string;
  tx_audience : string;
  tx_redirect_uri : option string
}.

(** What [parseQueryResult] extracts and [handleRedirectCallback] reads. *)
Record QueryResult : Type := {
  q_state : option string;
  q_code : option string;
  q_error : option string;
  q_error_description : option string
}.

Record DecodedToken : Type := {
  dt_user : option Json;
  dt_claims : option Json
}.

(** The body of a token endpoint response (spec, section 6). *)
Record TokenResponse : Type := {
  tr_access_token : string;
  tr_id_token : string;
  tr_refresh_token : option string;
  tr_expires_in : Z
}.

(** The argument of [oauthToken]: both grants. *)
Record OAuthTokenOptions : Type := {
  ot_baseUrl : string;
  ot_client_id : string;
  ot_grant_type : string;
  ot_code : option string;
  ot_code_verifier : option string;
  ot_refresh_token : option string;
  ot_redirect_uri : option string;
  ot_custom : list (string * string)
}.

(** The argument of [verify] of ./jwt. *)
Record VerifyOptions : Type := {
  v_iss : string;
  v_aud : string;
  v_id_token : string;
  v_nonce : option string;
  v_leeway : option Z;
  v_max_age : option Z
}.

Record GetTokenSilentlyOptions : Type := {
  gts_ignoreCache : option bool;
  gts_audience : option (option string);
  gts_scope : option string;
  gts_redirect_uri : option string;
  gts_timeoutInSeconds : option Z;
  gts_custom : list (string * string)
}.

(** [GetUserOptions] and [GetIdTokenClaimsOptions]. *)
Record GetUserOptions : Type := {
  gu_scope : option string;
  gu_audience : option string
}.

(** A property that may be absent, [null] or a string. *)
Inductive Nullable : Type :=
| Absent
| Null
| Str (s : string).

Record LogoutOptions : Type := {
  lo_client_id : Nullable;
  lo_returnTo : option string;
  lo_federated : option bool;
  lo_localOnly : option bool;
  lo_logoutFromNative : option bool
}.

Record RedirectLoginResult : Type := {
  appState : option Json
}.

(** An object handed to [cache.save] or returned by [cache.get].  Every
    property but [client_id] can be missing: [getTokenSilently] saves
    [{client_id, ...authResult}] whatever [authResult] is. *)
Record CacheEntry : Type := {
  ce_client_id : string;
  ce_audience : option string;
  ce_scope : option string;
  ce_access_token : option string;
  ce_id_token : option string;
  ce_refresh_token : option string;
  ce_expires_in : option Z;
  ce_decodedToken : option DecodedToken
}.

(** The key of a cache entry: [(client_id, audience, scope)]. *)
Abbreviation CacheKey := (string * option string * option string)%type.

Record CachePayload : Type := {
  body : CacheEntry;
  expiresAt : option Z
}.

(** What [getTokenSilently] binds to [authResult]: the record built by
    [_getTokenUsingRefreshToken], [undefined] from its bare [return], or the
    object made by calling [Error('...')] (made, not thrown). *)
Inductive AuthResult : Type :=
| AuthUndefined
| AuthErrorObject (message : string)
| AuthTokens (tokenResult : TokenResponse) (decodedToken : DecodedToken)
    (scope : string) (audience : string).

Inductive LockHolder : Type :=
| ThisTab
| OtherTab.

(** Every call that leaves the class. *)
Inductive Event : Type :=
| CacheGet (key : CacheKey) (expiryAdjustmentSeconds : Z)
| CacheSave (entry : CacheEntry)
| CacheClear
| StorageSave (key : string) (value : bool)
| StorageRemove (key : string)
| TransactionGet (state : option string)
| TransactionRemove (state : option string)
| AcquireLock (key : string) (timeout : Z)
| ReleaseLock (key : string)
| OauthToken (o : OAuthTokenOptions)
| VerifyIdToken (o : VerifyOptions)
| LocationAssign (url : string).

(** The browser state the methods act on. *)
Record World : Type := {
  w_cache : gmap CacheKey CachePayload;
  w_transactions : gmap string Transaction;
  w_storage : gmap string bool;
  w_locks : gmap string LockHolder;
  w_now : Z;
  w_trace : list Event
}.

(** The collaborators outside the repository's state: the token endpoint, the
    id token verifier and the helpers of ./utils, as functions of their
    arguments. *)
Record Externals : Type := {
  oauthToken : OAuthTokenOptions -> Result TokenResponse;
  verifyIdToken : VerifyOptions -> Result DecodedToken;
  parseQueryResult : string -> QueryResult;
  createQueryParams : list (string * string) -> string;
  parseInt10 : string -> option Z;
  encodeAuth0Client : option Json -> string;
  window_location_origin : string
}.

(** ** The monad of the asynchronous methods

    A computation takes the world and gives back a value or a thrown error,
    with the world it leaves.  [await] is sequencing: within one tab the
    methods run one at a time. *)

Definition M (A : Type) : Type := World -> Result A * World.

Definition ret {A : Type} (a : A) : M A := fun w => (Ok a, w).

Definition throw {A : Type} (e : JsError) : M A := fun w => (Throw e, w).

Definition bind {A B : Type} (m : M A) (k : A -> M B) : M B :=
  fun w =>
    match m w with
    | (Ok a, w') => k a w'
    | (Throw e, w') => (Throw e, w')
    end.

Notation "x <- m ;; k" := (bind m (fun x => k))
  (at level 100, m at next level, right associativity).
Notation "m ;;; k" := (bind m (fun _ => k))
  (at level 100, right associativity).

(** [try { body } catch (e) { throw e; } finally { fin }]: the handler
    rethrows what it caught, so only the [finally] block adds anything.  It
    runs on both outcomes of [body], and an error thrown by it replaces the
    outcome of [body]. *)
Definition try_finally {A : Type} (body : M A) (fin : M unit) : M A :=
  fun w =>
    match body w with
    | (r, w1) =>
        match fin w1 with
        | (Ok _, w2) => (r, w2)
        | (Throw e, w2) => (Throw e, w2)
        end
    end.

(** A collaborator that answers with a value or throws. *)
Definition lift_result {A : Type} (r : Result A) : M A := fun w => (r, w).

Definition emit (e : Event) : M unit :=
  fun w =>
    (Ok tt,
     {| w_cache := w_cache w;
        w_transactions := w_transactions w;
        w_storage := w_storage w;
        w_locks := w_locks w;
        w_now := w_now w;
        w_trace := (w_trace w ++ [e])%list |}).

Definition set_cache (c : gmap CacheKey CachePayload) (w : World) : World :=
  {| w_cache := c;
     w_transactions := w_transactions w;
     w_storage := w_storage w;
     w_locks := w_locks w;
     w_now := w_now w;
     w_trace := w_trace w |}.

Definition set_transactions (t : gmap string Transaction) (w : World) : World :=
  {| w_cache := w_cache w;
     w_transactions := t;
     w_storage := w_storage w;
     w_locks := w_locks w;
     w_now := w_now w;
     w_trace := w_trace w |}.

Definition set_storage (s : gmap string bool) (w : World) : World :=
  {| w_cache := w_cache w;
     w_transactions := w_transactions w;
     w_storage := s;
     w_locks := w_locks w;
     w_now := w_now w;
     w_trace := w_trace w |}.

Definition set_locks (l : gmap string LockHolder) (w : World) : World :=
  {| w_cache := w_cache w;
     w_transactions := w_transactions w;
     w_storage := w_storage w;
     w_locks := l;
     w_now := w_now w;
     w_trace := w_trace w |}.

Definition modify (f : World -> World) : M unit := fun w => (Ok tt, f w).

Definition reads {A : Type} (f : World -> A) : M A := fun w => (Ok (f w), w).

(** ** The credential cache (module ./cache) *)

Module Cache.

(** Modelled from the spec: the cache of ./cache ([ICache], [IonicStorage])
    is not among the sources.  The spec (sections 2 and 3) has it persist
    credential records keyed by (client_id, audience, scope): the key of an
    entry is made of these three properties as the caller set them. *)
Definition key_of (e : CacheEntry) : CacheKey :=
  (ce_client_id e, ce_audience e, ce_scope e).

(** Modelled from the spec: an entry expiring within the grace window is
    treated as missing (section 3), so an entry is served while its expiry is
    more than the adjustment away; an entry kept without expiry is never
    served. *)
Definition fresh (now adjustment : Z) (p : CachePayload) : bool :=
  match expiresAt p with
  | Some t => now + adjustment <? t
  | None => false
  end.

(** Modelled from the spec: a save creates or overwrites the record under
    its key (section 3); the absolute expiry is the time of the save plus
    [expires_in]. *)
Definition save (now : Z) (e : CacheEntry)
    (c : gmap CacheKey CachePayload) : gmap CacheKey CachePayload :=
  <[key_of e := {| body := e; expiresAt := (fun d => now + d) <$> ce_expires_in e |}]> c.

(** Modelled from the spec: the expiry-aware lookup (sections 2 and 3). *)
Definition get (now : Z) (k : CacheKey) (adjustment : Z)
    (c : gmap CacheKey CachePayload) : option CacheEntry :=
  match c !! k with
  | Some p => if fresh now adjustment p then Some (body p) else None
  | None => None
  end.

(** Modelled from the spec: a clear deletes every record (section 3). *)
Definition clear (c : gmap CacheKey CachePayload) : gmap CacheKey CachePayload := ∅.

(** Modelled from the spec: the adjustment [get] uses when the caller passes
    none; the spec names a window only for the read of [getTokenSilently]. *)
Definition DEFAULT_EXPIRY_ADJUSTMENT_SECONDS : Z := 0.

End Cache.

Definition cache_get (k : CacheKey) (adjustment : Z) : M (option CacheEntry) :=
  emit (CacheGet k adjustment);;;
  reads (fun w => Cache.get (w_now w) k adjustment (w_cache w)).

Definition cache_save (e : CacheEntry) : M unit :=
  emit (CacheSave e);;;
  modify (fun w => set_cache (Cache.save (w_now w) e (w_cache w)) w).

Definition cache_clear : M unit :=
  emit CacheClear;;;
  modify (fun w => set_cache (Cache.clear (w_cache w)) w).

(** ** Client storage (module ./storage) *)

Module ClientStorage.

(** Modelled from the spec: ./storage is not among the sources.  The spec
    (section 6) has it be a key-value store with get, set and remove; the
    class keeps one boolean in it. *)
Definition save (key : string) (value : bool) : M unit :=
  emit (StorageSave key value);;;
  modify (fun w => set_storage (<[key := value]> (w_storage w)) w).

(** Modelled from the spec: the remove of the key-value store (section 6). *)
Definition remove (key : string) : M unit :=
  emit (StorageRemove key);;;
  modify (fun w => set_storage (delete key (w_storage w)) w).

End ClientStorage.

(** The persisted flag: a missing key reads as not authenticated. *)
Definition is_authenticated_flag (w : World) : bool :=
  match w_storage w !! "auth0.is.authenticated" with
  | Some b => b
  | None => false
  end.

(** ** The transaction manager (module ./transaction-manager) *)

Module TransactionManager.

(** Modelled from the spec: ./transaction-manager is not among the sources.
    The spec (sections 2 and 3) has it persist one in-flight authorization
    attempt per state key, read and deleted on the callback.  A callback
    without a state parameter finds no transaction. *)
Definition get (state : option string) : M (option Transaction) :=
  emit (TransactionGet state);;;
  reads (fun w =>
    match state with
    | Some s => w_transactions w !! s
    | None => None
    end).

(** Modelled from the spec: the delete of the transaction kept under a
    state (section 3). *)
Definition remove (state : option string) : M unit :=
  emit (TransactionRemove state);;;
  modify (fun w =>
    match state with
    | Some s => set_transactions (delete s (w_transactions w)) w
    | None => w
    end).

End TransactionManager.

(** ** The cross-tab lock (package browser-tabs-lock) *)

(** A named lock in storage shared by the tabs.  [acquireLock] answers
    whether it got the lock within the timeout and never throws; a lock that
    is taken stays taken while the caller waits.  [releaseLock] frees the
    lock only when this tab holds it. *)
Module Lock.

Definition acquireLock (key : string) (timeout : Z) : M bool :=
  emit (AcquireLock key timeout);;;
  fun w =>
    match w_locks w !! key with
    | None => (Ok true, set_locks (<[key := ThisTab]> (w_locks w)) w)
    | Some _ => (Ok false, w)
    end.

Definition releaseLock (key : string) : M unit :=
  emit (ReleaseLock key);;;
  modify (fun w =>
    match w_locks w !! key with
    | Some ThisTab => set_locks (delete key (w_locks w)) w
    | _ => w
    end).

End Lock.

Definition GET_TOKEN_SILENTLY_LOCK_KEY : string := "auth0.lock.getTokenSilently".

(** ** The class [Auth0Client] *)

(** The constructor: the derived fields of a new client. *)
Definition new_Auth0Client (o : Auth0ClientOptions) : Auth0Client :=
  let domainUrl := "https://" ++ o_domain o in
  {| options := o;
     domainUrl := domainUrl;
     tokenIssuer :=
       if Js.truthy (o_issuer o)
       then "https://" ++ Js.or_lit (o_issuer o) EmptyString ++ "/"
       else domainUrl ++ "/";
     defaultScope :=
       Scope.getUniqueScopes
         [Some "openid";
          Some (match o_advancedOptions_defaultScope o with
                | Some d => d
                | None => Scope.DEFAULT_SCOPE
                end)];
     scope :=
       if Js.truthyb (o_useRefreshTokens o)
       then Some (Scope.getUniqueScopes [o_scope o; Some "offline_access"])
       else o_scope o |}.

(** The options after [{audience, ignoreCache: false, ...options, scope}]
    with [ignoreCache] taken out: the object has an [audience] property, the
    one of [options] when [options] has one, be it [undefined], and the
    audience of the client otherwise. *)
Definition getTokenOptions (c : Auth0Client) (o : GetTokenSilentlyOptions) : GetTokenSilentlyOptions :=
  {| gts_ignoreCache := None;
     gts_audience :=
       Some match gts_audience o with
            | Some audience => audience
            | None => o_audience (options c)
            end;
     gts_scope := Some (Scope.getUniqueScopes [Some (defaultScope c); scope c; gts_scope o]);
     gts_redirect_uri := gts_redirect_uri o;
     gts_timeoutInSeconds := gts_timeoutInSeconds o;
     gts_custom := gts_custom o |}.

(** The test guarding the refresh-token grant:
    [this.options.useRefreshTokens && !options.audience]. *)
Definition refresh_applicable (c : Auth0Client) (o : GetTokenSilentlyOptions) : bool :=
  Js.truthyb (o_useRefreshTokens (options c)) && negb (Js.truthy (Js.read (gts_audience o))).

(** The key [getTokenSilently] looks up before it takes the lock. *)
Definition token_cache_key (c : Auth0Client) (o : GetTokenSilentlyOptions) : CacheKey :=
  (o_client_id (options c),
   Some (Js.or_lit (Js.read (gts_audience (getTokenOptions c o))) "default"),
   gts_scope (getTokenOptions c o)).

(** The key [_getTokenUsingRefreshToken] looks up when called with [o]. *)
Definition grant_cache_key (c : Auth0Client) (o : GetTokenSilentlyOptions) : CacheKey :=
  (o_client_id (options c),
   Some (Js.or_lit (Js.read (gts_audience o)) "default"),
   Some (Scope.getUniqueScopes [Some (defaultScope c); o_scope (options c); gts_scope o])).

Section Methods.

Context (ext : Externals).

Definition _url (c : Auth0Client) (path : string) : string :=
  domainUrl c ++ path ++ "&auth0Client=" ++ encodeAuth0Client ext (o_auth0Client (options c)).

Definition _parseNumber (value : option MaxAge) : option Z :=
  match value with
  | None => None
  | Some (MaxAgeNumber n) => Some n
  | Some (MaxAgeString s) =>
      match parseInt10 ext s with
      | Some n => if n =? 0 then None else Some n
      | None => None
      end
  end.

(** The argument [_verifyIdToken] hands to the verifier. *)
Definition verify_options (c : Auth0Client) (id_token : string)
    (nonce : option string) : VerifyOptions :=
  {| v_iss := tokenIssuer c;
     v_aud := o_client_id (options c);
     v_id_token := id_token;
     v_nonce := nonce;
     v_leeway := o_leeway (options c);
     v_max_age := _parseNumber (o_max_age (options c)) |}.

Definition _verifyIdToken (c : Auth0Client) (id_token : string)
    (nonce : option string) : M DecodedToken :=
  emit (VerifyIdToken (verify_options c id_token nonce));;;
  lift_result (verifyIdToken ext (verify_options c id_token nonce)).

Definition call_oauthToken (o : OAuthTokenOptions) : M TokenResponse :=
  emit (OauthToken o);;;
  lift_result (oauthToken ext o).

(** [getUser(options)]; [None] for a call without argument. *)
Definition getUser (c : Auth0Client) (arg : option GetUserOptions) : M (option Json) :=
  let o :=
    match arg with
    | Some o => o
    | None =>
        {| gu_audience := Some (Js.or_lit (o_audience (options c)) "default");
           gu_scope := Some (Js.or_lit (scope c) (defaultScope c)) |}
    end in
  let scope' := Scope.getUniqueScopes [Some (defaultScope c); gu_scope o] in
  cache <- cache_get (o_client_id (options c), gu_audience o, Some scope')
             Cache.DEFAULT_EXPIRY_ADJUSTMENT_SECONDS;;
  ret (match cache with
       | Some entry =>
           match ce_decodedToken entry with
           | Some decodedToken => dt_user decodedToken
           | None => None
           end
       | None => None
       end).

(** [getIdTokenClaims(options)]; [None] for a call without argument. *)
Definition getIdTokenClaims (c : Auth0Client) (arg : option GetUserOptions) : M (option Json) :=
  let o :=
    match arg with
    | Some o => o
    | None =>
        {| gu_audience := Some (Js.or_lit (o_audience (options c)) "default");
           gu_scope := Some (Js.or_lit (scope c) (defaultScope c)) |}
    end in
  let scope' := Scope.getUniqueScopes [Some (defaultScope c); scope c; gu_scope o] in
  cache <- cache_get (o_client_id (options c), gu_audience o, Some scope')
             Cache.DEFAULT_EXPIRY_ADJUSTMENT_SECONDS;;
  ret (match cache with
       | Some entry =>
           match ce_decodedToken entry with
           | Some decodedToken => dt_claims decodedToken
           | None => None
           end
       | None => None
       end).

Definition isAuthenticated (c : Auth0Client) : M bool :=
  user <- getUser c None;;
  ret (bool_decide (is_Some user)).

(** [url.split('?').slice(1)]. *)
Definition queryStringFragments (url : string) : list string :=
  tail (Js.split "?" url).

(** The [tokenOptions] of [handleRedirectCallback]: [redirect_uri] is set
    only when the transaction recorded one. *)
Definition tokenOptions (c : Auth0Client) (transaction : Transaction)
    (code : option string) : OAuthTokenOptions :=
  {| ot_baseUrl := domainUrl c;
     ot_client_id := o_client_id (options c);
     ot_grant_type := "authorization_code";
     ot_code := code;
     ot_code_verifier := Some (tx_code_verifier transaction);
     ot_refresh_token := None;
     ot_redirect_uri := tx_redirect_uri transaction;
     ot_custom := [] |}.

(** The [cacheEntry] of [handleRedirectCallback]. *)
Definition cacheEntry (c : Auth0Client) (transaction : Transaction)
    (authResult : TokenResponse) (decodedToken : DecodedToken) : CacheEntry :=
  {| ce_client_id := o_client_id (options c);
     ce_audience := Some (tx_audience transaction);
     ce_scope := Some (tx_scope transaction);
     ce_access_token := Some (tr_access_token authResult);
     ce_id_token := Some (tr_id_token authResult);
     ce_refresh_token := tr_refresh_token authResult;
     ce_expires_in := Some (tr_expires_in authResult);
     ce_decodedToken := Some decodedToken |}.

Definition handleRedirectCallback (c : Auth0Client) (url : string) : M RedirectLoginResult :=
  let fragments := queryStringFragments url in
  match fragments with
  | [] => throw (Error "There are no query params available for parsing.")
  | _ :: _ =>
      let q := parseQueryResult ext (Js.join_empty fragments) in
      found <- TransactionManager.get (q_state q);;
      match found with
      | None => throw (Error "Invalid state")
      | Some transaction =>
          if Js.truthy (q_error q) then
            TransactionManager.remove (q_state q);;;
            throw (AuthenticationError (q_error q) (q_error_description q)
                     (q_state q) (tx_appState transaction))
          else
            TransactionManager.remove (q_state q);;;
            authResult <- call_oauthToken (tokenOptions c transaction (q_code q));;
            decodedToken <- _verifyIdToken c (tr_id_token authResult)
                              (Some (tx_nonce transaction));;
            cache_save (cacheEntry c transaction authResult decodedToken);;;
            ClientStorage.save "auth0.is.authenticated" true;;;
            ret {| appState := tx_appState transaction |}
      end
  end.

(** [_getTokenUsingRefreshToken(options)]: the bare [return] gives
    [undefined]. *)
Definition _getTokenUsingRefreshToken (c : Auth0Client)
    (o : GetTokenSilentlyOptions) : M AuthResult :=
  let scope' :=
    Scope.getUniqueScopes [Some (defaultScope c); o_scope (options c); gts_scope o] in
  let audience' := Js.or_lit (Js.read (gts_audience o)) "default" in
  cache <- cache_get (grant_cache_key c o) Cache.DEFAULT_EXPIRY_ADJUSTMENT_SECONDS;;
  match cache with
  | None => ret AuthUndefined
  | Some entry =>
      if negb (Js.truthy (ce_refresh_token entry)) then ret AuthUndefined
      else
        let redirect_uri :=
          Js.or_lit (Js.or_else (gts_redirect_uri o) (o_redirect_uri (options c)))
            (window_location_origin ext) in
        tokenResult <- call_oauthToken
          {| ot_baseUrl := domainUrl c;
             ot_client_id := o_client_id (options c);
             ot_grant_type := "refresh_token";
             ot_code := None;
             ot_code_verifier := None;
             ot_refresh_token := ce_refresh_token entry;
             ot_redirect_uri := Some redirect_uri;
             ot_custom := gts_custom o |};;
        decodedToken <- _verifyIdToken c (tr_id_token tokenResult) None;;
        ret (AuthTokens tokenResult decodedToken scope' audience')
  end.

(** [{client_id: this.options.client_id, ...authResult}]: spreading
    [undefined] or an [Error] object (whose properties are not enumerable)
    adds nothing. *)
Definition spread_authResult (client_id : string) (authResult : AuthResult) : CacheEntry :=
  match authResult with
  | AuthTokens tokenResult decodedToken scope' audience' =>
      {| ce_client_id := client_id;
         ce_audience := Some audience';
         ce_scope := Some scope';
         ce_access_token := Some (tr_access_token tokenResult);
         ce_id_token := Some (tr_id_token tokenResult);
         ce_refresh_token := tr_refresh_token tokenResult;
         ce_expires_in := Some (tr_expires_in tokenResult);
         ce_decodedToken := Some decodedToken |}
  | AuthUndefined | AuthErrorObject _ =>
      {| ce_client_id := client_id;
         ce_audience := None;
         ce_scope := None;
         ce_access_token := None;
         ce_id_token := None;
         ce_refresh_token := None;
         ce_expires_in := None;
         ce_decodedToken := None |}
  end.

(** What reading [access_token] off [undefined] throws. *)
Definition TYPE_ERROR : JsError :=
  TypeError "Cannot read property 'access_token' of undefined".

(** [authResult.access_token]: reading a property of [undefined] throws, an
    [Error] object has no such property. *)
Definition access_token_of (authResult : AuthResult) : M (option string) :=
  match authResult with
  | AuthTokens tokenResult _ _ _ => ret (Some (tr_access_token tokenResult))
  | AuthErrorObject _ => ret None
  | AuthUndefined => throw TYPE_ERROR
  end.

(** The [try] block of [getTokenSilently] after the cache lookup. *)
Definition renew (c : Auth0Client) (o : GetTokenSilentlyOptions) : M (option string) :=
  Lock.acquireLock GET_TOKEN_SILENTLY_LOCK_KEY 5000;;;
  authResult <- (if refresh_applicable c o
                 then _getTokenUsingRefreshToken c (getTokenOptions c o)
                 else ret (AuthErrorObject "Could not refresh token"));;
  cache_save (spread_authResult (o_client_id (options c)) authResult);;;
  ClientStorage.save "auth0.is.authenticated" true;;;
  access_token_of authResult.

Definition getTokenSilently (c : Auth0Client) (o : GetTokenSilentlyOptions) : M (option string) :=
  let ignoreCache := Js.truthyb (gts_ignoreCache o) in
  try_finally
    (if negb ignoreCache then
       cache <- cache_get (token_cache_key c o) 60;;
       match cache with
       | Some entry =>
           if Js.truthy (ce_access_token entry) then ret (ce_access_token entry)
           else renew c o
       | None => renew c o
       end
     else renew c o)
    (Lock.releaseLock GET_TOKEN_SILENTLY_LOCK_KEY).

Definition logout (c : Auth0Client) (o : LogoutOptions) : M (option string) :=
  let client_id :=
    match lo_client_id o with
    | Null => None
    | Absent => Some (o_client_id (options c))
    | Str s => Some (Js.or_lit (Some s) (o_client_id (options c)))
    end in
  let logoutOptions :=
    List.app
      match lo_returnTo o with
      | Some r => [("returnTo", r)]
      | None => []
      end
      match client_id with
      | Some i => [("client_id", i)]
      | None => []
      end in
  if Js.truthyb (lo_localOnly o) && Js.truthyb (lo_federated o) then
    throw (Error "It is invalid to set both the `federated` and `localOnly` options to `true`")
  else
    cache_clear;;;
    ClientStorage.remove "auth0.is.authenticated";;;
    if Js.truthyb (lo_localOnly o) then ret None
    else
      let federatedQuery := if Js.truthyb (lo_federated o) then "&federated" else EmptyString in
      let url := _url c ("/v2/logout?" ++ createQueryParams ext logoutOptions) in
      let logoutUrl := url ++ federatedQuery in
      if Js.truthyb (lo_logoutFromNative o) then ret (Some logoutUrl)
      else emit (LocationAssign logoutUrl);;; ret None.

End Methods.

(** The events a computation adds to the trace when run from [w]. *)
Definition events_during {A : Type} (m : M A) (w : World) : list Event :=
  drop (length (w_trace w)) (w_trace (snd (m w))).

(** ** A concrete setting to run the model in *)

Module Demo.

(** A stand-in for [parseQueryResult] of ./utils: the text before a [#],
    cut at every [&] and every [=], a later parameter overriding an earlier
    one; no percent-decoding. *)
Definition before_hash (s : string) : string :=
  match Js.split "#" s with
  | p :: _ => p
  | [] => s
  end.

Definition pair_of (qp : string) : string * string :=
  match Js.split "=" qp with
  | k :: v :: _ => (k, v)
  | [k] => (k, "undefined")
  | [] => (EmptyString, "undefined")
  end.

Definition lookup_last (key : string) (pairs : list (string * string)) : option string :=
  foldl (fun found kv => if String.eqb (fst kv) key then Some (snd kv) else found) None pairs.

Definition parse (queryString : string) : QueryResult :=
  let pairs := map pair_of (Js.split "&" (before_hash queryString)) in
  {| q_state := lookup_last "state" pairs;
     q_code := lookup_last "code" pairs;
     q_error := lookup_last "error" pairs;
     q_error_description := lookup_last "error_description" pairs |}.

Definition tokens : TokenResponse :=
  {| tr_access_token := "AT-2";
     tr_id_token := "IDT-2";
     tr_refresh_token := Some "RT-2";
     tr_expires_in := 86400 |}.

Definition decoded : DecodedToken :=
  {| dt_user := Some "{sub:alice}"; dt_claims := Some "{iss,sub,aud,exp}" |}.

(** A token endpoint that accepts every grant and a verifier that accepts
    every token. *)
Definition ext : Externals :=
  {| oauthToken := fun _ => Ok tokens;
     verifyIdToken := fun _ => Ok decoded;
     parseQueryResult := parse;
     createQueryParams := fun pairs =>
       Js.join_empty (map (fun kv => fst kv ++ "=" ++ snd kv ++ "&") pairs);
     parseInt10 := fun _ => None;
     encodeAuth0Client := fun _ => "e30";
     window_location_origin := "https://app.example" |}.

Definition client_options (useRefreshTokens : bool) : Auth0ClientOptions :=
  {| o_domain := "tenant.example";
     o_issuer := None;
     o_client_id := "CID";
     o_redirect_uri := Some "https://app.example/callback";
     o_leeway := None;
     o_max_age := None;
     o_scope := None;
     o_audience := None;
     o_useRefreshTokens := Some useRefreshTokens;
     o_advancedOptions_defaultScope := None;
     o_auth0Client := None |}.

(** A client without refresh tokens and one with. *)
Definition plain_client : Auth0Client := new_Auth0Client (client_options false).
Definition refreshing_client : Auth0Client := new_Auth0Client (client_options true).

Definition no_options : GetTokenSilentlyOptions :=
  {| gts_ignoreCache := None;
     gts_audience := None;
     gts_scope := None;
     gts_redirect_uri := None;
     gts_timeoutInSeconds := None;
     gts_custom := [] |}.

Definition empty_world : World :=
  {| w_cache := ∅;
     w_transactions := ∅;
     w_storage := ∅;
     w_locks := ∅;
     w_now := 1000;
     w_trace := [] |}.

(** A credential record as [handleRedirectCallback] saves it. *)
Definition record (client_id scope' access_token : string)
    (refresh_token : option string) : CacheEntry :=
  {| ce_client_id := client_id;
     ce_audience := Some "default";
     ce_scope := Some scope';
     ce_access_token := Some access_token;
     ce_id_token := Some "IDT-1";
     ce_refresh_token := refresh_token;
     ce_expires_in := Some 3600;
     ce_decodedToken := Some decoded |}.

(** The world after [e] was saved at time 1000. *)
Definition world_with (e : CacheEntry) : World :=
  set_cache (Cache.save 1000 e ∅) empty_world.

Definition transaction : Transaction :=
  {| tx_nonce := "N-1";
     tx_code_verifier := "V-1";
     tx_appState := Some "{target:/inbox}";
     tx_scope := "openid profile email";
     tx_audience := "default";
     tx_redirect_uri := Some "https://app.example/callback" |}.

(** The world with one authorization attempt in flight under state [S-1]. *)
Definition world_awaiting_callback : World :=
  set_transactions {[ "S-1" := transaction ]} empty_world.

(** A record whose access token is the empty string, with a refresh token. *)
Definition empty_token_record : CacheEntry :=
  record "CID" "openid profile email offline_access" EmptyString (Some "RT-1").

Definition empty_token_world : World := world_with empty_token_record.

(** A record for the client without refresh tokens. *)
Definition plain_record : CacheEntry :=
  record "CID" "openid profile email" "AT-1" None.

Definition cached_world : World := world_with plain_record.

(** A record for the client with refresh tokens. *)
Definition refreshing_record : CacheEntry :=
  record "CID" "openid profile email offline_access" "AT-1" (Some "RT-1").

Definition refreshing_world : World := world_with refreshing_record.





Definition code_callback : string := "https://app.example/callback?code=C-1&state=S-1".

Definition error_callback : string :=
  "https://app.example/callback?error=access_denied&error_description=denied&state=S-1".

Definition empty_error_callback : string := "https://app.example/callback?error=&state=S-1".

Definition both_logout : LogoutOptions :=
  {| lo_client_id := Absent;
     lo_returnTo := None;
     lo_federated := Some true;
     lo_localOnly := Some true;
     lo_logoutFromNative := None |}.

End Demo.

(** ** Path conditions of [getTokenSilently] *)

(** What the lookup at the head of [getTokenSilently] returns early:
    nothing when the cache is ignored, when no record is served, or when the
    record served has no truthy [access_token]. *)
Definition cache_hit (c : Auth0Client) (o : GetTokenSilentlyOptions) (w : World) : option string :=
  if Js.truthyb (gts_ignoreCache o) then None
  else
    match Cache.get (w_now w) (token_cache_key c o) 60 (w_cache w) with
    | Some entry => if Js.truthy (ce_access_token entry) then ce_access_token entry else None
    | None => None
    end.

(** The refresh token the grant started by [getTokenSilently] finds. *)
Definition cached_refresh_token (c : Auth0Client) (o : GetTokenSilentlyOptions)
    (w : World) : option string :=
  match Cache.get (w_now w) (grant_cache_key c (getTokenOptions c o))
          Cache.DEFAULT_EXPIRY_ADJUSTMENT_SECONDS (w_cache w) with
  | Some entry => if Js.truthy (ce_refresh_token entry) then ce_refresh_token entry else None
  | None => None
  end.

(** The lookup at the head of [getTokenSilently], as events. *)
Definition lookup_events (c : Auth0Client) (o : GetTokenSilentlyOptions) : list Event :=
  if Js.truthyb (gts_ignoreCache o) then [] else [CacheGet (token_cache_key c o) 60].

(** The entry [{client_id}] that is saved when [authResult] carries nothing. *)
Definition bare_entry (client_id : string) : CacheEntry :=
  {| ce_client_id := client_id;
     ce_audience := None;
     ce_scope := None;
     ce_access_token := None;
     ce_id_token := None;
     ce_refresh_token := None;
     ce_expires_in := None;
     ce_decodedToken := None |}.

(** What [handleRedirectCallback] parses out of the callback URL. *)
Definition callback_query (ext : Externals) (url : string) : QueryResult :=
  parseQueryResult ext (Js.join_empty (queryStringFragments url)).

(** The keys a list of events reads the cache under. *)
Definition keys_read (evs : list Event) : list CacheKey :=
  omap (fun ev => match ev with CacheGet k _ => Some k | _ => None end) evs.

(** Whether a list of events calls the token endpoint, takes the lock,
    releases the lock. *)
Definition calls_token_endpoint (evs : list Event) : bool :=
  existsb (fun ev => match ev with OauthToken _ => true | _ => false end) evs.

Definition acquires_lock (evs : list Event) : bool :=
  existsb (fun ev => match ev with AcquireLock _ _ => true | _ => false end) evs.

Definition releases_lock (evs : list Event) : bool :=
  existsb (fun ev => match ev with ReleaseLock _ => true | _ => false end) evs.

(** The entries a list of events saves to the cache. *)
Definition entries_saved (evs : list Event) : list CacheEntry :=
  omap (fun ev => match ev with CacheSave e => Some e | _ => None end) evs.

(** The scope the specification wants in the cache keys of a client for a
    call with scope [percall]: the union of the default scope, the scope of
    the client and the scope of the call. *)
Definition key_scope (c : Auth0Client) (percall : option string) : string :=
  Scope.getUniqueScopes [Some (defaultScope c); scope c; percall].

(** ** The rest of the class *)

(** A property value of an options object. *)
Inductive JsValue : Type :=
| JsUndefined
| JsString (s : string)
| JsNumber (n : Z).

(** [v] read as a [string | undefined]: the options read this way are typed
    so. *)
Definition as_string (v : option JsValue) : option string :=
  match v with
  | Some (JsString s) => Some s
  | _ => None
  end.

Definition of_string (v : option string) : JsValue :=
  match v with
  | Some s => JsString s
  | None => JsUndefined
  end.

(** [{...object, [key]: value}] when the option has the property. *)
Definition with_property (key : string) (value : option JsValue)
    (object : gmap string JsValue) : gmap string JsValue :=
  match value with
  | Some v => <[key := v]> object
  | None => object
  end.

(** [RedirectLoginOptions]: [authorize] holds every property other than
    [redirect_uri] and [appState], [fragment], [scope] and [audience]
    among them. *)
Record RedirectLoginOptions : Type := {
  rl_redirect_uri : option string;
  rl_appState : option Json;
  rl_authorize : gmap string JsValue
}.

(** The helpers of ./utils and the constant of ./constants that the rest of
    the class uses, as parameters; a digest is a list of bytes. *)
Record Utils : Type := {
  RECOVERABLE_ERRORS : list string;
  encode : string -> string;
  sha256 : string -> list Byte.byte;
  bufferToBase64UrlEncoded : list Byte.byte -> string;
  createQueryParamsOf : gmap string JsValue -> string
}.

(** The three strings [createRandomString] returns to one call of
    [buildAuthorizeUrl], in the order of the calls. *)
Record RandomStrings : Type := {
  for_state : string;
  for_nonce : string;
  for_code_verifier : string
}.

(** [try { body } catch (error) { handler }]. *)
Definition try_catch {A : Type} (body : M A) (handler : JsError -> M A) : M A :=
  fun w =>
    match body w with
    | (Ok a, w') => (Ok a, w')
    | (Throw e, w') => handler e w'
    end.

(** Modelled from the spec: the read of the key-value store of ./storage
    (section 6), which is not among the sources. *)
Definition clientStorage_get (key : string) : M (option bool) :=
  reads (fun w => w_storage w !! key).

(** Modelled from the spec: the write of ./transaction-manager, which is not
    among the sources: the transaction is kept under its state (section 3). *)
Definition transactionManager_create (state : string) (transaction : Transaction) : M unit :=
  modify (fun w => set_transactions (<[state := transaction]> (w_transactions w)) w).

(** [error.error]: a native error has no such property, an
    [AuthenticationError] has the error code it was made with, the error of a
    collaborator is named by its code. *)
Definition error_property (e : JsError) : option string :=
  match e with
  | Error _ | TypeError _ => None
  | AuthenticationError error _ _ _ => error
  | CollaboratorError name => Some name
  end.

(** [list.includes(code)] for a list of strings. *)
Definition includes (list : list string) (code : option string) : bool :=
  match code with
  | Some s => bool_decide (s ∈ list)
  | None => false
  end.

(** The default [{}] of an options parameter. *)
Definition empty_options : GetTokenSilentlyOptions :=
  {| gts_ignoreCache := None;
     gts_audience := None;
     gts_scope := None;
     gts_redirect_uri := None;
     gts_timeoutInSeconds := None;
     gts_custom := [] |}.

(** The options of the client that [_getParams] spreads: all but [domain],
    [leeway], [useRefreshTokens], [auth0Client], [cacheLocation] and
    [advancedOptions]. *)
Definition withoutDomain (o : Auth0ClientOptions) : gmap string JsValue :=
  with_property "audience" (JsString <$> o_audience o)
    (with_property "scope" (JsString <$> o_scope o)
       (with_property "max_age"
          ((fun m => match m with
                     | MaxAgeNumber n => JsNumber n
                     | MaxAgeString s => JsString s
                     end) <$> o_max_age o)
          (with_property "redirect_uri" (JsString <$> o_redirect_uri o)
             (with_property "issuer" (JsString <$> o_issuer o)
                {[ "client_id" := JsString (o_client_id o) ]})))).

(** [{...withoutDomain, ...authorizeOptions, scope, response_type, ...}]: a
    property written later replaces one written earlier. *)
Definition _getParams (c : Auth0Client) (authorizeOptions : gmap string JsValue)
    (state nonce code_challenge : string) (redirect_uri : option string)
    : gmap string JsValue :=
  <["code_challenge_method" := JsString "S256"]>
    (<["code_challenge" := JsString code_challenge]>
       (<["redirect_uri" := of_string (Js.or_else redirect_uri (o_redirect_uri (options c)))]>
          (<["nonce" := JsString nonce]>
             (<["state" := JsString state]>
                (<["response_mode" := JsString "query"]>
                   (<["response_type" := JsString "code"]>
                      (<["scope" :=
                           JsString
                             (Scope.getUniqueScopes
                                [Some (defaultScope c); scope c;
                                 as_string (authorizeOptions !! "scope")])]>
                         (authorizeOptions ∪ withoutDomain (options c))))))))).

(** The transaction [buildAuthorizeUrl] keeps for the parameters [params]. *)
Definition transaction_of (params : gmap string JsValue) (nonce code_verifier : string)
    (appState : option Json) : Transaction :=
  {| tx_nonce := nonce;
     tx_code_verifier := code_verifier;
     tx_appState := appState;
     tx_scope := Js.or_lit (as_string (params !! "scope")) EmptyString;
     tx_audience := Js.or_lit (as_string (params !! "audience")) "default";
     tx_redirect_uri := as_string (params !! "redirect_uri") |}.

Section MoreMethods.

Context (ext : Externals) (utils : Utils).

Definition _authorizeUrl (c : Auth0Client) (authorizeOptions : gmap string JsValue) : string :=
  _url ext c ("/authorize?" ++ createQueryParamsOf utils authorizeOptions).

(** The parameters [buildAuthorizeUrl] builds for its options and the
    strings drawn. *)
Definition authorize_params (c : Auth0Client) (o : RedirectLoginOptions)
    (random : RandomStrings) : gmap string JsValue :=
  _getParams c (rl_authorize o)
    (encode utils (for_state random))
    (encode utils (for_nonce random))
    (bufferToBase64UrlEncoded utils (sha256 utils (for_code_verifier random)))
    (rl_redirect_uri o).

Definition buildAuthorizeUrl (c : Auth0Client) (o : RedirectLoginOptions)
    (random : RandomStrings) : M string :=
  let stateIn := encode utils (for_state random) in
  let nonceIn := encode utils (for_nonce random) in
  let code_verifier := for_code_verifier random in
  let fragment :=
    if Js.truthy (as_string (rl_authorize o !! "fragment"))
    then "#" ++ Js.or_lit (as_string (rl_authorize o !! "fragment")) EmptyString
    else EmptyString in
  let params := authorize_params c o random in
  let url := _authorizeUrl c params in
  transactionManager_create stateIn
    (transaction_of params nonceIn code_verifier (rl_appState o));;;
  ret (url ++ fragment).

Definition loginWithRedirect (c : Auth0Client) (o : RedirectLoginOptions)
    (random : RandomStrings) : M unit :=
  url <- buildAuthorizeUrl c o random;;
  emit (LocationAssign url).

(** [checkSession(options)]; [None] for a call without argument. *)
Definition checkSession (c : Auth0Client) (arg : option GetTokenSilentlyOptions) : M unit :=
  flag <- clientStorage_get "auth0.is.authenticated";;
  if negb (Js.truthyb flag) then ret tt
  else
    try_catch
      (getTokenSilently ext c (default empty_options arg);;; ret tt)
      (fun error =>
         if negb (includes (RECOVERABLE_ERRORS utils) (error_property error))
         then throw error
         else ret tt).

End MoreMethods.

(** ** Notions the further properties are stated with *)

(** Two worlds that differ at most in who holds the locks. *)
Definition same_but_locks (w w' : World) : Prop :=
  w_cache w = w_cache w' /\
  w_transactions w = w_transactions w' /\
  w_storage w = w_storage w' /\
  w_now w = w_now w' /\
  w_trace w = w_trace w'.

(** A computation whose outcome does not depend on who holds the locks. *)
Definition lock_insensitive {A : Type} (m : M A) : Prop :=
  forall w w', same_but_locks w w' ->
    fst (m w) = fst (m w') /\ same_but_locks (snd (m w)) (snd (m w')).

(** The argument of the refresh-token grant of [_getTokenUsingRefreshToken]
    called with [o], for the cache entry found. *)
Definition refresh_tokenOptions (ext : Externals) (c : Auth0Client)
    (o : GetTokenSilentlyOptions) (entry : CacheEntry) : OAuthTokenOptions :=
  {| ot_baseUrl := domainUrl c;
     ot_client_id := o_client_id (options c);
     ot_grant_type := "refresh_token";
     ot_code := None;
     ot_code_verifier := None;
     ot_refresh_token := ce_refresh_token entry;
     ot_redirect_uri :=
       Some (Js.or_lit (Js.or_else (gts_redirect_uri o) (o_redirect_uri (options c)))
               (window_location_origin ext));
     ot_custom := gts_custom o |}.

(** The entry [getTokenSilently] saves after a refresh that gave
    [tokenResult] and [decodedToken]. *)
Definition refreshed_entry (c : Auth0Client) (o : GetTokenSilentlyOptions)
    (tokenResult : TokenResponse) (decodedToken : DecodedToken) : CacheEntry :=
  spread_authResult (o_client_id (options c))
    (AuthTokens tokenResult decodedToken
       (Scope.getUniqueScopes
          [Some (defaultScope c); o_scope (options c); gts_scope (getTokenOptions c o)])
       (Js.or_lit (Js.read (gts_audience (getTokenOptions c o))) "default")).

(** Whether a list of events reads the cache with the given expiry
    adjustment. *)
Definition reads_cache_with (adjustment : Z) (evs : list Event) : bool :=
  existsb (fun ev => match ev with CacheGet _ a => a =? adjustment | _ => false end) evs.

(** The names in the scope of a cache key; none when the key has no scope. *)
Definition scope_names (k : CacheKey) : list string :=
  match snd k with
  | Some s => Scope.tokens s
  | None => []
  end.

(** Whether a character occurs in a string. *)
Fixpoint occurs (c : ascii) (s : string) : bool :=
  match s with
  | EmptyString => false
  | String a r => Ascii.eqb a c || occurs c r
  end.

(** The options of a logout with [logoutFromNative] set to [b]. *)
Definition with_logoutFromNative (b : option bool) (o : LogoutOptions) : LogoutOptions :=
  {| lo_client_id := lo_client_id o;
     lo_returnTo := lo_returnTo o;
     lo_federated := lo_federated o;
     lo_localOnly := lo_localOnly o;
     lo_logoutFromNative := b |}.

(** The options of a [getTokenSilently] call for the scope and the audience
    of a login. *)
Definition token_options_of (o : RedirectLoginOptions) : GetTokenSilentlyOptions :=
  {| gts_ignoreCache := None;
     gts_audience :=
       match rl_authorize o !! "audience" with
       | Some v => Some (as_string (Some v))
       | None => None
       end;
     gts_scope := as_string (rl_authorize o !! "scope");
     gts_redirect_uri := None;
     gts_timeoutInSeconds := None;
     gts_custom := [] |}.


(** The parameters of [_getParams] that the caller's options cannot set. *)
Definition fixed_parameters : list string :=
  ["scope"; "response_type"; "response_mode"; "state"; "nonce"; "redirect_uri";
   "code_challenge"; "code_challenge_method"].

(** The code exchange that completes a login started with [o] and the
    strings [random]. *)
Definition code_exchange (c : Auth0Client) (o : RedirectLoginOptions)
    (random : RandomStrings) (code : option string) : OAuthTokenOptions :=
  {| ot_baseUrl := domainUrl c;
     ot_client_id := o_client_id (options c);
     ot_grant_type := "authorization_code";
     ot_code := code;
     ot_code_verifier := Some (for_code_verifier random);
     ot_refresh_token := None;
     ot_redirect_uri := Js.or_else (rl_redirect_uri o) (o_redirect_uri (options c));
     ot_custom := [] |}.

(** The record that completes a login started with [o]: kept under the
    scope sent to [/authorize] and under the audience of the call, else of
    the client, else [default]. *)
Definition login_entry (c : Auth0Client) (o : RedirectLoginOptions)
    (tokenResult : TokenResponse) (decodedToken : DecodedToken) : CacheEntry :=
  {| ce_client_id := o_client_id (options c);
     ce_audience :=
       Some (Js.or_lit
               (match rl_authorize o !! "audience" with
                | Some v => as_string (Some v)
                | None => o_audience (options c)
                end) "default");
     ce_scope :=
       Some (Scope.getUniqueScopes
               [Some (defaultScope c); scope c; as_string (rl_authorize o !! "scope")]);
     ce_access_token := Some (tr_access_token tokenResult);
     ce_id_token := Some (tr_id_token tokenResult);
     ce_refresh_token := tr_refresh_token tokenResult;
     ce_expires_in := Some (tr_expires_in tokenResult);
     ce_decodedToken := Some decodedToken |}.

(** ** Further concrete inputs *)

Module Sample.

(** Stand-ins for the helpers of ./utils: [encode] keeps its argument, the
    digest is the bytes of the string and its encoding reads them back, the
    query string lists the names of the parameters. *)
Definition utils : Utils :=
  {| RECOVERABLE_ERRORS := ["login_required"; "consent_required"; "interaction_required"];
     encode := fun s => s;
     sha256 := list_byte_of_string;
     bufferToBase64UrlEncoded := string_of_list_byte;
     createQueryParamsOf := fun params =>
       Js.join_empty (map (fun kv => fst kv ++ "&") (map_to_list params)) |}.

(** The collaborators of [Demo.ext] with a token endpoint that refuses every
    grant with [login_required]. *)
Definition refusing : Externals :=
  {| oauthToken := fun _ => Throw (CollaboratorError "login_required");
     verifyIdToken := verifyIdToken Demo.ext;
     parseQueryResult := parseQueryResult Demo.ext;
     createQueryParams := createQueryParams Demo.ext;
     parseInt10 := parseInt10 Demo.ext;
     encodeAuth0Client := encodeAuth0Client Demo.ext;
     window_location_origin := window_location_origin Demo.ext |}.

Definition ignoring_cache : GetTokenSilentlyOptions :=
  {| gts_ignoreCache := Some true;
     gts_audience := None;
     gts_scope := None;
     gts_redirect_uri := None;
     gts_timeoutInSeconds := None;
     gts_custom := [] |}.

(** The world of [Demo.refreshing_world] with the authenticated flag set. *)
Definition signed_in : World :=
  set_storage {[ "auth0.is.authenticated" := true ]} Demo.refreshing_world.

(** The flag set and nothing in the cache. *)
Definition flag_only : World :=
  set_storage {[ "auth0.is.authenticated" := true ]} Demo.empty_world.

(** [Demo.refreshing_world] while another tab holds the lock. *)
Definition other_tab_renewing : World :=
  set_locks {[ GET_TOKEN_SILENTLY_LOCK_KEY := OtherTab ]} Demo.refreshing_world.

Definition local_logout : LogoutOptions :=
  {| lo_client_id := Absent;
     lo_returnTo := None;
     lo_federated := None;
     lo_localOnly := Some true;
     lo_logoutFromNative := None |}.

(** A client without refresh tokens that is configured with an audience,
    and a call that passes [audience: undefined]. *)
Definition api_client : Auth0Client :=
  new_Auth0Client
    {| o_domain := "tenant.example";
       o_issuer := None;
       o_client_id := "CID";
       o_redirect_uri := Some "https://app.example/callback";
       o_leeway := None;
       o_max_age := None;
       o_scope := None;
       o_audience := Some "https://api.example";
       o_useRefreshTokens := Some false;
       o_advancedOptions_defaultScope := None;
       o_auth0Client := None |}.

Definition undefined_audience : GetTokenSilentlyOptions :=
  {| gts_ignoreCache := None;
     gts_audience := Some None;
     gts_scope := None;
     gts_redirect_uri := None;
     gts_timeoutInSeconds := None;
     gts_custom := [] |}.

Definition random : RandomStrings :=
  {| for_state := "S-9"; for_nonce := "N-9"; for_code_verifier := "V-9" |}.

(** A login that gives an [appState] and nothing else. *)
Definition login : RedirectLoginOptions :=
  {| rl_redirect_uri := None;
     rl_appState := Some "{target:/inbox}";
     rl_authorize := ∅ |}.

Definition callback : string := "https://app.example/callback?code=C-9&state=S-9".

End Sample.
(** * Properties *)

Section MonadFacts.

Lemma events_during_app {A : Type} (m : M A) (w : World) (evs : list Event) :
  w_trace (snd (m w)) = (w_trace w ++ evs)%list -> events_during m w = evs.
Proof.
  intros H. unfold events_during. rewrite H. apply drop_app_length.
Qed.

Lemma truthy_Some (s : string) : s <> EmptyString -> Js.truthy (Some s) = true.
Proof.
  intros Hs. unfold Js.truthy.
  destruct (String.eqb_spec s EmptyString) as [E | _]; [contradiction | reflexivity].
Qed.

Lemma truthy_inv (v : option string) :
  Js.truthy v = true -> exists s, v = Some s /\ s <> EmptyString.
Proof.
  destruct v as [s |]; simpl; [| discriminate].
  destruct (String.eqb_spec s EmptyString) as [-> | Hne]; simpl; [discriminate |].
  intros _. exists s. split; [reflexivity | exact Hne].
Qed.

(** Whatever the body does, after [finally { releaseLock(key) }] this tab
    does not hold the lock and the release is the last call made. *)
Lemma try_finally_releaseLock {A : Type} (body : M A) (key : string) (w : World) :
  let out := try_finally body (Lock.releaseLock key) w in
  fst out = fst (body w) /\
  w_locks (snd out) !! key <> Some ThisTab /\
  last (w_trace (snd out)) = Some (ReleaseLock key) /\
  w_trace (snd out) = (w_trace (snd (body w)) ++ [ReleaseLock key])%list /\
  w_cache (snd out) = w_cache (snd (body w)) /\
  w_storage (snd out) = w_storage (snd (body w)) /\
  w_transactions (snd out) = w_transactions (snd (body w)).
Proof.
  unfold try_finally, Lock.releaseLock, bind, emit, modify.
  destruct (body w) as [r w1]. simpl.
  destruct (w_locks w1 !! key) as [[|]|] eqn:E; simpl;
    repeat split; try (rewrite last_snoc; reflexivity).
  - rewrite lookup_delete_eq. discriminate.
  - rewrite E. discriminate.
  - rewrite E. discriminate.
Qed.

End MonadFacts.

Section ScopeFacts.

Lemma append_cons (a : ascii) (s t : string) : String a s ++ t = String a (s ++ t).
Proof. reflexivity. Qed.

Lemma append_nil_l (s : string) : EmptyString ++ s = s.
Proof. reflexivity. Qed.

Lemma append_nil_r (s : string) : s ++ EmptyString = s.
Proof.
  induction s as [| a s IH]; [reflexivity |].
  rewrite append_cons, IH. reflexivity.
Qed.

Lemma append_assoc (s1 s2 s3 : string) : (s1 ++ s2) ++ s3 = s1 ++ (s2 ++ s3).
Proof.
  induction s1 as [| a s1 IH]; [reflexivity |].
  rewrite !append_cons, IH. reflexivity.
Qed.

Lemma no_blank_app (s1 s2 : string) :
  Scope.no_blank (s1 ++ s2) = (Scope.no_blank s1 && Scope.no_blank s2)%bool.
Proof.
  induction s1 as [| a s1 IH]; [reflexivity |].
  rewrite append_cons. simpl. rewrite IH. apply andb_assoc.
Qed.

Lemma eqb_empty_app (s : string) (a : ascii) :
  String.eqb (s ++ String a EmptyString) EmptyString = false.
Proof. destruct s; reflexivity. Qed.

(** Reading a blank-free run extends the word being read. *)
Lemma tokens_from_run (run cur rest : string) :
  Scope.no_blank run = true ->
  Scope.tokens_from cur (run ++ rest) = Scope.tokens_from (cur ++ run) rest.
Proof.
  revert cur. induction run as [| a run IH]; intros cur Hrun.
  - rewrite append_nil_l, append_nil_r. reflexivity.
  - simpl in Hrun. apply andb_prop in Hrun as [Ha Hrun].
    apply negb_true_iff in Ha. rewrite append_cons. simpl. rewrite Ha.
    rewrite (IH _ Hrun), append_assoc. reflexivity.
Qed.

Lemma tokens_join (l : list string) :
  forallb Scope.is_name l = true ->
  Scope.tokens (Js.join_space l) = l.
Proof.
  unfold Scope.tokens.
  induction l as [| p l IH]; intros Hl; [reflexivity |].
  simpl in Hl. apply andb_prop in Hl as [Hp Hl].
  unfold Scope.is_name in Hp. apply andb_prop in Hp as [Hne Hnb].
  apply negb_true_iff in Hne.
  destruct l as [| q l].
  - simpl. rewrite <- (append_nil_r p) at 1.
    rewrite (tokens_from_run p _ _ Hnb), append_nil_l. simpl. rewrite Hne. reflexivity.
  - change (Js.join_space (p :: q :: l)) with (p ++ " " ++ Js.join_space (q :: l)).
    rewrite (tokens_from_run p _ _ Hnb), append_nil_l, append_cons, append_nil_l.
    simpl. rewrite Hne. f_equal. exact (IH Hl).
Qed.

Lemma tokens_from_names (cur s : string) :
  Scope.no_blank cur = true ->
  forallb Scope.is_name (Scope.tokens_from cur s) = true.
Proof.
  revert cur. induction s as [| a s IH]; intros cur Hcur; simpl.
  - destruct (String.eqb cur EmptyString) eqn:E; [reflexivity |].
    simpl. unfold Scope.is_name. rewrite E, Hcur. reflexivity.
  - destruct (Scope.is_space a) eqn:Ha.
    + destruct (String.eqb cur EmptyString) eqn:E.
      * apply IH. reflexivity.
      * simpl. unfold Scope.is_name at 1. rewrite E, Hcur. simpl.
        apply IH. reflexivity.
    + apply IH. rewrite no_blank_app, Hcur. simpl. rewrite Ha. reflexivity.
Qed.

Lemma tokens_names (s : string) : forallb Scope.is_name (Scope.tokens s) = true.
Proof. apply tokens_from_names. reflexivity. Qed.

Lemma arg_tokens_names (a : option string) : forallb Scope.is_name (Scope.arg_tokens a) = true.
Proof. destruct a; [apply tokens_names | reflexivity]. Qed.

(** [dedupe_from] *)

Lemma dedupe_from_ext (seen seen' l : list string) :
  (forall x, x ∈ seen <-> x ∈ seen') ->
  Scope.dedupe_from seen l = Scope.dedupe_from seen' l.
Proof.
  revert seen seen'. induction l as [| x l IH]; intros seen seen' H; simpl; [reflexivity |].
  rewrite (bool_decide_ext (x ∈ seen) (x ∈ seen') (H x)).
  destruct (bool_decide (x ∈ seen')).
  - apply IH, H.
  - f_equal. apply IH. intros y. rewrite !elem_of_cons, H. reflexivity.
Qed.

Lemma dedupe_from_app (seen l1 l2 : list string) :
  Scope.dedupe_from seen (l1 ++ l2)%list =
  (Scope.dedupe_from seen l1 ++ Scope.dedupe_from (l1 ++ seen) l2)%list.
Proof.
  revert seen. induction l1 as [| x l1 IH]; intros seen; simpl; [reflexivity |].
  destruct (bool_decide (x ∈ seen)) eqn:E.
  - rewrite IH. f_equal. apply dedupe_from_ext. intros y.
    apply bool_decide_eq_true in E.
    rewrite elem_of_cons, !elem_of_app. split; [tauto |].
    intros [-> | H]; tauto.
  - simpl. f_equal. rewrite IH. f_equal. apply dedupe_from_ext. intros y.
    rewrite elem_of_app, !elem_of_cons, elem_of_app. tauto.
Qed.

Lemma dedupe_from_seen (seen l m : list string) :
  (forall x, x ∈ l -> x ∈ seen) ->
  Scope.dedupe_from seen (l ++ m)%list = Scope.dedupe_from seen m.
Proof.
  induction l as [| x l IH]; intros H; simpl; [reflexivity |].
  rewrite bool_decide_eq_true_2 by (apply H; left).
  apply IH. intros y Hy. apply H. right. exact Hy.
Qed.

Lemma dedupe_from_inner (seen seen' l m : list string) :
  (forall x, x ∈ seen' -> x ∈ seen) ->
  Scope.dedupe_from seen (Scope.dedupe_from seen' l ++ m)%list =
  Scope.dedupe_from seen (l ++ m)%list.
Proof.
  revert seen seen'. induction l as [| x l IH]; intros seen seen' H; simpl; [reflexivity |].
  destruct (bool_decide (x ∈ seen')) eqn:E'.
  - apply bool_decide_eq_true in E'.
    rewrite (bool_decide_eq_true_2 _ (H x E')). apply IH, H.
  - simpl. destruct (bool_decide (x ∈ seen)) eqn:E.
    + apply bool_decide_eq_true in E. apply IH.
      intros y. rewrite elem_of_cons. intros [-> | Hy]; [exact E | apply H, Hy].
    + f_equal. apply IH. intros y. rewrite !elem_of_cons.
      intros [-> | Hy]; [left; reflexivity | right; apply H, Hy].
Qed.

Lemma elem_of_dedupe_from (seen l : list string) (x : string) :
  x ∈ Scope.dedupe_from seen l <-> x ∈ l /\ x ∉ seen.
Proof.
  revert seen. induction l as [| y l IH]; intros seen; simpl.
  - rewrite elem_of_nil. tauto.
  - destruct (bool_decide (y ∈ seen)) eqn:E.
    + apply bool_decide_eq_true in E. rewrite IH, elem_of_cons.
      split; [tauto |]. intros [[-> | H] Hn]; [contradiction | tauto].
    + apply bool_decide_eq_false in E. rewrite !elem_of_cons, IH, elem_of_cons.
      split.
      * intros [-> | [H Hn]]; tauto.
      * intros [[-> | H] Hn]; [tauto |].
        destruct (decide (x = y)) as [-> | Hne]; tauto.
Qed.


Lemma forallb_dedupe_from (P : string -> bool) (seen l : list string) :
  forallb P l = true -> forallb P (Scope.dedupe_from seen l) = true.
Proof.
  revert seen. induction l as [| y l IH]; intros seen H; simpl; [reflexivity |].
  simpl in H. apply andb_prop in H as [Hy Hl].
  destruct (bool_decide (y ∈ seen)); [apply IH, Hl |].
  simpl. rewrite Hy. apply IH, Hl.
Qed.

Lemma forallb_concat_names (scopes : list (option string)) :
  forallb Scope.is_name (List.concat (map Scope.arg_tokens scopes)) = true.
Proof.
  induction scopes as [| a scopes IH]; simpl; [reflexivity |].
  rewrite forallb_app, arg_tokens_names, IH. reflexivity.
Qed.

(** The names of the string [getUniqueScopes] returns are the union. *)
Lemma tokens_getUniqueScopes (scopes : list (option string)) :
  Scope.tokens (Scope.getUniqueScopes scopes) = Scope.union scopes.
Proof.
  unfold Scope.getUniqueScopes. apply tokens_join.
  apply forallb_dedupe_from, forallb_concat_names.
Qed.

Lemma dedupe_app_dedupe (X Y P : list string) :
  Scope.dedupe (X ++ Scope.dedupe Y ++ P)%list = Scope.dedupe (X ++ Y ++ P)%list.
Proof.
  unfold Scope.dedupe. rewrite !(dedupe_from_app [] X). f_equal.
  apply dedupe_from_inner. intros x Hx. apply elem_of_nil in Hx. contradiction.
Qed.

Lemma dedupe_app_seen (X Z P : list string) :
  (forall x, x ∈ Z -> x ∈ X) ->
  Scope.dedupe (X ++ Z ++ P)%list = Scope.dedupe (X ++ P)%list.
Proof.
  intros H. unfold Scope.dedupe. rewrite !(dedupe_from_app [] X). f_equal.
  apply dedupe_from_seen. intros x Hx. apply elem_of_app. left. apply H, Hx.
Qed.

Lemma union3 (a b c : option string) :
  Scope.union [a; b; c] =
  Scope.dedupe (Scope.arg_tokens a ++ Scope.arg_tokens b ++ Scope.arg_tokens c)%list.
Proof. unfold Scope.union. simpl. rewrite app_nil_r. reflexivity. Qed.

Lemma union2 (a b : option string) :
  Scope.union [a; b] = Scope.dedupe (Scope.arg_tokens a ++ Scope.arg_tokens b)%list.
Proof. unfold Scope.union. simpl. rewrite app_nil_r. reflexivity. Qed.

(** The example of the specification (section 8): the default scope, the
    scope of the client and the scope of the call give four names. *)
Example getUniqueScopes_example :
  Scope.tokens
    (Scope.getUniqueScopes [Some "openid profile email"; Some "offline_access"; Some "profile"])
  = ["openid"; "profile"; "email"; "offline_access"].
Proof. reflexivity. Qed.

Example split_example :
  Js.split "?" "https://app.example/cb?code=C&state=S" =
    ["https://app.example/cb"; "code=C&state=S"].
Proof. reflexivity. Qed.

Ltac list_norm := rewrite ?app_nil_r, <- ?app_assoc; reflexivity.

Lemma dedupe_tail (D O Y : list string) :
  Scope.dedupe (D ++ O ++ Scope.dedupe Y)%list = Scope.dedupe (D ++ O ++ Y)%list.
Proof.
  replace (D ++ O ++ Scope.dedupe Y)%list with ((D ++ O) ++ Scope.dedupe Y ++ [])%list
    by list_norm.
  rewrite dedupe_app_dedupe. f_equal. list_norm.
Qed.

Lemma dedupe_first_again (D O Z : list string) :
  Scope.dedupe (D ++ O ++ D ++ Z)%list = Scope.dedupe (D ++ O ++ Z)%list.
Proof.
  replace (D ++ O ++ D ++ Z)%list with ((D ++ O) ++ D ++ Z)%list by list_norm.
  rewrite dedupe_app_seen; [f_equal; list_norm |].
  intros x Hx. apply elem_of_app. left. exact Hx.
Qed.

Lemma dedupe_second_again (D O Z : list string) :
  Scope.dedupe (D ++ O ++ O ++ Z)%list = Scope.dedupe (D ++ O ++ Z)%list.
Proof.
  replace (D ++ O ++ O ++ Z)%list with ((D ++ O) ++ O ++ Z)%list by list_norm.
  rewrite dedupe_app_seen; [f_equal; list_norm |].
  intros x Hx. apply elem_of_app. right. exact Hx.
Qed.

Lemma dedupe_third (D O Y P : list string) :
  Scope.dedupe (D ++ O ++ Scope.dedupe Y ++ P)%list = Scope.dedupe (D ++ O ++ Y ++ P)%list.
Proof.
  replace (D ++ O ++ Scope.dedupe Y ++ P)%list with ((D ++ O) ++ Scope.dedupe Y ++ P)%list
    by list_norm.
  rewrite dedupe_app_dedupe. f_equal. list_norm.
Qed.

(** The scope the refresh grant computes from the scope [getTokenSilently]
    passes on is that scope again, whether or not the constructor added
    [offline_access] to the scope of the client. *)
Lemma getUniqueScopes_again (d os ts pc : option string) :
  ts = os \/ ts = Some (Scope.getUniqueScopes [os; Some "offline_access"]) ->
  Scope.getUniqueScopes [d; os; Some (Scope.getUniqueScopes [d; ts; pc])] =
  Scope.getUniqueScopes [d; ts; pc].
Proof.
  intros Hts. unfold Scope.getUniqueScopes at 1 3. f_equal.
  rewrite !union3.
  change (Scope.arg_tokens (Some (Scope.getUniqueScopes [d; ts; pc])))
    with (Scope.tokens (Scope.getUniqueScopes [d; ts; pc])).
  rewrite tokens_getUniqueScopes, union3, dedupe_tail, dedupe_first_again.
  destruct Hts as [-> | ->].
  - apply dedupe_second_again.
  - change (Scope.arg_tokens (Some (Scope.getUniqueScopes [os; Some "offline_access"])))
      with (Scope.tokens (Scope.getUniqueScopes [os; Some "offline_access"])).
    rewrite tokens_getUniqueScopes, union2, dedupe_third, dedupe_app_dedupe.
    rewrite <- !app_assoc. apply dedupe_second_again.
Qed.

End ScopeFacts.

Section Properties.
Context (ext : Externals).

Ltac run :=
  unfold renew, Lock.acquireLock, Lock.releaseLock, _getTokenUsingRefreshToken,
    cache_get, cache_save, cache_clear, ClientStorage.save, ClientStorage.remove,
    TransactionManager.get, TransactionManager.remove, call_oauthToken, _verifyIdToken,
    access_token_of, lift_result, try_finally, bind, emit, modify, reads, ret, throw;
  simpl.

Lemma grant_without_refresh_token (c : Auth0Client) (o : GetTokenSilentlyOptions) (w : World) :
  match Cache.get (w_now w) (grant_cache_key c o)
          Cache.DEFAULT_EXPIRY_ADJUSTMENT_SECONDS (w_cache w) with
  | Some entry => Js.truthy (ce_refresh_token entry) = false
  | None => True
  end ->
  _getTokenUsingRefreshToken ext c o w =
    (Ok AuthUndefined,
     snd (emit (CacheGet (grant_cache_key c o) Cache.DEFAULT_EXPIRY_ADJUSTMENT_SECONDS) w)).
Proof.
  intros H. run.
  destruct (Cache.get (w_now w) (grant_cache_key c o)
              Cache.DEFAULT_EXPIRY_ADJUSTMENT_SECONDS (w_cache w)) as [entry |];
    [rewrite H |]; reflexivity.
Qed.

Lemma cached_refresh_token_None (c : Auth0Client) (o : GetTokenSilentlyOptions) (w : World) :
  cached_refresh_token c o w = None ->
  match Cache.get (w_now w) (grant_cache_key c (getTokenOptions c o))
          Cache.DEFAULT_EXPIRY_ADJUSTMENT_SECONDS (w_cache w) with
  | Some entry => Js.truthy (ce_refresh_token entry) = false
  | None => True
  end.
Proof.
  unfold cached_refresh_token.
  destruct (Cache.get _ _ _ _) as [entry |]; [| trivial].
  destruct (Js.truthy (ce_refresh_token entry)) eqn:E; [| reflexivity].
  intros H. rewrite H in E. discriminate.
Qed.

Lemma bind_Ok {A B : Type} (m : M A) (k : A -> M B) (w w' : World) (a : A) :
  m w = (Ok a, w') -> bind m k w = k a w'.
Proof. intros H. unfold bind. rewrite H. reflexivity. Qed.

Lemma bind_Throw {A B : Type} (m : M A) (k : A -> M B) (w w' : World) (e : JsError) :
  m w = (Throw e, w') -> bind m k w = (Throw e, w').
Proof. intros H. unfold bind. rewrite H. reflexivity. Qed.

Lemma acquireLock_spec (key : string) (timeout : Z) (w : World) :
  exists b w',
    Lock.acquireLock key timeout w = (Ok b, w') /\
    w_cache w' = w_cache w /\
    w_storage w' = w_storage w /\
    w_transactions w' = w_transactions w /\
    w_now w' = w_now w /\
    w_trace w' = (w_trace w ++ [AcquireLock key timeout])%list.
Proof.
  unfold Lock.acquireLock, bind, emit. simpl.
  destruct (w_locks w !! key); eexists _, _; repeat split.
Qed.

Lemma renew_bailout (c : Auth0Client) (o : GetTokenSilentlyOptions) (w : World) :
  refresh_applicable c o = false \/ cached_refresh_token c o w = None ->
  let out := renew ext c o w in
  fst out = (if refresh_applicable c o then Throw TYPE_ERROR else Ok None) /\
  w_cache (snd out) = Cache.save (w_now w) (bare_entry (o_client_id (options c))) (w_cache w) /\
  w_storage (snd out) = <["auth0.is.authenticated" := true]> (w_storage w) /\
  w_transactions (snd out) = w_transactions w /\
  w_trace (snd out) =
    (w_trace w ++ [AcquireLock GET_TOKEN_SILENTLY_LOCK_KEY 5000] ++
     (if refresh_applicable c o
      then [CacheGet (grant_cache_key c (getTokenOptions c o)) Cache.DEFAULT_EXPIRY_ADJUSTMENT_SECONDS]
      else []) ++
     [CacheSave (bare_entry (o_client_id (options c)));
      StorageSave "auth0.is.authenticated" true])%list.
Proof.
  intros H. unfold renew.
  destruct (acquireLock_spec GET_TOKEN_SILENTLY_LOCK_KEY 5000 w)
    as (b & wa & Hacq & Hc & Hs & Ht & Hn & Htr).
  rewrite (bind_Ok _ _ _ _ _ Hacq).
  destruct (refresh_applicable c o) eqn:Happ.
  - destruct H as [H | H]; [discriminate |].
    apply cached_refresh_token_None in H.
    rewrite <- Hc, <- Hn in H.
    rewrite (bind_Ok _ _ _ _ _ (grant_without_refresh_token c _ wa H)).
    run. rewrite Hc, Hs, Ht, Hn, Htr. repeat split.
    rewrite <- !app_assoc. reflexivity.
  - run. rewrite Hc, Hs, Ht, Hn, Htr. repeat split.
    rewrite <- !app_assoc. reflexivity.
Qed.

Lemma getTokenSilently_hit (c : Auth0Client) (o : GetTokenSilentlyOptions) (w : World)
    (tok : string) :
  cache_hit c o w = Some tok ->
  let out := getTokenSilently ext c o w in
  fst out = Ok (Some tok) /\
  w_cache (snd out) = w_cache w /\
  w_storage (snd out) = w_storage w /\
  w_transactions (snd out) = w_transactions w /\
  w_trace (snd out) =
    (w_trace w ++ [CacheGet (token_cache_key c o) 60;
                   ReleaseLock GET_TOKEN_SILENTLY_LOCK_KEY])%list.
Proof.
  unfold cache_hit. intros H.
  destruct (Js.truthyb (gts_ignoreCache o)) eqn:Hi; [discriminate |].
  destruct (Cache.get (w_now w) (token_cache_key c o) 60 (w_cache w))
    as [entry |] eqn:Hget; [| discriminate].
  destruct (Js.truthy (ce_access_token entry)) eqn:Ht; [| discriminate].
  unfold getTokenSilently.
  match goal with |- context [try_finally ?b _ _] => set (body := b) end.
  assert (Hbody : body (w) =
            (Ok (Some tok), snd (emit (CacheGet (token_cache_key c o) 60) w))).
  { unfold body. rewrite Hi. simpl. unfold bind at 1, cache_get.
    unfold bind, emit, reads. simpl. rewrite Hget, Ht, H. reflexivity. }
  destruct (try_finally_releaseLock body GET_TOKEN_SILENTLY_LOCK_KEY w)
    as (Hr & _ & _ & Htr & Hc & Hs & Htx).
  rewrite Hbody in Hr, Htr, Hc, Hs, Htx. simpl in *.
  rewrite Hr, Htr, Hc, Hs, Htx. repeat split.
  rewrite <- app_assoc. reflexivity.
Qed.

Lemma getTokenSilently_miss (c : Auth0Client) (o : GetTokenSilentlyOptions) (w : World) :
  cache_hit c o w = None ->
  exists w0,
    w_cache w0 = w_cache w /\
    w_storage w0 = w_storage w /\
    w_transactions w0 = w_transactions w /\
    w_now w0 = w_now w /\
    w_trace w0 = (w_trace w ++ lookup_events c o)%list /\
    getTokenSilently ext c o w =
      try_finally (renew ext c o) (Lock.releaseLock GET_TOKEN_SILENTLY_LOCK_KEY) w0.
Proof.
  unfold cache_hit, lookup_events, getTokenSilently. intros H.
  destruct (Js.truthyb (gts_ignoreCache o)) eqn:Hi; simpl.
  - exists w. rewrite app_nil_r. repeat split.
  - exists (snd (emit (CacheGet (token_cache_key c o) 60) w)). repeat split.
    unfold try_finally. f_equal.
    unfold bind at 1, cache_get. unfold bind at 1, emit at 1, reads. simpl.
    destruct (Cache.get (w_now w) (token_cache_key c o) 60 (w_cache w)) as [entry |];
      [| reflexivity].
    destruct (Js.truthy (ce_access_token entry)) eqn:Ht; [| reflexivity].
    destruct (truthy_inv _ Ht) as (s & Hs & _). rewrite Hs in H. discriminate.
Qed.

Lemma getTokenSilently_hit_events (c : Auth0Client) (o : GetTokenSilentlyOptions)
    (w : World) (tok : string) :
  cache_hit c o w = Some tok ->
  events_during (getTokenSilently ext c o) w =
    [CacheGet (token_cache_key c o) 60; ReleaseLock GET_TOKEN_SILENTLY_LOCK_KEY].
Proof.
  intros H. apply events_during_app.
  apply (getTokenSilently_hit c o w tok H).
Qed.

(** A record kept under the key of the call, expiring more than 60 seconds
    from now and holding a non-empty access token, is a hit. *)
Lemma fresh_record_is_hit (c : Auth0Client) (o : GetTokenSilentlyOptions) (w : World)
    (p : CachePayload) (t : Z) (tok : string) :
  Js.truthyb (gts_ignoreCache o) = false ->
  w_cache w !! token_cache_key c o = Some p ->
  expiresAt p = Some t ->
  60 < t - w_now w ->
  ce_access_token (body p) = Some tok ->
  tok <> EmptyString ->
  cache_hit c o w = Some tok.
Proof.
  intros Hi Hp Ht Hlt Htok Hne.
  unfold cache_hit, Cache.get, Cache.fresh. rewrite Hi, Hp, Ht.
  assert (Hlt' : (w_now w + 60 <? t) = true) by (apply Z.ltb_lt; lia).
  rewrite Hlt', Htok, (truthy_Some tok Hne). reflexivity.
Qed.

(** C3: every execution of getTokenSilently, whatever the token endpoint and
    the verifier answer and whether it returns or throws, ends with this tab
    not holding the getTokenSilently lock, the release of that lock being the
    last call it makes. *)
Theorem getTokenSilently_releases_lock (c : Auth0Client) (o : GetTokenSilentlyOptions)
    (w : World) :
  w_locks (snd (getTokenSilently ext c o w)) !! GET_TOKEN_SILENTLY_LOCK_KEY <> Some ThisTab /\
  last (w_trace (snd (getTokenSilently ext c o w))) =
    Some (ReleaseLock GET_TOKEN_SILENTLY_LOCK_KEY).
Proof.
  unfold getTokenSilently.
  match goal with |- context [try_finally ?b _ _] => set (tried := b) end.
  destruct (try_finally_releaseLock tried GET_TOKEN_SILENTLY_LOCK_KEY w)
    as (_ & Hlock & Hlast & _).
  split; assumption.
Qed.

(** The key of the lookup, property by property: the audience is the one
    of the call when the call has the property, be it [undefined], and the
    one of the client otherwise, and [default] when that is not truthy. *)
Lemma token_cache_key_audience (c : Auth0Client) (o : GetTokenSilentlyOptions) :
  token_cache_key c o =
    (o_client_id (options c),
     Some (Js.or_lit
             match gts_audience o with
             | Some audience => audience
             | None => o_audience (options c)
             end "default"),
     Some (key_scope c (gts_scope o))).
Proof. reflexivity. Qed.

(** A call that passes [audience: undefined] reads under [default], whatever
    the audience of the client. *)
Lemma token_cache_key_undefined_audience (c : Auth0Client) (o : GetTokenSilentlyOptions) :
  gts_audience o = Some None ->
  token_cache_key c o =
    (o_client_id (options c), Some "default", Some (key_scope c (gts_scope o))).
Proof. intros H. rewrite token_cache_key_audience, H. reflexivity. Qed.

(** On a client configured with an audience, the record kept under
    [default] is served to the call that passes [audience: undefined] and
    not to the call that passes no audience, which reads under the audience
    of the client. *)
Lemma undefined_audience_example :
  fst (getTokenSilently Demo.ext Sample.api_client Sample.undefined_audience
         Demo.cached_world) = Ok (Some "AT-1") /\
  events_during (getTokenSilently Demo.ext Sample.api_client Sample.undefined_audience)
    Demo.cached_world =
    [CacheGet ("CID", Some "default", Some "openid profile email") 60;
     ReleaseLock GET_TOKEN_SILENTLY_LOCK_KEY] /\
  cache_hit Sample.api_client Demo.no_options Demo.cached_world = None /\
  token_cache_key Sample.api_client Demo.no_options =
    ("CID", Some "https://api.example", Some "openid profile email").
Proof. repeat split; vm_compute; reflexivity. Qed.

(** C5 (amended): with ignoreCache false, a record kept for the key
    (client_id, audience, scope) of the call whose expiry is more than 60
    seconds away and whose access token is not empty is returned as it is:
    the token endpoint is not called and the lock is not acquired. *)
Theorem getTokenSilently_serves_fresh_record (c : Auth0Client) (o : GetTokenSilentlyOptions)
    (w : World) (p : CachePayload) (t : Z) (tok : string) :
  Js.truthyb (gts_ignoreCache o) = false ->
  w_cache w !! token_cache_key c o = Some p ->
  expiresAt p = Some t ->
  60 < t - w_now w ->
  ce_access_token (body p) = Some tok ->
  tok <> EmptyString ->
  fst (getTokenSilently ext c o w) = Ok (Some tok) /\
  calls_token_endpoint (events_during (getTokenSilently ext c o) w) = false /\
  acquires_lock (events_during (getTokenSilently ext c o) w) = false.
Proof.
  intros Hi Hp Ht Hlt Htok Hne.
  pose proof (fresh_record_is_hit c o w p t tok Hi Hp Ht Hlt Htok Hne) as Hhit.
  rewrite (getTokenSilently_hit_events c o w tok Hhit).
  split; [apply (getTokenSilently_hit c o w tok Hhit) |].
  split; reflexivity.
Qed.

(** C10: an execution of getTokenSilently that returns from the cache-hit
    path calls releaseLock on the lock although it never called acquireLock. *)
Theorem cache_hit_releases_without_acquiring (c : Auth0Client) (o : GetTokenSilentlyOptions)
    (w : World) (tok : string) :
  cache_hit c o w = Some tok ->
  fst (getTokenSilently ext c o w) = Ok (Some tok) /\
  releases_lock (events_during (getTokenSilently ext c o) w) = true /\
  acquires_lock (events_during (getTokenSilently ext c o) w) = false /\
  last (events_during (getTokenSilently ext c o) w) =
    Some (ReleaseLock GET_TOKEN_SILENTLY_LOCK_KEY).
Proof.
  intros Hhit.
  rewrite (getTokenSilently_hit_events c o w tok Hhit).
  split; [apply (getTokenSilently_hit c o w tok Hhit) |].
  repeat split.
Qed.

Lemma refresh_applicable_false (c : Auth0Client) (o : GetTokenSilentlyOptions) :
  Js.truthyb (o_useRefreshTokens (options c)) = false \/ Js.truthy (Js.read (gts_audience o)) = true ->
  refresh_applicable c o = false.
Proof.
  unfold refresh_applicable. intros [H | H]; rewrite H; [reflexivity |].
  apply andb_false_r.
Qed.

(** What a failed renewal leaves behind, at the level of [getTokenSilently]. *)
Lemma getTokenSilently_bailout (c : Auth0Client) (o : GetTokenSilentlyOptions) (w : World) :
  cache_hit c o w = None ->
  refresh_applicable c o = false \/ cached_refresh_token c o w = None ->
  let out := getTokenSilently ext c o w in
  fst out = (if refresh_applicable c o then Throw TYPE_ERROR else Ok None) /\
  w_cache (snd out) = Cache.save (w_now w) (bare_entry (o_client_id (options c))) (w_cache w) /\
  w_storage (snd out) = <["auth0.is.authenticated" := true]> (w_storage w) /\
  events_during (getTokenSilently ext c o) w =
    (lookup_events c o ++
     [AcquireLock GET_TOKEN_SILENTLY_LOCK_KEY 5000] ++
     (if refresh_applicable c o
      then [CacheGet (grant_cache_key c (getTokenOptions c o)) Cache.DEFAULT_EXPIRY_ADJUSTMENT_SECONDS]
      else []) ++
     [CacheSave (bare_entry (o_client_id (options c)));
      StorageSave "auth0.is.authenticated" true;
      ReleaseLock GET_TOKEN_SILENTLY_LOCK_KEY])%list.
Proof.
  intros Hmiss Hwhy.
  destruct (getTokenSilently_miss c o w Hmiss) as (w0 & Hc & Hs & Ht & Hn & Htr & Heq).
  assert (Hwhy0 : refresh_applicable c o = false \/ cached_refresh_token c o w0 = None).
  { destruct Hwhy as [H | H]; [left; exact H | right].
    unfold cached_refresh_token in *. rewrite Hc, Hn. exact H. }
  destruct (renew_bailout c o w0 Hwhy0) as (Rr & Rc & Rs & Rt & Rtr).
  destruct (try_finally_releaseLock (renew ext c o) GET_TOKEN_SILENTLY_LOCK_KEY w0)
    as (Fr & _ & _ & Ftr & Fc & Fs & _).
  cbv zeta. split; [| split; [| split]].
  - rewrite Heq, Fr. exact Rr.
  - rewrite Heq, Fc, Rc, Hc, Hn. reflexivity.
  - rewrite Heq, Fs, Rs, Hs. reflexivity.
  - apply events_during_app. rewrite Heq, Ftr, Rtr, Htr.
    rewrite <- !app_assoc. reflexivity.
Qed.

(** C1: a call of getTokenSilently whose cache lookup misses and for which
    refresh tokens are not enabled or an audience was passed does not fail:
    it returns [undefined]. *)
Theorem getTokenSilently_inapplicable_returns_undefined (c : Auth0Client)
    (o : GetTokenSilentlyOptions) (w : World) :
  cache_hit c o w = None ->
  Js.truthyb (o_useRefreshTokens (options c)) = false \/ Js.truthy (Js.read (gts_audience o)) = true ->
  fst (getTokenSilently ext c o w) = Ok None.
Proof.
  intros Hmiss Hwhy.
  pose proof (refresh_applicable_false c o Hwhy) as Happ.
  destruct (getTokenSilently_bailout c o w Hmiss (or_introl Happ)) as (Hr & _).
  rewrite Hr, Happ. reflexivity.
Qed.

(** C9: on every execution of getTokenSilently that reaches the renewal and
    in which the refresh path is inapplicable (refresh tokens disabled or an
    audience given) or no cached refresh token is found, a cache entry is
    still written (the one holding the client id alone) and the persisted
    authenticated flag is set to true, in this order and before the lock is
    released and the call returns or throws: the failure path is not atomic
    with respect to the cache and the flag. *)
Theorem failed_renewal_writes_cache_and_flag (c : Auth0Client) (o : GetTokenSilentlyOptions)
    (w : World) :
  cache_hit c o w = None ->
  Js.truthyb (o_useRefreshTokens (options c)) = false \/
  Js.truthy (Js.read (gts_audience o)) = true \/
  cached_refresh_token c o w = None ->
  (fst (getTokenSilently ext c o w) = Ok None \/
   fst (getTokenSilently ext c o w) = Throw TYPE_ERROR) /\
  w_cache (snd (getTokenSilently ext c o w)) !! (o_client_id (options c), None, None) =
    Some {| body := bare_entry (o_client_id (options c)); expiresAt := None |} /\
  is_authenticated_flag (snd (getTokenSilently ext c o w)) = true /\
  exists before,
    events_during (getTokenSilently ext c o) w =
      (before ++ [CacheSave (bare_entry (o_client_id (options c)));
                  StorageSave "auth0.is.authenticated" true;
                  ReleaseLock GET_TOKEN_SILENTLY_LOCK_KEY])%list.
Proof.
  intros Hmiss Hwhy.
  assert (Hwhy' : refresh_applicable c o = false \/ cached_refresh_token c o w = None).
  { destruct Hwhy as [H | [H | H]];
      [left; apply refresh_applicable_false; left; exact H
      | left; apply refresh_applicable_false; right; exact H
      | right; exact H]. }
  destruct (getTokenSilently_bailout c o w Hmiss Hwhy') as (Hr & Hc & Hs & Hev).
  split; [| split; [| split]].
  - rewrite Hr. destruct (refresh_applicable c o); [right | left]; reflexivity.
  - rewrite Hc. unfold Cache.save. simpl. apply lookup_insert_eq.
  - unfold is_authenticated_flag. rewrite Hs, lookup_insert_eq. reflexivity.
  - eexists. rewrite Hev. rewrite !app_assoc. reflexivity.
Qed.

(** C2: when the cache holds no entry under the key of the grant, or the
    entry has no refresh token, [_getTokenUsingRefreshToken] does not fail: it
    returns [undefined] after the lookup, without calling the token endpoint. *)
Theorem refresh_grant_without_token_returns_undefined (c : Auth0Client)
    (o : GetTokenSilentlyOptions) (w : World) :
  w_cache w !! grant_cache_key c o = None \/
  (exists p, w_cache w !! grant_cache_key c o = Some p /\ ce_refresh_token (body p) = None) ->
  fst (_getTokenUsingRefreshToken ext c o w) = Ok AuthUndefined /\
  events_during (_getTokenUsingRefreshToken ext c o) w =
    [CacheGet (grant_cache_key c o) Cache.DEFAULT_EXPIRY_ADJUSTMENT_SECONDS].
Proof.
  intros H.
  rewrite (events_during_app _ w
             [CacheGet (grant_cache_key c o) Cache.DEFAULT_EXPIRY_ADJUSTMENT_SECONDS]);
    rewrite grant_without_refresh_token; try (split; reflexivity).
  all: unfold Cache.get; destruct H as [H | (p & H & Hp)]; rewrite H; [trivial |];
    destruct (Cache.fresh _ _ p); [rewrite Hp; reflexivity | trivial].
Qed.

Lemma handleRedirectCallback_unknown_state (c : Auth0Client) (url : string) (w : World)
    (s : string) :
  queryStringFragments url <> [] ->
  q_state (callback_query ext url) = Some s ->
  w_transactions w !! s = None ->
  handleRedirectCallback ext c url w =
    (Throw (Error "Invalid state"), snd (emit (TransactionGet (Some s)) w)).
Proof.
  unfold handleRedirectCallback, callback_query. intros Hq Hs Hno.
  destruct (queryStringFragments url) as [| f fs]; [contradiction |].
  remember (parseQueryResult ext (Js.join_empty (f :: fs))) as q eqn:Eq. clear Eq.
  run. rewrite Hs, Hno. reflexivity.
Qed.

Lemma handleRedirectCallback_success (c : Auth0Client) (url : string) (w : World)
    (s : string) (transaction : Transaction) (authResult : TokenResponse)
    (decodedToken : DecodedToken) :
  queryStringFragments url <> [] ->
  q_state (callback_query ext url) = Some s ->
  Js.truthy (q_error (callback_query ext url)) = false ->
  w_transactions w !! s = Some transaction ->
  oauthToken ext (tokenOptions c transaction (q_code (callback_query ext url))) = Ok authResult ->
  verifyIdToken ext (verify_options ext c (tr_id_token authResult) (Some (tx_nonce transaction)))
    = Ok decodedToken ->
  let out := handleRedirectCallback ext c url w in
  fst out = Ok {| appState := tx_appState transaction |} /\
  w_transactions (snd out) = delete s (w_transactions w) /\
  w_cache (snd out) =
    Cache.save (w_now w) (cacheEntry c transaction authResult decodedToken) (w_cache w) /\
  w_storage (snd out) = <["auth0.is.authenticated" := true]> (w_storage w).
Proof.
  unfold handleRedirectCallback, callback_query. intros Hq Hs He Htx Hex Hv.
  destruct (queryStringFragments url) as [| f fs]; [contradiction |].
  remember (parseQueryResult ext (Js.join_empty (f :: fs))) as q eqn:Eq. clear Eq.
  run. rewrite Hs, Htx, He. simpl. rewrite Hex. simpl. rewrite Hv. simpl.
  repeat split.
Qed.

(** C4: when a callback URL whose state names a live transaction and whose
    code the token endpoint and the verifier accept is handled twice, the
    first call returns the appState and removes the transaction, and the
    second call, finding no transaction under that state, throws the Invalid
    state error without calling the token endpoint. *)
Theorem handleRedirectCallback_twice (c : Auth0Client) (url : string) (w : World)
    (s : string) (transaction : Transaction) (authResult : TokenResponse)
    (decodedToken : DecodedToken) :
  queryStringFragments url <> [] ->
  q_state (callback_query ext url) = Some s ->
  Js.truthy (q_error (callback_query ext url)) = false ->
  w_transactions w !! s = Some transaction ->
  oauthToken ext (tokenOptions c transaction (q_code (callback_query ext url))) = Ok authResult ->
  verifyIdToken ext (verify_options ext c (tr_id_token authResult) (Some (tx_nonce transaction)))
    = Ok decodedToken ->
  fst (handleRedirectCallback ext c url w) = Ok {| appState := tx_appState transaction |} /\
  w_transactions (snd (handleRedirectCallback ext c url w)) !! s = None /\
  fst (handleRedirectCallback ext c url (snd (handleRedirectCallback ext c url w)))
    = Throw (Error "Invalid state") /\
  events_during (handleRedirectCallback ext c url) (snd (handleRedirectCallback ext c url w))
    = [TransactionGet (Some s)].
Proof.
  intros Hq Hs He Htx Hex Hv.
  destruct (handleRedirectCallback_success c url w s transaction authResult decodedToken
              Hq Hs He Htx Hex Hv) as (Hr & Ht & _).
  assert (Hgone : w_transactions (snd (handleRedirectCallback ext c url w)) !! s = None)
    by (rewrite Ht; apply lookup_delete_eq).
  split; [exact Hr |]. split; [exact Hgone |].
  rewrite (events_during_app _ _ [TransactionGet (Some s)]);
    rewrite (handleRedirectCallback_unknown_state c url _ s Hq Hs Hgone);
    try (split; reflexivity).
Qed.

(** C6 (amended): for every callback URL whose query carries a non-empty
    error parameter and whose state names a live transaction,
    handleRedirectCallback removes that transaction, does not call the token
    endpoint, and throws an AuthenticationError carrying the error code, the
    description, the state and the appState of the transaction. *)
Theorem handleRedirectCallback_error (c : Auth0Client) (url : string) (w : World)
    (s e : string) (transaction : Transaction) :
  queryStringFragments url <> [] ->
  q_state (callback_query ext url) = Some s ->
  q_error (callback_query ext url) = Some e ->
  e <> EmptyString ->
  w_transactions w !! s = Some transaction ->
  fst (handleRedirectCallback ext c url w) =
    Throw (AuthenticationError (Some e) (q_error_description (callback_query ext url))
             (Some s) (tx_appState transaction)) /\
  w_transactions (snd (handleRedirectCallback ext c url w)) = delete s (w_transactions w) /\
  events_during (handleRedirectCallback ext c url) w =
    [TransactionGet (Some s); TransactionRemove (Some s)].
Proof.
  unfold events_during, handleRedirectCallback, callback_query. intros Hq Hs He Hne Htx.
  destruct (queryStringFragments url) as [| f fs]; [contradiction |].
  remember (parseQueryResult ext (Js.join_empty (f :: fs))) as q eqn:Eq. clear Eq.
  run. rewrite Hs, Htx, He, (truthy_Some e Hne). simpl.
  repeat split. rewrite <- app_assoc. apply drop_app_length.
Qed.

(** C7: a logout call with both federated and localOnly set to true throws
    the configuration error and leaves the world as it found it: the
    credential cache and the authenticated flag are unchanged and no call
    was made. *)
Theorem logout_federated_and_localOnly (c : Auth0Client) (o : LogoutOptions) (w : World) :
  lo_federated o = Some true ->
  lo_localOnly o = Some true ->
  logout ext c o w =
    (Throw (Error "It is invalid to set both the `federated` and `localOnly` options to `true`"),
     w) /\
  w_cache (snd (logout ext c o w)) = w_cache w /\
  is_authenticated_flag (snd (logout ext c o w)) = is_authenticated_flag w /\
  events_during (logout ext c o) w = [].
Proof.
  intros Hf Hl. unfold events_during, logout. rewrite Hf, Hl. simpl.
  repeat split. apply drop_all.
Qed.

Lemma renew_keys (c : Auth0Client) (o : GetTokenSilentlyOptions) (w : World) :
  exists evs,
    w_trace (snd (renew ext c o w)) = (w_trace w ++ evs)%list /\
    Forall (fun k => k = grant_cache_key c (getTokenOptions c o)) (keys_read evs) /\
    Forall (fun e => e = bare_entry (o_client_id (options c)) \/
                     Cache.key_of e = grant_cache_key c (getTokenOptions c o))
      (entries_saved evs).
Proof.
  run.
  destruct (w_locks w !! GET_TOKEN_SILENTLY_LOCK_KEY); simpl;
    destruct (refresh_applicable c o); simpl.
  all: try (destruct (Cache.get _ _ _ _) as [entry |]; simpl).
  all: try (destruct (Js.truthy (ce_refresh_token entry)); simpl).
  all: try (destruct (oauthToken ext _) as [tokenResult | err]; simpl).
  all: try (destruct (verifyIdToken ext _) as [decodedToken | err]; simpl).
  all: eexists; (split; [rewrite <- ?app_assoc; reflexivity |]); simpl; split.
  all: repeat first
         [ apply Forall_nil_2
         | apply Forall_cons; split
         | reflexivity
         | left; reflexivity
         | right; reflexivity ].
Qed.

(** The part of the [try] block after the lookup takes the lock when it is
    free and still holds it when it ends, however it ends: the release is
    the work of the [finally] block alone. *)
Lemma renew_holds_lock (c : Auth0Client) (o : GetTokenSilentlyOptions) (w : World) :
  w_locks w !! GET_TOKEN_SILENTLY_LOCK_KEY = None ->
  w_locks (snd (renew ext c o w)) !! GET_TOKEN_SILENTLY_LOCK_KEY = Some ThisTab.
Proof.
  intros Hfree. run. rewrite Hfree. simpl.
  destruct (refresh_applicable c o); simpl.
  all: try (destruct (Cache.get _ _ _ _) as [entry |]; simpl).
  all: try (destruct (Js.truthy (ce_refresh_token entry)); simpl).
  all: try (destruct (oauthToken ext _) as [tokenResult | err]; simpl).
  all: try (destruct (verifyIdToken ext _) as [decodedToken | err]; simpl).
  all: apply lookup_insert_eq.
Qed.

Lemma getTokenSilently_keys (c : Auth0Client) (o : GetTokenSilentlyOptions) (w : World) :
  grant_cache_key c (getTokenOptions c o) = token_cache_key c o ->
  Forall (fun k => k = token_cache_key c o)
    (keys_read (events_during (getTokenSilently ext c o) w)) /\
  Forall (fun e => e = bare_entry (o_client_id (options c)) \/
                   Cache.key_of e = token_cache_key c o)
    (entries_saved (events_during (getTokenSilently ext c o) w)).
Proof.
  intros Hkey.
  destruct (cache_hit c o w) as [tok |] eqn:Hhit.
  - rewrite (getTokenSilently_hit_events c o w tok Hhit). simpl.
    split; repeat constructor.
  - destruct (getTokenSilently_miss c o w Hhit) as (w0 & _ & _ & _ & _ & Htr & Heq).
    destruct (renew_keys c o w0) as (evs & Hev & Hk & Hs).
    destruct (try_finally_releaseLock (renew ext c o) GET_TOKEN_SILENTLY_LOCK_KEY w0)
      as (_ & _ & _ & Ftr & _).
    rewrite (events_during_app _ w
               (lookup_events c o ++ evs ++ [ReleaseLock GET_TOKEN_SILENTLY_LOCK_KEY])%list).
    + unfold keys_read, entries_saved in *. rewrite !omap_app, !Forall_app.
      rewrite <- Hkey. unfold lookup_events.
      destruct (Js.truthyb (gts_ignoreCache o)); simpl;
        repeat split; try assumption; repeat constructor.
      symmetry. exact Hkey.
    + rewrite Heq, Ftr, Hev, Htr. rewrite <- !app_assoc. reflexivity.
Qed.

(** For a client made by the constructor, the refresh grant looks up and
    saves under the key [getTokenSilently] looked up first. *)
Lemma grant_key_is_token_key (co : Auth0ClientOptions) (o : GetTokenSilentlyOptions) :
  grant_cache_key (new_Auth0Client co) (getTokenOptions (new_Auth0Client co) o) =
  token_cache_key (new_Auth0Client co) o.
Proof.
  unfold grant_cache_key, token_cache_key, getTokenOptions. simpl.
  f_equal. f_equal. apply getUniqueScopes_again.
  destruct (Js.truthyb (o_useRefreshTokens co)); [right | left]; reflexivity.
Qed.

Lemma getIdTokenClaims_events (c : Auth0Client) (og : GetUserOptions) (w : World) :
  events_during (getIdTokenClaims c (Some og)) w =
    [CacheGet (o_client_id (options c), gu_audience og, Some (key_scope c (gu_scope og)))
       Cache.DEFAULT_EXPIRY_ADJUSTMENT_SECONDS].
Proof. apply events_during_app. reflexivity. Qed.

Lemma getUser_events (c : Auth0Client) (og : GetUserOptions) (w : World) :
  events_during (getUser c (Some og)) w =
    [CacheGet (o_client_id (options c), gu_audience og,
               Some (Scope.getUniqueScopes [Some (defaultScope c); gu_scope og]))
       Cache.DEFAULT_EXPIRY_ADJUSTMENT_SECONDS].
Proof. apply events_during_app. reflexivity. Qed.

Lemma elem_of_union3 (a b c : option string) (x : string) :
  x ∈ Scope.union [a; b; c] <->
  x ∈ Scope.arg_tokens a \/ x ∈ Scope.arg_tokens b \/ x ∈ Scope.arg_tokens c.
Proof.
  rewrite union3. unfold Scope.dedupe.
  rewrite elem_of_dedupe_from, !elem_of_app, elem_of_nil. tauto.
Qed.


End Properties.

(** * The theorems at concrete inputs *)

(** C1 at a client without refresh tokens and an empty cache. *)
Lemma getTokenSilently_inapplicable_witness :
  cache_hit Demo.plain_client Demo.no_options Demo.empty_world = None /\
  Js.truthyb (o_useRefreshTokens (options Demo.plain_client)) = false /\
  fst (getTokenSilently Demo.ext Demo.plain_client Demo.no_options Demo.empty_world) = Ok None.
Proof.
  split; [vm_compute; reflexivity |]. split; [reflexivity |].
  apply (getTokenSilently_inapplicable_returns_undefined Demo.ext).
  - vm_compute. reflexivity.
  - left. reflexivity.
Defined.

(** C2 at a client with refresh tokens and an empty cache. *)
Lemma refresh_grant_without_token_witness :
  w_cache Demo.empty_world !! grant_cache_key Demo.refreshing_client Demo.no_options = None /\
  fst (_getTokenUsingRefreshToken Demo.ext Demo.refreshing_client Demo.no_options
         Demo.empty_world) = Ok AuthUndefined /\
  events_during (_getTokenUsingRefreshToken Demo.ext Demo.refreshing_client Demo.no_options)
    Demo.empty_world =
    [CacheGet (grant_cache_key Demo.refreshing_client Demo.no_options)
       Cache.DEFAULT_EXPIRY_ADJUSTMENT_SECONDS].
Proof.
  split; [vm_compute; reflexivity |].
  apply (refresh_grant_without_token_returns_undefined Demo.ext).
  left. vm_compute. reflexivity.
Defined.

(** C4 at a callback carrying a code for the attempt in flight. *)
Lemma handleRedirectCallback_twice_witness :
  fst (handleRedirectCallback Demo.ext Demo.plain_client Demo.code_callback
         Demo.world_awaiting_callback) = Ok {| appState := tx_appState Demo.transaction |} /\
  w_transactions
    (snd (handleRedirectCallback Demo.ext Demo.plain_client Demo.code_callback
            Demo.world_awaiting_callback)) !! "S-1" = None /\
  fst (handleRedirectCallback Demo.ext Demo.plain_client Demo.code_callback
         (snd (handleRedirectCallback Demo.ext Demo.plain_client Demo.code_callback
                 Demo.world_awaiting_callback))) = Throw (Error "Invalid state") /\
  events_during (handleRedirectCallback Demo.ext Demo.plain_client Demo.code_callback)
    (snd (handleRedirectCallback Demo.ext Demo.plain_client Demo.code_callback
            Demo.world_awaiting_callback)) = [TransactionGet (Some "S-1")].
Proof.
  apply (handleRedirectCallback_twice Demo.ext Demo.plain_client Demo.code_callback
           Demo.world_awaiting_callback "S-1" Demo.transaction Demo.tokens Demo.decoded).
  - vm_compute. discriminate.
  - vm_compute. reflexivity.
  - vm_compute. reflexivity.
  - vm_compute. reflexivity.
  - reflexivity.
  - reflexivity.
Defined.

(** C5 at a record saved at time 1000 for 3600 seconds. *)
Lemma getTokenSilently_serves_fresh_record_witness :
  fst (getTokenSilently Demo.ext Demo.refreshing_client Demo.no_options Demo.refreshing_world)
    = Ok (Some "AT-1") /\
  calls_token_endpoint
    (events_during (getTokenSilently Demo.ext Demo.refreshing_client Demo.no_options)
       Demo.refreshing_world) = false /\
  acquires_lock
    (events_during (getTokenSilently Demo.ext Demo.refreshing_client Demo.no_options)
       Demo.refreshing_world) = false.
Proof.
  apply (getTokenSilently_serves_fresh_record Demo.ext Demo.refreshing_client Demo.no_options
           Demo.refreshing_world
           {| body := Demo.refreshing_record; expiresAt := Some 4600 |} 4600 "AT-1").
  - reflexivity.
  - vm_compute. reflexivity.
  - reflexivity.
  - vm_compute. reflexivity.
  - reflexivity.
  - discriminate.
Defined.

(** C6 at a callback carrying [access_denied] for the attempt in flight. *)
Lemma handleRedirectCallback_error_witness :
  fst (handleRedirectCallback Demo.ext Demo.plain_client Demo.error_callback
         Demo.world_awaiting_callback) =
    Throw (AuthenticationError (Some "access_denied")
             (q_error_description (callback_query Demo.ext Demo.error_callback))
             (Some "S-1") (tx_appState Demo.transaction)) /\
  w_transactions
    (snd (handleRedirectCallback Demo.ext Demo.plain_client Demo.error_callback
            Demo.world_awaiting_callback)) =
    delete "S-1" (w_transactions Demo.world_awaiting_callback) /\
  events_during (handleRedirectCallback Demo.ext Demo.plain_client Demo.error_callback)
    Demo.world_awaiting_callback =
    [TransactionGet (Some "S-1"); TransactionRemove (Some "S-1")].
Proof.
  apply (handleRedirectCallback_error Demo.ext Demo.plain_client Demo.error_callback
           Demo.world_awaiting_callback "S-1" "access_denied" Demo.transaction).
  - vm_compute. discriminate.
  - vm_compute. reflexivity.
  - vm_compute. reflexivity.
  - discriminate.
  - vm_compute. reflexivity.
Defined.

(** C7 at a logout asking for both, with a record in the cache. *)
Lemma logout_federated_and_localOnly_witness :
  logout Demo.ext Demo.plain_client Demo.both_logout Demo.cached_world =
    (Throw (Error "It is invalid to set both the `federated` and `localOnly` options to `true`"),
     Demo.cached_world) /\
  w_cache (snd (logout Demo.ext Demo.plain_client Demo.both_logout Demo.cached_world)) =
    w_cache Demo.cached_world /\
  is_authenticated_flag
    (snd (logout Demo.ext Demo.plain_client Demo.both_logout Demo.cached_world)) =
    is_authenticated_flag Demo.cached_world /\
  events_during (logout Demo.ext Demo.plain_client Demo.both_logout) Demo.cached_world = [].
Proof.
  apply (logout_federated_and_localOnly Demo.ext Demo.plain_client Demo.both_logout
           Demo.cached_world); reflexivity.
Defined.

(** C9 at a client with refresh tokens and an empty cache: the call throws
    after the two writes. *)
Lemma failed_renewal_writes_cache_and_flag_witness :
  (fst (getTokenSilently Demo.ext Demo.refreshing_client Demo.no_options Demo.empty_world)
     = Ok None \/
   fst (getTokenSilently Demo.ext Demo.refreshing_client Demo.no_options Demo.empty_world)
     = Throw TYPE_ERROR) /\
  w_cache (snd (getTokenSilently Demo.ext Demo.refreshing_client Demo.no_options
                  Demo.empty_world)) !! ("CID", None, None) =
    Some {| body := bare_entry "CID"; expiresAt := None |} /\
  is_authenticated_flag
    (snd (getTokenSilently Demo.ext Demo.refreshing_client Demo.no_options Demo.empty_world))
    = true /\
  exists before,
    events_during (getTokenSilently Demo.ext Demo.refreshing_client Demo.no_options)
      Demo.empty_world =
      (before ++ [CacheSave (bare_entry "CID");
                  StorageSave "auth0.is.authenticated" true;
                  ReleaseLock GET_TOKEN_SILENTLY_LOCK_KEY])%list.
Proof.
  apply (failed_renewal_writes_cache_and_flag Demo.ext Demo.refreshing_client
           Demo.no_options Demo.empty_world).
  - vm_compute. reflexivity.
  - right. right. vm_compute. reflexivity.
Defined.

(** C10 at a record that is served. *)
Lemma cache_hit_releases_without_acquiring_witness :
  fst (getTokenSilently Demo.ext Demo.plain_client Demo.no_options Demo.cached_world)
    = Ok (Some "AT-1") /\
  releases_lock
    (events_during (getTokenSilently Demo.ext Demo.plain_client Demo.no_options)
       Demo.cached_world) = true /\
  acquires_lock
    (events_during (getTokenSilently Demo.ext Demo.plain_client Demo.no_options)
       Demo.cached_world) = false /\
  last (events_during (getTokenSilently Demo.ext Demo.plain_client Demo.no_options)
          Demo.cached_world) = Some (ReleaseLock GET_TOKEN_SILENTLY_LOCK_KEY).
Proof.
  apply (cache_hit_releases_without_acquiring Demo.ext Demo.plain_client Demo.no_options
           Demo.cached_world "AT-1").
  vm_compute. reflexivity.
Defined.

(** C5 as stated fails: a record kept under the key of the call, expiring
    3600 seconds from now, whose access token is the empty string, is not
    returned; the call takes the lock and exchanges the refresh token. *)
Lemma fresh_record_with_empty_access_token_not_served :
  Js.truthyb (gts_ignoreCache Demo.no_options) = false /\
  w_cache Demo.empty_token_world !! token_cache_key Demo.refreshing_client Demo.no_options =
    Some {| body := Demo.empty_token_record; expiresAt := Some 4600 |} /\
  60 < 4600 - w_now Demo.empty_token_world /\
  ce_access_token Demo.empty_token_record = Some EmptyString /\
  fst (getTokenSilently Demo.ext Demo.refreshing_client Demo.no_options Demo.empty_token_world)
    = Ok (Some "AT-2") /\
  acquires_lock
    (events_during (getTokenSilently Demo.ext Demo.refreshing_client Demo.no_options)
       Demo.empty_token_world) = true /\
  calls_token_endpoint
    (events_during (getTokenSilently Demo.ext Demo.refreshing_client Demo.no_options)
       Demo.empty_token_world) = true.
Proof. repeat split; vm_compute; reflexivity. Qed.

(** C6 as stated fails: a callback whose query carries an empty error
    parameter for the attempt in flight is handled as a success: the token
    endpoint is called and no AuthenticationError is thrown. *)
Lemma empty_error_parameter_is_exchanged :
  q_error (callback_query Demo.ext Demo.empty_error_callback) = Some EmptyString /\
  q_state (callback_query Demo.ext Demo.empty_error_callback) = Some "S-1" /\
  w_transactions Demo.world_awaiting_callback !! "S-1" = Some Demo.transaction /\
  fst (handleRedirectCallback Demo.ext Demo.plain_client Demo.empty_error_callback
         Demo.world_awaiting_callback) = Ok {| appState := tx_appState Demo.transaction |} /\
  calls_token_endpoint
    (events_during (handleRedirectCallback Demo.ext Demo.plain_client Demo.empty_error_callback)
       Demo.world_awaiting_callback) = true.
Proof. repeat split; vm_compute; reflexivity. Qed.




(** * Further properties of the class *)

(** ** [handleRedirectCallback] *)

Section Callback.

Context (ext : Externals).

Lemma split_without_separator (c : ascii) (s : string) :
  occurs c s = false -> Js.split c s = [s].
Proof.
  induction s as [| a s IH]; simpl; [reflexivity |].
  intros H. apply orb_false_elim in H as [Ha Hs].
  rewrite Ha, (IH Hs). reflexivity.
Qed.

Lemma split_with_separator (c : ascii) (s : string) :
  occurs c s = true -> exists p q ps, Js.split c s = p :: q :: ps.
Proof.
  induction s as [| a s IH]; simpl; [discriminate |].
  destruct (Ascii.eqb a c) eqn:Ha; simpl.
  - intros _. destruct (Js.split c s) as [| q ps] eqn:E.
    + destruct s; simpl in E; [discriminate |].
      destruct (Ascii.eqb _ c); [discriminate |].
      destruct (Js.split c s); discriminate.
    + eauto.
  - intros H. destruct (IH H) as (p & q & ps & ->). eauto.
Qed.

Lemma fragments_of_query (url : string) :
  occurs "?" url = true -> queryStringFragments url <> [].
Proof.
  intros H. unfold queryStringFragments.
  destruct (split_with_separator _ _ H) as (p & q & ps & ->). discriminate.
Qed.

(** X1: a callback URL without a question mark is refused before anything is
    looked up: the parse error is thrown and the world is left as it was. *)
Theorem handleRedirectCallback_without_query (c : Auth0Client) (url : string) (w : World) :
  occurs "?" url = false ->
  handleRedirectCallback ext c url w =
    (Throw (Error "There are no query params available for parsing."), w).
Proof.
  intros H. unfold handleRedirectCallback, queryStringFragments.
  rewrite (split_without_separator _ _ H). reflexivity.
Qed.

(** What a callback whose state names a transaction does, outcome by
    outcome. *)
Lemma handleRedirectCallback_found (c : Auth0Client) (url : string) (w : World)
    (s : string) (transaction : Transaction) :
  queryStringFragments url <> [] ->
  q_state (callback_query ext url) = Some s ->
  w_transactions w !! s = Some transaction ->
  w_transactions (snd (handleRedirectCallback ext c url w)) = delete s (w_transactions w) /\
  ((exists e,
      fst (handleRedirectCallback ext c url w) = Throw e /\
      w_cache (snd (handleRedirectCallback ext c url w)) = w_cache w /\
      w_storage (snd (handleRedirectCallback ext c url w)) = w_storage w) \/
   (exists authResult decodedToken,
      fst (handleRedirectCallback ext c url w) = Ok {| appState := tx_appState transaction |} /\
      w_cache (snd (handleRedirectCallback ext c url w)) =
        Cache.save (w_now w) (cacheEntry c transaction authResult decodedToken) (w_cache w) /\
      w_storage (snd (handleRedirectCallback ext c url w)) =
        <["auth0.is.authenticated" := true]> (w_storage w))).
Proof.
  unfold handleRedirectCallback, callback_query. intros Hq Hs Htx.
  destruct (queryStringFragments url) as [| f fs]; [contradiction |].
  remember (parseQueryResult ext (Js.join_empty (f :: fs))) as q eqn:Eq. clear Eq.
  unfold TransactionManager.get, TransactionManager.remove, call_oauthToken, _verifyIdToken,
    cache_save, ClientStorage.save, lift_result, bind, emit, modify, reads, ret, throw.
  simpl. rewrite Hs, Htx.
  destruct (Js.truthy (q_error q)); simpl; [split; [reflexivity | left; eauto] |].
  destruct (oauthToken ext _) as [authResult | e]; simpl; [| split; [reflexivity | left; eauto]].
  destruct (verifyIdToken ext _) as [decodedToken | e]; simpl;
    [| split; [reflexivity | left; eauto]].
  split; [reflexivity | right; eauto].
Qed.

Lemma handleRedirectCallback_not_found (c : Auth0Client) (url : string) (w : World) :
  queryStringFragments url <> [] ->
  match q_state (callback_query ext url) with
  | Some s => w_transactions w !! s = None
  | None => True
  end ->
  handleRedirectCallback ext c url w =
    (Throw (Error "Invalid state"),
     snd (emit (TransactionGet (q_state (callback_query ext url))) w)).
Proof.
  unfold handleRedirectCallback, callback_query. intros Hq Hno.
  destruct (queryStringFragments url) as [| f fs]; [contradiction |].
  remember (parseQueryResult ext (Js.join_empty (f :: fs))) as q eqn:Eq. clear Eq.
  unfold TransactionManager.get, bind, emit, reads, throw. simpl.
  destruct (q_state q) as [s |]; [rewrite Hno |]; reflexivity.
Qed.

(** X2: a callback whose state names no transaction, or that carries no state,
    is refused with the Invalid state error: no transaction is removed, the
    token endpoint is not called, the cache and the client storage are not
    written. *)
Theorem handleRedirectCallback_no_transaction (c : Auth0Client) (url : string) (w : World) :
  occurs "?" url = true ->
  match q_state (callback_query ext url) with
  | Some s => w_transactions w !! s = None
  | None => True
  end ->
  fst (handleRedirectCallback ext c url w) = Throw (Error "Invalid state") /\
  w_transactions (snd (handleRedirectCallback ext c url w)) = w_transactions w /\
  w_cache (snd (handleRedirectCallback ext c url w)) = w_cache w /\
  w_storage (snd (handleRedirectCallback ext c url w)) = w_storage w /\
  events_during (handleRedirectCallback ext c url) w =
    [TransactionGet (q_state (callback_query ext url))].
Proof.
  intros Hq Hno.
  rewrite (events_during_app _ w [TransactionGet (q_state (callback_query ext url))]);
    rewrite (handleRedirectCallback_not_found c url w (fragments_of_query url Hq) Hno);
    repeat split.
Qed.

(** X3: a transaction that the callback finds is consumed whatever happens
    next (an error parameter, a refused exchange, a refused id token, or
    success), and it alone: every other transaction stays. *)
Theorem handleRedirectCallback_consumes_transaction (c : Auth0Client) (url : string)
    (w : World) (s : string) (transaction : Transaction) :
  occurs "?" url = true ->
  q_state (callback_query ext url) = Some s ->
  w_transactions w !! s = Some transaction ->
  w_transactions (snd (handleRedirectCallback ext c url w)) !! s = None /\
  forall s', s' <> s ->
    w_transactions (snd (handleRedirectCallback ext c url w)) !! s' = w_transactions w !! s'.
Proof.
  intros Hq Hs Htx.
  destruct (handleRedirectCallback_found c url w s transaction
              (fragments_of_query url Hq) Hs Htx) as (Ht & _).
  rewrite Ht. split; [apply lookup_delete_eq |].
  intros s' Hne. apply lookup_delete_ne. congruence.
Qed.

(** X4: handling a callback is all or nothing for the credentials: when it
    throws, whatever the reason, the cache and the client storage are as
    before; when it returns, the authenticated flag is set. *)
Theorem handleRedirectCallback_all_or_nothing (c : Auth0Client) (url : string) (w : World) :
  match fst (handleRedirectCallback ext c url w) with
  | Throw _ =>
      w_cache (snd (handleRedirectCallback ext c url w)) = w_cache w /\
      w_storage (snd (handleRedirectCallback ext c url w)) = w_storage w
  | Ok _ =>
      is_authenticated_flag (snd (handleRedirectCallback ext c url w)) = true /\
      calls_token_endpoint (events_during (handleRedirectCallback ext c url) w) = true
  end.
Proof.
  destruct (occurs "?" url) eqn:Hq.
  - pose proof (fragments_of_query url Hq) as Hf.
    destruct (q_state (callback_query ext url)) as [s |] eqn:Hs.
    + destruct (w_transactions w !! s) as [transaction |] eqn:Htx.
      * revert Hf Hs Htx. unfold events_during, handleRedirectCallback, callback_query.
        intros Hf Hs Htx.
        destruct (queryStringFragments url) as [| f fs]; [contradiction |].
        remember (parseQueryResult ext (Js.join_empty (f :: fs))) as q eqn:Eq. clear Eq.
        unfold TransactionManager.get, TransactionManager.remove, call_oauthToken,
          _verifyIdToken, cache_save, ClientStorage.save, lift_result, bind, emit, modify,
          reads, ret, throw.
        simpl. rewrite Hs, Htx.
        destruct (Js.truthy (q_error q)); simpl; [split; reflexivity |].
        destruct (oauthToken ext _) as [authResult | e]; simpl; [| split; reflexivity].
        destruct (verifyIdToken ext _) as [decodedToken | e]; simpl; [| split; reflexivity].
        split.
        -- unfold is_authenticated_flag. simpl. rewrite lookup_insert_eq. reflexivity.
        -- rewrite <- !app_assoc, drop_app_length. reflexivity.
      * rewrite (handleRedirectCallback_not_found c url w Hf); [split; reflexivity |].
        rewrite Hs. exact Htx.
    + rewrite (handleRedirectCallback_not_found c url w Hf); [split; reflexivity |].
      rewrite Hs. exact I.
  - unfold events_during, handleRedirectCallback, queryStringFragments.
    rewrite (split_without_separator _ _ Hq). split; reflexivity.
Qed.

(** X5: no callback is handled twice: once a callback has found its transaction,
    whatever came of it, a second delivery of the same URL is refused with
    the Invalid state error and reaches neither the token endpoint nor the
    cache. *)
Theorem handleRedirectCallback_replay (c : Auth0Client) (url : string) (w : World)
    (s : string) (transaction : Transaction) :
  occurs "?" url = true ->
  q_state (callback_query ext url) = Some s ->
  w_transactions w !! s = Some transaction ->
  fst (handleRedirectCallback ext c url (snd (handleRedirectCallback ext c url w))) =
    Throw (Error "Invalid state") /\
  events_during (handleRedirectCallback ext c url) (snd (handleRedirectCallback ext c url w)) =
    [TransactionGet (Some s)] /\
  w_cache (snd (handleRedirectCallback ext c url (snd (handleRedirectCallback ext c url w)))) =
    w_cache (snd (handleRedirectCallback ext c url w)).
Proof.
  intros Hq Hs Htx.
  pose proof (fragments_of_query url Hq) as Hf.
  destruct (handleRedirectCallback_found c url w s transaction Hf Hs Htx) as (Ht & _).
  assert (Hno : match q_state (callback_query ext url) with
                | Some s0 => w_transactions (snd (handleRedirectCallback ext c url w)) !! s0 = None
                | None => True
                end).
  { rewrite Hs, Ht. apply lookup_delete_eq. }
  rewrite (events_during_app _ _ [TransactionGet (Some s)]);
    rewrite (handleRedirectCallback_not_found c url _ Hf Hno); rewrite ?Hs; repeat split.
Qed.

End Callback.

(** ** [getTokenSilently] *)

Section Renewal.

Context (ext : Externals).

(** After the lock, [renew] ends in one of three ways: the refresh
    succeeded and its record is saved; nothing could be refreshed and the
    bare entry is saved; a collaborator threw and nothing is saved. *)
Lemma renew_cases (c : Auth0Client) (o : GetTokenSilentlyOptions) (w : World) :
  w_transactions (snd (renew ext c o w)) = w_transactions w /\
  w_now (snd (renew ext c o w)) = w_now w /\
  ((exists entry tokenResult decodedToken,
      refresh_applicable c o = true /\
      Cache.get (w_now w) (grant_cache_key c (getTokenOptions c o))
        Cache.DEFAULT_EXPIRY_ADJUSTMENT_SECONDS (w_cache w) = Some entry /\
      Js.truthy (ce_refresh_token entry) = true /\
      oauthToken ext (refresh_tokenOptions ext c (getTokenOptions c o) entry) = Ok tokenResult /\
      verifyIdToken ext (verify_options ext c (tr_id_token tokenResult) None) = Ok decodedToken /\
      fst (renew ext c o w) = Ok (Some (tr_access_token tokenResult)) /\
      w_cache (snd (renew ext c o w)) =
        Cache.save (w_now w) (refreshed_entry c o tokenResult decodedToken) (w_cache w) /\
      w_storage (snd (renew ext c o w)) = <["auth0.is.authenticated" := true]> (w_storage w) /\
      w_trace (snd (renew ext c o w)) =
        (w_trace w ++
         [AcquireLock GET_TOKEN_SILENTLY_LOCK_KEY 5000;
          CacheGet (grant_cache_key c (getTokenOptions c o))
            Cache.DEFAULT_EXPIRY_ADJUSTMENT_SECONDS;
          OauthToken (refresh_tokenOptions ext c (getTokenOptions c o) entry);
          VerifyIdToken (verify_options ext c (tr_id_token tokenResult) None);
          CacheSave (refreshed_entry c o tokenResult decodedToken);
          StorageSave "auth0.is.authenticated" true])%list) \/
   ((fst (renew ext c o w) = Ok None \/ fst (renew ext c o w) = Throw TYPE_ERROR) /\
    (refresh_applicable c o = false \/ cached_refresh_token c o w = None) /\
    w_cache (snd (renew ext c o w)) =
      Cache.save (w_now w) (bare_entry (o_client_id (options c))) (w_cache w)) \/
   (exists e,
      fst (renew ext c o w) = Throw e /\
      refresh_applicable c o = true /\
      (exists evs,
         w_trace (snd (renew ext c o w)) = (w_trace w ++ evs)%list /\
         calls_token_endpoint evs = true) /\
      w_cache (snd (renew ext c o w)) = w_cache w /\
      w_storage (snd (renew ext c o w)) = w_storage w)).
Proof.
  unfold cached_refresh_token.
  unfold renew, Lock.acquireLock, _getTokenUsingRefreshToken, cache_get, cache_save,
    ClientStorage.save, call_oauthToken, _verifyIdToken, access_token_of, lift_result,
    bind, emit, modify, reads, ret, throw.
  simpl.
  destruct (w_locks w !! GET_TOKEN_SILENTLY_LOCK_KEY); simpl;
    destruct (refresh_applicable c o); simpl.
  all: try (destruct (Cache.get _ _ _ _) as [entry |] eqn:Hget; simpl).
  all: try (destruct (Js.truthy (ce_refresh_token entry)) eqn:Hrt; simpl).
  all: try (destruct (oauthToken ext _) as [tokenResult | err] eqn:Hex; simpl).
  all: try (destruct (verifyIdToken ext _) as [decodedToken | err'] eqn:Hv; simpl).
  all: split; [reflexivity |]; split; [reflexivity |].
  all: first
    [ left; exists entry, tokenResult, decodedToken;
      repeat split; try assumption; try reflexivity;
      rewrite <- !app_assoc; reflexivity
    | right; left; split; [right; reflexivity |]; split; [right; reflexivity | reflexivity]
    | right; left; split; [left; reflexivity |]; split; [left; reflexivity | reflexivity]
    | right; right; eexists; split; [reflexivity |]; split; [reflexivity |];
      split; [| split; reflexivity];
      eexists; split; [rewrite <- ?app_assoc; reflexivity | reflexivity] ].
Qed.

Lemma renew_success (c : Auth0Client) (o : GetTokenSilentlyOptions) (w : World)
    (entry : CacheEntry) (tokenResult : TokenResponse) (decodedToken : DecodedToken) :
  refresh_applicable c o = true ->
  Cache.get (w_now w) (grant_cache_key c (getTokenOptions c o))
    Cache.DEFAULT_EXPIRY_ADJUSTMENT_SECONDS (w_cache w) = Some entry ->
  Js.truthy (ce_refresh_token entry) = true ->
  oauthToken ext (refresh_tokenOptions ext c (getTokenOptions c o) entry) = Ok tokenResult ->
  verifyIdToken ext (verify_options ext c (tr_id_token tokenResult) None) = Ok decodedToken ->
  fst (renew ext c o w) = Ok (Some (tr_access_token tokenResult)) /\
  w_cache (snd (renew ext c o w)) =
    Cache.save (w_now w) (refreshed_entry c o tokenResult decodedToken) (w_cache w) /\
  w_storage (snd (renew ext c o w)) = <["auth0.is.authenticated" := true]> (w_storage w) /\
  w_now (snd (renew ext c o w)) = w_now w /\
  w_trace (snd (renew ext c o w)) =
    (w_trace w ++
     [AcquireLock GET_TOKEN_SILENTLY_LOCK_KEY 5000;
      CacheGet (grant_cache_key c (getTokenOptions c o)) Cache.DEFAULT_EXPIRY_ADJUSTMENT_SECONDS;
      OauthToken (refresh_tokenOptions ext c (getTokenOptions c o) entry);
      VerifyIdToken (verify_options ext c (tr_id_token tokenResult) None);
      CacheSave (refreshed_entry c o tokenResult decodedToken);
      StorageSave "auth0.is.authenticated" true])%list.
Proof.
  intros Happ Hget Hrt Hex Hv.
  unfold refresh_tokenOptions in Hex. unfold refreshed_entry.
  assert (Hex' := Hex). clear Hex. simpl in Hex'.
  unfold renew, Lock.acquireLock, _getTokenUsingRefreshToken, cache_get, cache_save,
    ClientStorage.save, call_oauthToken, _verifyIdToken, access_token_of, lift_result,
    bind, emit, modify, reads, ret, throw.
  simpl. rewrite Happ.
  destruct (w_locks w !! GET_TOKEN_SILENTLY_LOCK_KEY); simpl;
    rewrite Hget; simpl; rewrite Hrt; simpl; rewrite Hex'; simpl; rewrite Hv; simpl;
    repeat split; rewrite <- !app_assoc; reflexivity.
Qed.

Lemma try_finally_releaseLock_now {A : Type} (body : M A) (key : string) (w : World) :
  w_now (snd (try_finally body (Lock.releaseLock key) w)) = w_now (snd (body w)).
Proof.
  unfold try_finally, Lock.releaseLock, bind, emit, modify.
  destruct (body w) as [r w1]. simpl.
  destruct (w_locks w1 !! key) as [[|]|]; reflexivity.
Qed.

(** The cache and the clock after a refresh that went through. *)
Lemma refresh_world (c : Auth0Client) (o : GetTokenSilentlyOptions) (w : World)
    (entry : CacheEntry) (tokenResult : TokenResponse) (decodedToken : DecodedToken) :
  cache_hit c o w = None ->
  refresh_applicable c o = true ->
  Cache.get (w_now w) (grant_cache_key c (getTokenOptions c o))
    Cache.DEFAULT_EXPIRY_ADJUSTMENT_SECONDS (w_cache w) = Some entry ->
  Js.truthy (ce_refresh_token entry) = true ->
  oauthToken ext (refresh_tokenOptions ext c (getTokenOptions c o) entry) = Ok tokenResult ->
  verifyIdToken ext (verify_options ext c (tr_id_token tokenResult) None) = Ok decodedToken ->
  w_cache (snd (getTokenSilently ext c o w)) =
    Cache.save (w_now w) (refreshed_entry c o tokenResult decodedToken) (w_cache w) /\
  w_now (snd (getTokenSilently ext c o w)) = w_now w.
Proof.
  intros Hmiss Happ Hget Hrt Hex Hv.
  destruct (getTokenSilently_miss ext c o w Hmiss) as (w0 & Hc & Hs & Ht & Hn & Htr & Heq).
  rewrite <- Hc, <- Hn in Hget.
  destruct (renew_success c o w0 entry tokenResult decodedToken Happ Hget Hrt Hex Hv)
    as (Rr & Rc & Rs & Rn & Rtr).
  destruct (try_finally_releaseLock (renew ext c o) GET_TOKEN_SILENTLY_LOCK_KEY w0)
    as (Fr & _ & _ & Ftr & Fc & Fs & _).
  split.
  - rewrite Heq, Fc, Rc, Hc, Hn. reflexivity.
  - rewrite Heq, try_finally_releaseLock_now, Rn. exact Hn.
Qed.


(** X7: a failure of a collaborator is clean: when getTokenSilently throws
    anything but the TypeError of the missing refresh token, the cache and
    the client storage are as they were before the call. *)
Theorem getTokenSilently_failure_writes_nothing (c : Auth0Client)
    (o : GetTokenSilentlyOptions) (w : World) (e : JsError) :
  fst (getTokenSilently ext c o w) = Throw e ->
  e <> TYPE_ERROR ->
  w_cache (snd (getTokenSilently ext c o w)) = w_cache w /\
  w_storage (snd (getTokenSilently ext c o w)) = w_storage w /\
  calls_token_endpoint (events_during (getTokenSilently ext c o) w) = true.
Proof.
  intros Hthrow Hne.
  destruct (cache_hit c o w) as [tok |] eqn:Hhit.
  - destruct (getTokenSilently_hit ext c o w tok Hhit) as (Hr & _).
    rewrite Hr in Hthrow. discriminate.
  - destruct (getTokenSilently_miss ext c o w Hhit) as (w0 & Hc & Hs & Ht & Hn & Htr & Heq).
    destruct (try_finally_releaseLock (renew ext c o) GET_TOKEN_SILENTLY_LOCK_KEY w0)
      as (Fr & _ & _ & Ftr & Fc & Fs & _).
    rewrite Heq, Fr in Hthrow.
    destruct (renew_cases c o w0) as (_ & _ & [Hok | [Hbail | Hfail]]).
    + destruct Hok as (? & ? & ? & _ & _ & _ & _ & _ & Rr & _).
      rewrite Rr in Hthrow. discriminate.
    + destruct Hbail as ([Rr | Rr] & _); rewrite Rr in Hthrow; [discriminate |].
      injection Hthrow as <-. contradiction.
    + destruct Hfail as (e' & _ & _ & (evs & Rtr & Rcall) & Rc & Rs).
      rewrite Heq, Fc, Fs, Rc, Rs, Hc, Hs. split; [reflexivity |]. split; [reflexivity |].
      rewrite (events_during_app _ w
                 (lookup_events c o ++ evs ++ [ReleaseLock GET_TOKEN_SILENTLY_LOCK_KEY])%list).
      * unfold calls_token_endpoint in *. rewrite !existsb_app, Rcall.
        simpl. apply orb_true_r.
      * rewrite Heq, Ftr, Rtr, Htr. rewrite <- !app_assoc. reflexivity.
Qed.

End Renewal.

(** ** The lock does not decide the outcome *)

Section LockInsensitive.

Context (ext : Externals).

Lemma li_ret {A : Type} (a : A) : lock_insensitive (ret a).
Proof. intros w w' H. split; [reflexivity | exact H]. Qed.

Lemma li_throw {A : Type} (e : JsError) : lock_insensitive (@throw A e).
Proof. intros w w' H. split; [reflexivity | exact H]. Qed.

Lemma li_lift_result {A : Type} (r : Result A) : lock_insensitive (lift_result r).
Proof. intros w w' H. split; [reflexivity | exact H]. Qed.

Lemma li_bind {A B : Type} (m : M A) (k : A -> M B) :
  lock_insensitive m -> (forall a, lock_insensitive (k a)) -> lock_insensitive (bind m k).
Proof.
  intros Hm Hk w w' H. unfold bind.
  destruct (Hm w w' H) as (Hr & Hw).
  destruct (m w) as [r w1], (m w') as [r' w1']. simpl in Hr, Hw. subst r'.
  destruct r as [a | e]; [apply Hk, Hw | split; [reflexivity | exact Hw]].
Qed.

Lemma li_emit (ev : Event) : lock_insensitive (emit ev).
Proof.
  intros w w' (Hc & Ht & Hs & Hn & Htr). split; [reflexivity |].
  unfold same_but_locks. simpl. rewrite Htr. repeat split; assumption.
Qed.

Lemma li_cache_get (k : CacheKey) (adjustment : Z) : lock_insensitive (cache_get k adjustment).
Proof.
  apply li_bind; [apply li_emit |]. intros _ w w' H.
  destruct H as (Hc & Ht & Hs & Hn & Htr). unfold reads. simpl.
  rewrite Hc, Hn. repeat split; assumption.
Qed.

Lemma li_cache_save (e : CacheEntry) : lock_insensitive (cache_save e).
Proof.
  apply li_bind; [apply li_emit |]. intros _ w w' H.
  destruct H as (Hc & Ht & Hs & Hn & Htr). unfold modify, same_but_locks. simpl.
  rewrite Hc, Hn. repeat split; assumption.
Qed.

Lemma li_storage_save (key : string) (value : bool) :
  lock_insensitive (ClientStorage.save key value).
Proof.
  apply li_bind; [apply li_emit |]. intros _ w w' H.
  destruct H as (Hc & Ht & Hs & Hn & Htr). unfold modify, same_but_locks. simpl.
  rewrite Hs. repeat split; assumption.
Qed.

(** The answer of [acquireLock] is dropped: what follows runs the same
    whether or not the lock was obtained. *)
Lemma li_after_acquireLock {A : Type} (key : string) (timeout : Z) (k : M A) :
  lock_insensitive k -> lock_insensitive (bind (Lock.acquireLock key timeout) (fun _ => k)).
Proof.
  intros Hk w w' H.
  destruct (acquireLock_spec key timeout w) as (b & wa & Ha & Hc & Hs & Ht & Hn & Htr).
  destruct (acquireLock_spec key timeout w') as (b' & wa' & Ha' & Hc' & Hs' & Ht' & Hn' & Htr').
  rewrite (bind_Ok _ _ _ _ _ Ha), (bind_Ok _ _ _ _ _ Ha').
  apply Hk. destruct H as (Gc & Gt & Gs & Gn & Gtr).
  unfold same_but_locks.
  rewrite Hc, Hs, Ht, Hn, Htr, Hc', Hs', Ht', Hn', Htr', Gc, Gt, Gs, Gn, Gtr.
  repeat split.
Qed.

Lemma li_releaseLock (key : string) : lock_insensitive (Lock.releaseLock key).
Proof.
  intros w w' (Hc & Ht & Hs & Hn & Htr).
  unfold Lock.releaseLock, bind, emit, modify, same_but_locks. simpl.
  split; [reflexivity |].
  destruct (w_locks w !! key) as [[|]|], (w_locks w' !! key) as [[|]|]; simpl;
    rewrite Htr; repeat split; assumption.
Qed.

Lemma li_try_finally {A : Type} (body : M A) (fin : M unit) :
  lock_insensitive body -> lock_insensitive fin -> lock_insensitive (try_finally body fin).
Proof.
  intros Hb Hf w w' H. unfold try_finally.
  destruct (Hb w w' H) as (Hr & Hw).
  destruct (body w) as [r w1], (body w') as [r' w1']. simpl in Hr, Hw. subst r'.
  destruct (Hf w1 w1' Hw) as (Hfr & Hfw).
  destruct (fin w1) as [fr w2], (fin w1') as [fr' w2']. simpl in Hfr, Hfw. subst fr'.
  destruct fr; split; try reflexivity; exact Hfw.
Qed.

Lemma li_verifyIdToken (c : Auth0Client) (id_token : string) (nonce : option string) :
  lock_insensitive (_verifyIdToken ext c id_token nonce).
Proof. apply li_bind; [apply li_emit | intros _; apply li_lift_result]. Qed.

Lemma li_call_oauthToken (o : OAuthTokenOptions) : lock_insensitive (call_oauthToken ext o).
Proof. apply li_bind; [apply li_emit | intros _; apply li_lift_result]. Qed.

Lemma li_getTokenUsingRefreshToken (c : Auth0Client) (o : GetTokenSilentlyOptions) :
  lock_insensitive (_getTokenUsingRefreshToken ext c o).
Proof.
  unfold _getTokenUsingRefreshToken.
  apply li_bind; [apply li_cache_get |]. intros [entry |]; [| apply li_ret].
  destruct (negb (Js.truthy (ce_refresh_token entry))); [apply li_ret |].
  apply li_bind; [apply li_call_oauthToken |]. intros tokenResult.
  apply li_bind; [apply li_verifyIdToken |]. intros decodedToken. apply li_ret.
Qed.

Lemma li_renew (c : Auth0Client) (o : GetTokenSilentlyOptions) :
  lock_insensitive (renew ext c o).
Proof.
  unfold renew. apply li_after_acquireLock.
  apply li_bind.
  - destruct (refresh_applicable c o); [apply li_getTokenUsingRefreshToken | apply li_ret].
  - intros authResult. apply li_bind; [apply li_cache_save |]. intros _.
    apply li_bind; [apply li_storage_save |]. intros _.
    destruct authResult; simpl; [apply li_throw | apply li_ret | apply li_ret].
Qed.

(** X8: the lock is advisory: getTokenSilently drops the answer of acquireLock,
    so from two worlds that differ only in who holds the locks it returns or
    throws the same, makes the same calls in the same order and leaves the
    same cache, storage and transactions.  A lock held by another tab does
    not keep a call from exchanging the refresh token. *)
Theorem getTokenSilently_ignores_lock_holder (c : Auth0Client) (o : GetTokenSilentlyOptions)
    (w w' : World) :
  same_but_locks w w' ->
  fst (getTokenSilently ext c o w) = fst (getTokenSilently ext c o w') /\
  same_but_locks (snd (getTokenSilently ext c o w)) (snd (getTokenSilently ext c o w')) /\
  events_during (getTokenSilently ext c o) w = events_during (getTokenSilently ext c o) w'.
Proof.
  intros H.
  assert (Hli : lock_insensitive (getTokenSilently ext c o)).
  { unfold getTokenSilently. apply li_try_finally; [| apply li_releaseLock].
    destruct (negb (Js.truthyb (gts_ignoreCache o))); [| apply li_renew].
    apply li_bind; [apply li_cache_get |]. intros [entry |]; [| apply li_renew].
    destruct (Js.truthy (ce_access_token entry)); [apply li_ret | apply li_renew]. }
  destruct (Hli w w' H) as (Hr & Hw).
  split; [exact Hr |]. split; [exact Hw |].
  unfold events_during.
  destruct H as (_ & _ & _ & _ & Htr). destruct Hw as (_ & _ & _ & _ & Htr').
  rewrite Htr, Htr'. reflexivity.
Qed.

End LockInsensitive.

(** ** [getTokenSilently] and the cache *)

Section TokenCache.

Context (ext : Externals).

(** X9: sequential calls share one exchange: after a refresh that went through
    on a client made by the constructor, with a token that lasts more than
    60 seconds, the same call again is answered from the cache with the token
    just obtained, without the token endpoint and without the lock. *)
Theorem getTokenSilently_again_is_served (co : Auth0ClientOptions)
    (o : GetTokenSilentlyOptions) (w : World) (entry : CacheEntry)
    (tokenResult : TokenResponse) (decodedToken : DecodedToken) :
  Js.truthyb (gts_ignoreCache o) = false ->
  cache_hit (new_Auth0Client co) o w = None ->
  refresh_applicable (new_Auth0Client co) o = true ->
  Cache.get (w_now w) (grant_cache_key (new_Auth0Client co) (getTokenOptions (new_Auth0Client co) o))
    Cache.DEFAULT_EXPIRY_ADJUSTMENT_SECONDS (w_cache w) = Some entry ->
  Js.truthy (ce_refresh_token entry) = true ->
  oauthToken ext (refresh_tokenOptions ext (new_Auth0Client co)
                    (getTokenOptions (new_Auth0Client co) o) entry) = Ok tokenResult ->
  verifyIdToken ext (verify_options ext (new_Auth0Client co) (tr_id_token tokenResult) None)
    = Ok decodedToken ->
  60 < tr_expires_in tokenResult ->
  tr_access_token tokenResult <> EmptyString ->
  fst (getTokenSilently ext (new_Auth0Client co) o
         (snd (getTokenSilently ext (new_Auth0Client co) o w)))
    = Ok (Some (tr_access_token tokenResult)) /\
  events_during (getTokenSilently ext (new_Auth0Client co) o)
    (snd (getTokenSilently ext (new_Auth0Client co) o w)) =
    [CacheGet (token_cache_key (new_Auth0Client co) o) 60;
     ReleaseLock GET_TOKEN_SILENTLY_LOCK_KEY].
Proof.
  intros Hi Hmiss Happ Hget Hrt Hex Hv Hlong Hne.
  set (c := new_Auth0Client co) in *.
  destruct (refresh_world ext c o w entry tokenResult decodedToken
              Hmiss Happ Hget Hrt Hex Hv) as (Hc & Hn).
  assert (Hhit : cache_hit c o (snd (getTokenSilently ext c o w))
                 = Some (tr_access_token tokenResult)).
  { unfold cache_hit. rewrite Hi, Hc, Hn. unfold Cache.get, Cache.save.
    replace (Cache.key_of (refreshed_entry c o tokenResult decodedToken))
      with (token_cache_key c o)
      by (symmetry; apply (grant_key_is_token_key co o)).
    rewrite lookup_insert_eq. unfold Cache.fresh.
    assert (Hlt : (w_now w + 60 <? w_now w + tr_expires_in tokenResult) = true)
      by (apply Z.ltb_lt; lia).
    cbn [body expiresAt refreshed_entry spread_authResult ce_expires_in ce_access_token
         fmap option_fmap option_map].
    rewrite Hlt. cbv [ce_access_token]. rewrite (truthy_Some _ Hne). reflexivity. }
  split.
  - apply (getTokenSilently_hit ext c o _ _ Hhit).
  - apply (getTokenSilently_hit_events ext c o _ _ Hhit).
Qed.

Lemma renew_events_shape (c : Auth0Client) (o : GetTokenSilentlyOptions) (w : World) :
  exists rest,
    w_trace (snd (renew ext c o w)) =
      (w_trace w ++ AcquireLock GET_TOKEN_SILENTLY_LOCK_KEY 5000 :: rest)%list /\
    reads_cache_with 60 rest = false.
Proof.
  unfold renew, Lock.acquireLock, _getTokenUsingRefreshToken, cache_get, cache_save,
    ClientStorage.save, call_oauthToken, _verifyIdToken, access_token_of, lift_result,
    bind, emit, modify, reads, ret, throw.
  simpl.
  destruct (w_locks w !! GET_TOKEN_SILENTLY_LOCK_KEY); simpl;
    destruct (refresh_applicable c o); simpl.
  all: try (destruct (Cache.get _ _ _ _) as [entry |]; simpl).
  all: try (destruct (Js.truthy (ce_refresh_token entry)); simpl).
  all: try (destruct (oauthToken ext _) as [tokenResult | err]; simpl).
  all: try (destruct (verifyIdToken ext _) as [decodedToken | err']; simpl).
  all: eexists; (split; [rewrite <- ?app_assoc; reflexivity | reflexivity]).
Qed.

(** X10: with ignoreCache set the cache is not asked for a token: the first call
    made is the acquisition of the lock and no read with the 60 second
    window is made, so a valid record does not spare the renewal. *)
Theorem getTokenSilently_ignoreCache (c : Auth0Client) (o : GetTokenSilentlyOptions)
    (w : World) :
  gts_ignoreCache o = Some true ->
  head (events_during (getTokenSilently ext c o) w) =
    Some (AcquireLock GET_TOKEN_SILENTLY_LOCK_KEY 5000) /\
  reads_cache_with 60 (events_during (getTokenSilently ext c o) w) = false.
Proof.
  intros Hi.
  assert (Hmiss : cache_hit c o w = None) by (unfold cache_hit; rewrite Hi; reflexivity).
  destruct (getTokenSilently_miss ext c o w Hmiss) as (w0 & _ & _ & _ & _ & Htr & Heq).
  unfold lookup_events in Htr. rewrite Hi in Htr. simpl in Htr. rewrite app_nil_r in Htr.
  destruct (renew_events_shape c o w0) as (rest & Rtr & Rno).
  destruct (try_finally_releaseLock (renew ext c o) GET_TOKEN_SILENTLY_LOCK_KEY w0)
    as (_ & _ & _ & Ftr & _).
  rewrite (events_during_app _ w
             (AcquireLock GET_TOKEN_SILENTLY_LOCK_KEY 5000 ::
              rest ++ [ReleaseLock GET_TOKEN_SILENTLY_LOCK_KEY])%list).
  - split; [reflexivity |]. unfold reads_cache_with in *. simpl.
    rewrite existsb_app, Rno. reflexivity.
  - rewrite Heq, Ftr, Rtr, Htr. rewrite <- app_assoc. reflexivity.
Qed.

(** X11: every token getTokenSilently returns is in the cache when it returns,
    under the key it was looked up or saved with. *)
Theorem getTokenSilently_returns_a_cached_token (c : Auth0Client)
    (o : GetTokenSilentlyOptions) (w : World) (tok : string) :
  fst (getTokenSilently ext c o w) = Ok (Some tok) ->
  exists k p,
    (k = token_cache_key c o \/ k = grant_cache_key c (getTokenOptions c o)) /\
    w_cache (snd (getTokenSilently ext c o w)) !! k = Some p /\
    ce_access_token (body p) = Some tok.
Proof.
  intros Hret.
  destruct (cache_hit c o w) as [tok' |] eqn:Hhit.
  - destruct (getTokenSilently_hit ext c o w tok' Hhit) as (Hr & Hc & _).
    rewrite Hr in Hret. injection Hret as ->.
    unfold cache_hit, Cache.get in Hhit.
    destruct (Js.truthyb (gts_ignoreCache o)); [discriminate |].
    destruct (w_cache w !! token_cache_key c o) as [p |] eqn:Hp; [| discriminate].
    destruct (Cache.fresh (w_now w) 60 p); [| discriminate].
    destruct (Js.truthy (ce_access_token (body p))); [| discriminate].
    exists (token_cache_key c o), p. rewrite Hc. auto.
  - destruct (getTokenSilently_miss ext c o w Hhit) as (w0 & Hc & Hs & Ht & Hn & Htr & Heq).
    destruct (try_finally_releaseLock (renew ext c o) GET_TOKEN_SILENTLY_LOCK_KEY w0)
      as (Fr & _ & _ & _ & Fc & _).
    rewrite Heq, Fr in Hret.
    destruct (renew_cases ext c o w0) as (_ & _ & [Hok | [Hbail | Hfail]]).
    + destruct Hok as (entry & t & d & _ & _ & _ & _ & _ & Rr & Rc & _).
      rewrite Rr in Hret. injection Hret as <-.
      exists (grant_cache_key c (getTokenOptions c o)),
        {| body := refreshed_entry c o t d;
           expiresAt := (fun x => w_now w0 + x) <$> ce_expires_in (refreshed_entry c o t d) |}.
      split; [right; reflexivity |]. split; [| reflexivity].
      rewrite Heq, Fc, Rc. unfold Cache.save. apply lookup_insert_eq.
    + destruct Hbail as ([Rr | Rr] & _); rewrite Rr in Hret; discriminate.
    + destruct Hfail as (e & Rr & _). rewrite Rr in Hret. discriminate.
Qed.

End TokenCache.

(** ** The keys of the calls without argument *)

Section DefaultKeys.

Lemma dedupe_twice (D : list string) : Scope.dedupe (D ++ D)%list = Scope.dedupe D.
Proof.
  rewrite <- (app_nil_r (D ++ D)), <- app_assoc.
  rewrite dedupe_app_seen by auto. rewrite app_nil_r. reflexivity.
Qed.

Lemma dedupe_last_twice (D S : list string) :
  Scope.dedupe (D ++ S ++ S)%list = Scope.dedupe (D ++ S)%list.
Proof.
  rewrite <- (app_nil_r S) at 2. rewrite dedupe_second_again, app_nil_r. reflexivity.
Qed.

Lemma dedupe_first_last (D : list string) :
  Scope.dedupe (D ++ [] ++ D)%list = Scope.dedupe D.
Proof. simpl. apply dedupe_twice. Qed.

(** The scope of the call without argument: the scope of the client, or
    the default scope when the client has none, adds no name to the union of
    the default scope and the scope of the client. *)
Lemma default_scope_absorbed (d : string) (sc : option string) :
  Scope.getUniqueScopes [Some d; Some (Js.or_lit sc d)] =
    Scope.getUniqueScopes [Some d; sc; None] /\
  Scope.getUniqueScopes [Some d; sc; Some (Js.or_lit sc d)] =
    Scope.getUniqueScopes [Some d; sc; None].
Proof.
  unfold Scope.getUniqueScopes. rewrite union2, !union3.
  destruct sc as [s |]; cbn [Js.or_lit Scope.arg_tokens].
  - destruct (String.eqb_spec s EmptyString) as [-> | Hne].
    + change (Scope.tokens EmptyString) with (@nil string).
      rewrite dedupe_twice, dedupe_first_last. simpl. rewrite app_nil_r. auto.
    + rewrite dedupe_last_twice, !app_nil_r. auto.
  - rewrite dedupe_twice, dedupe_first_last. simpl. rewrite app_nil_r. auto.
Qed.

(** X12: called without argument, getUser and getIdTokenClaims read the cache
    under one and the same key, the key getTokenSilently looks up when it is
    called without options: what a silent renewal saves for the default call
    is what the two find. *)
Theorem default_calls_share_the_key (c : Auth0Client) (w : World) :
  keys_read (events_during (getUser c None) w) = [token_cache_key c empty_options] /\
  keys_read (events_during (getIdTokenClaims c None) w) = [token_cache_key c empty_options].
Proof.
  destruct (default_scope_absorbed (defaultScope c) (scope c)) as (Hu & Hi).
  unfold token_cache_key, getTokenOptions. simpl.
  split.
  - rewrite (events_during_app _ w
               [CacheGet (o_client_id (options c),
                          Some (Js.or_lit (o_audience (options c)) "default"),
                          Some (Scope.getUniqueScopes
                                  [Some (defaultScope c);
                                   Some (Js.or_lit (scope c) (defaultScope c))]))
                  Cache.DEFAULT_EXPIRY_ADJUSTMENT_SECONDS]) by reflexivity.
    simpl. rewrite Hu. reflexivity.
  - rewrite (events_during_app _ w
               [CacheGet (o_client_id (options c),
                          Some (Js.or_lit (o_audience (options c)) "default"),
                          Some (Scope.getUniqueScopes
                                  [Some (defaultScope c); scope c;
                                   Some (Js.or_lit (scope c) (defaultScope c))]))
                  Cache.DEFAULT_EXPIRY_ADJUSTMENT_SECONDS]) by reflexivity.
    simpl. rewrite Hi. reflexivity.
Qed.

Lemma tokens_openid : Scope.tokens "openid" = ["openid"].
Proof. reflexivity. Qed.

Lemma tokens_offline_access : Scope.tokens "offline_access" = ["offline_access"].
Proof. reflexivity. Qed.

Lemma dedupe_cons (x : string) (l : list string) :
  Scope.dedupe (x :: l) = x :: Scope.dedupe_from [x] l.
Proof. reflexivity. Qed.

(** The scope a client made by the constructor combines with the scope of
    a call starts with openid, and holds offline_access when the client uses
    refresh tokens. *)
Lemma key_scope_constructed (co : Auth0ClientOptions) (percall : option string) :
  head (Scope.tokens (key_scope (new_Auth0Client co) percall)) = Some "openid" /\
  (Js.truthyb (o_useRefreshTokens co) = true ->
   "offline_access" ∈ Scope.tokens (key_scope (new_Auth0Client co) percall)).
Proof.
  unfold key_scope. rewrite tokens_getUniqueScopes. split.
  - rewrite union3. simpl Scope.arg_tokens.
    rewrite tokens_getUniqueScopes, union2. simpl Scope.arg_tokens.
    rewrite tokens_openid. rewrite <- app_comm_cons, dedupe_cons.
    rewrite <- app_comm_cons, dedupe_cons. reflexivity.
  - intros Hr. apply elem_of_union3. right. left.
    unfold new_Auth0Client. cbv [scope]. rewrite Hr.
    simpl Scope.arg_tokens. rewrite tokens_getUniqueScopes, union2.
    simpl Scope.arg_tokens. rewrite tokens_offline_access.
    unfold Scope.dedupe. apply elem_of_dedupe_from. split.
    + apply elem_of_app. right. left.
    + apply not_elem_of_nil.
Qed.

End DefaultKeys.

Section ConstructedKeys.

Context (ext : Externals).

Lemma keys_read_one (k : CacheKey) (adjustment : Z) :
  keys_read [CacheGet k adjustment] = [k].
Proof. reflexivity. Qed.

(** The one call that getUser and getIdTokenClaims make when they are called
    without argument. *)
Lemma default_events (c : Auth0Client) (w : World) :
  events_during (getUser c None) w =
    [CacheGet (token_cache_key c empty_options) Cache.DEFAULT_EXPIRY_ADJUSTMENT_SECONDS] /\
  events_during (getIdTokenClaims c None) w =
    [CacheGet (token_cache_key c empty_options) Cache.DEFAULT_EXPIRY_ADJUSTMENT_SECONDS].
Proof.
  destruct (default_scope_absorbed (defaultScope c) (scope c)) as (Hu & Hi).
  unfold token_cache_key, getTokenOptions. simpl. rewrite <- Hu at 1. rewrite <- Hi.
  split; apply events_during_app; reflexivity.
Qed.

Lemma constructed_key (co : Auth0ClientOptions) (k : CacheKey) (percall : option string) :
  snd k = Some (key_scope (new_Auth0Client co) percall) ->
  head (scope_names k) = Some "openid" /\
  (Js.truthyb (o_useRefreshTokens co) = true -> "offline_access" ∈ scope_names k).
Proof.
  intros Hk. unfold scope_names. rewrite Hk. apply key_scope_constructed.
Qed.

(** X13: on a client made by the constructor, every key under which
    getTokenSilently reads the cache, whatever its options, every key under
    which getIdTokenClaims reads it, with or without argument, and the key
    under which getUser reads it when called without argument, has a scope
    that starts with openid, whatever default scope was configured, and that
    holds offline_access when the client uses refresh tokens.  (getUser
    called with options leaves the scope of the client out of its key.) *)
Theorem constructed_scopes (co : Auth0ClientOptions) (o : GetTokenSilentlyOptions)
    (arg : option GetUserOptions) (w : World) :
  Forall (fun k =>
            head (scope_names k) = Some "openid" /\
            (Js.truthyb (o_useRefreshTokens co) = true ->
             "offline_access" ∈ scope_names k))
    (keys_read (events_during (getTokenSilently ext (new_Auth0Client co) o) w) ++
     keys_read (events_during (getIdTokenClaims (new_Auth0Client co) arg) w) ++
     keys_read (events_during (getUser (new_Auth0Client co) None) w))%list.
Proof.
  destruct (default_events (new_Auth0Client co) w) as (Hu & Hi).
  rewrite !Forall_app. split; [| split].
  - destruct (getTokenSilently_keys ext (new_Auth0Client co) o w
                (grant_key_is_token_key co o)) as (Hk & _).
    eapply Forall_impl; [exact Hk |].
    intros k ->. apply (constructed_key co _ (gts_scope o)). reflexivity.
  - destruct arg as [og |].
    + rewrite (getIdTokenClaims_events (new_Auth0Client co) og w), keys_read_one.
      apply Forall_cons. split; [| apply Forall_nil_2].
      apply (constructed_key co _ (gu_scope og)). reflexivity.
    + rewrite Hi, keys_read_one.
      apply Forall_cons. split; [| apply Forall_nil_2].
      apply (constructed_key co _ None). reflexivity.
  - rewrite Hu, keys_read_one.
    apply Forall_cons. split; [| apply Forall_nil_2].
    apply (constructed_key co _ None). reflexivity.
Qed.

End ConstructedKeys.

(** ** What the calls without argument find, and [logout] *)

Section Session.

Context (ext : Externals).

(** The user and the claims of the entry served, if any. *)
Lemma default_reads (c : Auth0Client) (w : World) :
  fst (getUser c None w) =
    Ok (match Cache.get (w_now w) (token_cache_key c empty_options)
                Cache.DEFAULT_EXPIRY_ADJUSTMENT_SECONDS (w_cache w) with
        | Some entry =>
            match ce_decodedToken entry with
            | Some decodedToken => dt_user decodedToken
            | None => None
            end
        | None => None
        end) /\
  fst (getIdTokenClaims c None w) =
    Ok (match Cache.get (w_now w) (token_cache_key c empty_options)
                Cache.DEFAULT_EXPIRY_ADJUSTMENT_SECONDS (w_cache w) with
        | Some entry =>
            match ce_decodedToken entry with
            | Some decodedToken => dt_claims decodedToken
            | None => None
            end
        | None => None
        end).
Proof.
  destruct (default_scope_absorbed (defaultScope c) (scope c)) as (Hu & Hi).
  unfold token_cache_key, getTokenOptions, getUser, getIdTokenClaims, cache_get,
    bind, emit, reads, ret.
  simpl. rewrite Hu, Hi. split; reflexivity.
Qed.

(** X14: a silent renewal feeds the session: after a refresh that went through
    for a call without options, on a client made by the constructor and with
    a token that has not expired, getUser and getIdTokenClaims called without
    argument return the user and the claims of the new id token, and
    isAuthenticated tells whether that token has a user. *)
Theorem session_after_refresh (co : Auth0ClientOptions) (w : World) (entry : CacheEntry)
    (tokenResult : TokenResponse) (decodedToken : DecodedToken) :
  cache_hit (new_Auth0Client co) empty_options w = None ->
  refresh_applicable (new_Auth0Client co) empty_options = true ->
  Cache.get (w_now w)
    (grant_cache_key (new_Auth0Client co) (getTokenOptions (new_Auth0Client co) empty_options))
    Cache.DEFAULT_EXPIRY_ADJUSTMENT_SECONDS (w_cache w) = Some entry ->
  Js.truthy (ce_refresh_token entry) = true ->
  oauthToken ext (refresh_tokenOptions ext (new_Auth0Client co)
                    (getTokenOptions (new_Auth0Client co) empty_options) entry)
    = Ok tokenResult ->
  verifyIdToken ext (verify_options ext (new_Auth0Client co) (tr_id_token tokenResult) None)
    = Ok decodedToken ->
  0 < tr_expires_in tokenResult ->
  fst (getUser (new_Auth0Client co) None
         (snd (getTokenSilently ext (new_Auth0Client co) empty_options w)))
    = Ok (dt_user decodedToken) /\
  fst (getIdTokenClaims (new_Auth0Client co) None
         (snd (getTokenSilently ext (new_Auth0Client co) empty_options w)))
    = Ok (dt_claims decodedToken) /\
  fst (isAuthenticated (new_Auth0Client co)
         (snd (getTokenSilently ext (new_Auth0Client co) empty_options w)))
    = Ok (bool_decide (is_Some (dt_user decodedToken))).
Proof.
  intros Hmiss Happ Hget Hrt Hex Hv Hpos.
  set (c := new_Auth0Client co) in *.
  destruct (refresh_world ext c empty_options w entry tokenResult decodedToken
              Hmiss Happ Hget Hrt Hex Hv) as (Hc & Hn).
  assert (Hserved :
    Cache.get (w_now (snd (getTokenSilently ext c empty_options w)))
      (token_cache_key c empty_options) Cache.DEFAULT_EXPIRY_ADJUSTMENT_SECONDS
      (w_cache (snd (getTokenSilently ext c empty_options w)))
    = Some (refreshed_entry c empty_options tokenResult decodedToken)).
  { rewrite Hc, Hn. unfold Cache.get, Cache.save.
    replace (Cache.key_of (refreshed_entry c empty_options tokenResult decodedToken))
      with (token_cache_key c empty_options)
      by (symmetry; apply (grant_key_is_token_key co empty_options)).
    rewrite lookup_insert_eq. unfold Cache.fresh, Cache.DEFAULT_EXPIRY_ADJUSTMENT_SECONDS.
    cbv [expiresAt body].
    assert (Hlt : (w_now w + 0 <? w_now w + tr_expires_in tokenResult) = true)
      by (apply Z.ltb_lt; lia).
    simpl. rewrite Hlt. reflexivity. }
  destruct (default_reads c (snd (getTokenSilently ext c empty_options w))) as (Hu & Hi).
  rewrite Hserved in Hu, Hi.
  split; [exact Hu |]. split; [exact Hi |].
  unfold isAuthenticated, bind, ret.
  destruct (getUser c None (snd (getTokenSilently ext c empty_options w))) as [r w2].
  simpl in Hu. rewrite Hu. reflexivity.
Qed.

Lemma logout_proceeds (c : Auth0Client) (o : LogoutOptions) (w : World) :
  Js.truthyb (lo_localOnly o) && Js.truthyb (lo_federated o) = false ->
  w_cache (snd (logout ext c o w)) = ∅ /\
  w_storage (snd (logout ext c o w)) = delete "auth0.is.authenticated" (w_storage w) /\
  w_transactions (snd (logout ext c o w)) = w_transactions w /\
  w_trace (snd (logout ext c o w)) =
    (w_trace w ++ CacheClear :: StorageRemove "auth0.is.authenticated" ::
     (if Js.truthyb (lo_localOnly o) then []
      else if Js.truthyb (lo_logoutFromNative o) then []
      else [LocationAssign
              (_url ext c
                 ("/v2/logout?" ++
                  createQueryParams ext
                    (List.app
                       match lo_returnTo o with
                       | Some r => [("returnTo", r)]
                       | None => []
                       end
                       match
                         match lo_client_id o with
                         | Null => None
                         | Absent => Some (o_client_id (options c))
                         | Str s => Some (Js.or_lit (Some s) (o_client_id (options c)))
                         end
                       with
                       | Some i => [("client_id", i)]
                       | None => []
                       end)) ++
               (if Js.truthyb (lo_federated o) then "&federated" else EmptyString))]))%list /\
  fst (logout ext c o w) =
    Ok (if Js.truthyb (lo_localOnly o) then None
        else if Js.truthyb (lo_logoutFromNative o)
             then Some
                    (_url ext c
                       ("/v2/logout?" ++
                        createQueryParams ext
                          (List.app
                             match lo_returnTo o with
                             | Some r => [("returnTo", r)]
                             | None => []
                             end
                             match
                               match lo_client_id o with
                               | Null => None
                               | Absent => Some (o_client_id (options c))
                               | Str s => Some (Js.or_lit (Some s) (o_client_id (options c)))
                               end
                             with
                             | Some i => [("client_id", i)]
                             | None => []
                             end)) ++
                     (if Js.truthyb (lo_federated o) then "&federated" else EmptyString))
             else None).
Proof.
  intros Hnot. unfold logout. rewrite Hnot.
  unfold cache_clear, ClientStorage.remove, bind, emit, modify, ret. simpl.
  destruct (Js.truthyb (lo_localOnly o)); simpl.
  - repeat split. rewrite <- app_assoc. reflexivity.
  - destruct (Js.truthyb (lo_logoutFromNative o)); simpl; repeat split;
      rewrite <- !app_assoc; reflexivity.
Qed.

(** X15: a logout that does not ask for both federated and local-only ends the
    local session whatever else it does: the cache is empty and the
    authenticated flag is gone, so afterwards getUser and getIdTokenClaims
    find nothing and getTokenSilently finds no token to return, for every
    client and every options; the transactions in flight are kept. *)
Theorem logout_ends_the_session (c : Auth0Client) (o : LogoutOptions) (w : World) :
  Js.truthyb (lo_localOnly o) && Js.truthyb (lo_federated o) = false ->
  w_cache (snd (logout ext c o w)) = ∅ /\
  is_authenticated_flag (snd (logout ext c o w)) = false /\
  w_transactions (snd (logout ext c o w)) = w_transactions w /\
  (forall c' arg,
     fst (getUser c' arg (snd (logout ext c o w))) = Ok None /\
     fst (getIdTokenClaims c' arg (snd (logout ext c o w))) = Ok None) /\
  (forall c' o', cache_hit c' o' (snd (logout ext c o w)) = None).
Proof.
  intros Hnot.
  destruct (logout_proceeds c o w Hnot) as (Hc & Hs & Ht & _).
  split; [exact Hc |]. split; [| split; [exact Ht | split]].
  - unfold is_authenticated_flag. rewrite Hs, lookup_delete_eq. reflexivity.
  - intros c' arg.
    unfold getUser, getIdTokenClaims, cache_get, bind, emit, reads, ret, Cache.get.
    simpl. rewrite Hc, !lookup_empty. split; reflexivity.
  - intros c' o'. unfold cache_hit, Cache.get. rewrite Hc, lookup_empty.
    destruct (Js.truthyb (gts_ignoreCache o')); reflexivity.
Qed.

(** X16: a logout that is not local-only hands over one URL: with
    logoutFromNative it returns the URL and does not navigate, without it
    navigates to that same URL and returns null.  A local-only logout does
    neither. *)
Theorem logout_returns_or_navigates (c : Auth0Client) (o : LogoutOptions) (w : World) :
  (Js.truthyb (lo_localOnly o) = false ->
   exists url,
     fst (logout ext c (with_logoutFromNative (Some true) o) w) = Ok (Some url) /\
     events_during (logout ext c (with_logoutFromNative (Some true) o)) w =
       [CacheClear; StorageRemove "auth0.is.authenticated"] /\
     fst (logout ext c (with_logoutFromNative None o) w) = Ok None /\
     events_during (logout ext c (with_logoutFromNative None o)) w =
       [CacheClear; StorageRemove "auth0.is.authenticated"; LocationAssign url]) /\
  (Js.truthyb (lo_localOnly o) = true ->
   Js.truthyb (lo_federated o) = false ->
   fst (logout ext c o w) = Ok None /\
   events_during (logout ext c o) w = [CacheClear; StorageRemove "auth0.is.authenticated"]).
Proof.
  split.
  - intros Hl.
    assert (Hn : forall b,
              Js.truthyb (lo_localOnly (with_logoutFromNative b o)) &&
              Js.truthyb (lo_federated (with_logoutFromNative b o)) = false)
      by (intros b; simpl; rewrite Hl; reflexivity).
    destruct (logout_proceeds c (with_logoutFromNative (Some true) o) w (Hn _))
      as (_ & _ & _ & Htr1 & Hr1).
    destruct (logout_proceeds c (with_logoutFromNative None o) w (Hn _))
      as (_ & _ & _ & Htr2 & Hr2).
    simpl in Htr1, Hr1, Htr2, Hr2. rewrite Hl in Htr1, Hr1, Htr2, Hr2.
    eexists. split; [exact Hr1 |]. split; [apply events_during_app; exact Htr1 |].
    split; [exact Hr2 |]. apply events_during_app. exact Htr2.
  - intros Hl Hf.
    assert (Hn : Js.truthyb (lo_localOnly o) && Js.truthyb (lo_federated o) = false)
      by (rewrite Hf; apply andb_false_r).
    destruct (logout_proceeds c o w Hn) as (_ & _ & _ & Htr & Hr).
    rewrite Hl in Htr, Hr. split; [exact Hr |]. apply events_during_app. exact Htr.
Qed.

End Session.

(** ** [checkSession] *)

Section CheckSession.

Context (ext : Externals) (utils : Utils).

Lemma checkSession_without_flag (c : Auth0Client) (arg : option GetTokenSilentlyOptions)
    (w : World) :
  Js.truthyb (w_storage w !! "auth0.is.authenticated") = false ->
  checkSession ext utils c arg w = (Ok tt, w).
Proof.
  intros H. unfold checkSession, clientStorage_get, bind, reads, ret.
  simpl. rewrite H. reflexivity.
Qed.

Lemma checkSession_with_flag (c : Auth0Client) (arg : option GetTokenSilentlyOptions)
    (w : World) :
  Js.truthyb (w_storage w !! "auth0.is.authenticated") = true ->
  snd (checkSession ext utils c arg w) =
    snd (getTokenSilently ext c (default empty_options arg) w) /\
  fst (checkSession ext utils c arg w) =
    match fst (getTokenSilently ext c (default empty_options arg) w) with
    | Ok _ => Ok tt
    | Throw e =>
        if includes (RECOVERABLE_ERRORS utils) (error_property e) then Ok tt else Throw e
    end.
Proof.
  intros H. unfold checkSession, clientStorage_get, try_catch, bind, reads, ret, throw.
  simpl. rewrite H. simpl.
  destruct (getTokenSilently ext c (default empty_options arg) w) as [[a | e] w1]; simpl;
    [split; reflexivity |].
  destruct (includes (RECOVERABLE_ERRORS utils) (error_property e)); split; reflexivity.
Qed.

(** X17: after a logout there is no session to check: on the world a logout
    leaves (one that does not ask for both federated and local-only),
    checkSession of any client returns at once and changes nothing: no cache
    read, no lock, no call to the token endpoint. *)
Theorem checkSession_after_logout (c c' : Auth0Client) (o : LogoutOptions)
    (arg : option GetTokenSilentlyOptions) (w : World) :
  Js.truthyb (lo_localOnly o) && Js.truthyb (lo_federated o) = false ->
  checkSession ext utils c' arg (snd (logout ext c o w)) = (Ok tt, snd (logout ext c o w)).
Proof.
  intros Hnot. apply checkSession_without_flag.
  destruct (logout_proceeds ext c o w Hnot) as (_ & Hs & _).
  rewrite Hs, lookup_delete_eq. reflexivity.
Qed.


(** X19: the missing refresh token is not recoverable, whatever RECOVERABLE_ERRORS
    lists: with the flag set, a lookup that misses, refresh tokens in use and
    no refresh token in the cache, checkSession throws the TypeError of
    getTokenSilently, and the token endpoint was not called. *)
Theorem checkSession_missing_refresh_token (c : Auth0Client)
    (arg : option GetTokenSilentlyOptions) (w : World) :
  Js.truthyb (w_storage w !! "auth0.is.authenticated") = true ->
  cache_hit c (default empty_options arg) w = None ->
  refresh_applicable c (default empty_options arg) = true ->
  cached_refresh_token c (default empty_options arg) w = None ->
  fst (checkSession ext utils c arg w) = Throw TYPE_ERROR /\
  calls_token_endpoint (events_during (checkSession ext utils c arg) w) = false.
Proof.
  intros Hflag Hmiss Happ Hrt.
  destruct (checkSession_with_flag c arg w Hflag) as (Hw & Hr).
  destruct (getTokenSilently_bailout ext c _ w Hmiss (or_intror Hrt)) as (Gr & _ & _ & Gev).
  rewrite Happ in Gr, Gev. rewrite Gr in Hr. split; [exact Hr |].
  unfold events_during in *. rewrite Hw, Gev.
  unfold lookup_events. destruct (Js.truthyb (gts_ignoreCache _)); reflexivity.
Qed.

(** X20: without refresh tokens checkSession renews nothing: with the flag set
    and a lookup that misses, on a client that does not use refresh tokens
    or for a call that passes an audience, it returns normally and the token
    endpoint was not called. *)
Theorem checkSession_without_refresh_tokens (c : Auth0Client)
    (arg : option GetTokenSilentlyOptions) (w : World) :
  Js.truthyb (w_storage w !! "auth0.is.authenticated") = true ->
  cache_hit c (default empty_options arg) w = None ->
  refresh_applicable c (default empty_options arg) = false ->
  fst (checkSession ext utils c arg w) = Ok tt /\
  calls_token_endpoint (events_during (checkSession ext utils c arg) w) = false /\
  is_authenticated_flag (snd (checkSession ext utils c arg w)) = true.
Proof.
  intros Hflag Hmiss Happ.
  destruct (checkSession_with_flag c arg w Hflag) as (Hw & Hr).
  destruct (getTokenSilently_bailout ext c _ w Hmiss (or_introl Happ)) as (Gr & _ & Gs & Gev).
  rewrite Happ in Gr, Gev. rewrite Gr in Hr. split; [exact Hr |]. split.
  - unfold events_during in *. rewrite Hw, Gev.
    unfold lookup_events. destruct (Js.truthyb (gts_ignoreCache _)); reflexivity.
  - unfold is_authenticated_flag. rewrite Hw, Gs, lookup_insert_eq. reflexivity.
Qed.

End CheckSession.

(** ** [buildAuthorizeUrl], [loginWithRedirect] and the login as a whole *)

Section Login.

Context (ext : Externals) (utils : Utils).

Ltac in_list := repeat first [apply list_elem_of_here | apply list_elem_of_further].

Ltac not_in_list H :=
  repeat (apply elem_of_cons in H as [H | H]; [discriminate H |]);
  apply elem_of_nil in H; contradiction.

Lemma as_string_of_string (v : option string) : as_string (Some (of_string v)) = v.
Proof. destruct v; reflexivity. Qed.

Lemma or_lit_empty (s : string) : Js.or_lit (Some s) EmptyString = s.
Proof.
  unfold Js.or_lit. destruct (String.eqb s EmptyString) eqn:E; [| reflexivity].
  apply String.eqb_eq in E. congruence.
Qed.

Lemma withoutDomain_audience (o : Auth0ClientOptions) :
  withoutDomain o !! "audience" = JsString <$> o_audience o.
Proof.
  unfold withoutDomain, with_property.
  destruct (o_audience o); simpl; [apply lookup_insert_eq |].
  destruct (o_scope o), (o_max_age o), (o_redirect_uri o), (o_issuer o); simpl;
    repeat (rewrite lookup_insert_ne by discriminate);
    rewrite lookup_singleton_ne by discriminate; reflexivity.
Qed.

Lemma withoutDomain_keys (o : Auth0ClientOptions) (k : string) :
  is_Some (withoutDomain o !! k) ->
  k ∈ ["audience"; "scope"; "max_age"; "redirect_uri"; "issuer"; "client_id"].
Proof.
  unfold withoutDomain, with_property. intros H.
  destruct (decide (k = "audience")) as [-> | N1]; [in_list |].
  destruct (decide (k = "scope")) as [-> | N2]; [in_list |].
  destruct (decide (k = "max_age")) as [-> | N3]; [in_list |].
  destruct (decide (k = "redirect_uri")) as [-> | N4]; [in_list |].
  destruct (decide (k = "issuer")) as [-> | N5]; [in_list |].
  destruct (decide (k = "client_id")) as [-> | N6]; [in_list |].
  exfalso.
  destruct (o_audience o), (o_scope o), (o_max_age o), (o_redirect_uri o), (o_issuer o);
    simpl in H;
    repeat (rewrite lookup_insert_ne in H by congruence);
    rewrite lookup_singleton_ne in H by congruence;
    destruct H; discriminate.
Qed.

Lemma getParams_other (c : Auth0Client) (authorizeOptions : gmap string JsValue)
    (state nonce code_challenge : string) (redirect_uri : option string) (k : string) :
  k ∉ fixed_parameters ->
  _getParams c authorizeOptions state nonce code_challenge redirect_uri !! k =
    match authorizeOptions !! k with
    | Some v => Some v
    | None => withoutDomain (options c) !! k
    end.
Proof.
  intros Hk. unfold fixed_parameters in Hk. unfold _getParams.
  repeat (rewrite lookup_insert_ne by (intros <-; apply Hk; in_list)).
  rewrite lookup_union.
  destruct (authorizeOptions !! k), (withoutDomain (options c) !! k); reflexivity.
Qed.

Lemma getParams_fixed (c : Auth0Client) (authorizeOptions : gmap string JsValue)
    (state nonce code_challenge : string) (redirect_uri : option string) :
  _getParams c authorizeOptions state nonce code_challenge redirect_uri !! "response_type"
    = Some (JsString "code") /\
  _getParams c authorizeOptions state nonce code_challenge redirect_uri !! "response_mode"
    = Some (JsString "query") /\
  _getParams c authorizeOptions state nonce code_challenge redirect_uri !! "state"
    = Some (JsString state) /\
  _getParams c authorizeOptions state nonce code_challenge redirect_uri !! "nonce"
    = Some (JsString nonce) /\
  _getParams c authorizeOptions state nonce code_challenge redirect_uri !! "code_challenge"
    = Some (JsString code_challenge) /\
  _getParams c authorizeOptions state nonce code_challenge redirect_uri
    !! "code_challenge_method" = Some (JsString "S256") /\
  _getParams c authorizeOptions state nonce code_challenge redirect_uri !! "scope"
    = Some (JsString
              (Scope.getUniqueScopes
                 [Some (defaultScope c); scope c; as_string (authorizeOptions !! "scope")])) /\
  _getParams c authorizeOptions state nonce code_challenge redirect_uri !! "redirect_uri"
    = Some (of_string (Js.or_else redirect_uri (o_redirect_uri (options c)))).
Proof.
  unfold _getParams.
  repeat split; repeat (rewrite lookup_insert_ne by discriminate); apply lookup_insert_eq.
Qed.

(** X21: the caller's options cannot replace what the flow depends on: whatever
    the options hold, the parameters ask for a code in the query, carry the
    state, the nonce and the challenge of this call with method S256, and the
    scope made of the default, the client's and the call's; every other
    parameter is the caller's when the caller gives it and the client's
    otherwise, and the client's domain, leeway, useRefreshTokens,
    auth0Client, cacheLocation and advancedOptions are not passed on. *)
Theorem getParams_precedence (c : Auth0Client) (authorizeOptions : gmap string JsValue)
    (state nonce code_challenge : string) (redirect_uri : option string) :
  (forall k v,
     (k, v) ∈ [("response_type", JsString "code"); ("response_mode", JsString "query");
               ("state", JsString state); ("nonce", JsString nonce);
               ("code_challenge", JsString code_challenge);
               ("code_challenge_method", JsString "S256");
               ("scope",
                JsString
                  (Scope.getUniqueScopes
                     [Some (defaultScope c); scope c; as_string (authorizeOptions !! "scope")]));
               ("redirect_uri",
                of_string (Js.or_else redirect_uri (o_redirect_uri (options c))))] ->
     _getParams c authorizeOptions state nonce code_challenge redirect_uri !! k = Some v) /\
  (forall k, k ∉ fixed_parameters ->
     _getParams c authorizeOptions state nonce code_challenge redirect_uri !! k =
       match authorizeOptions !! k with
       | Some v => Some v
       | None => withoutDomain (options c) !! k
       end) /\
  (forall k,
     k ∈ ["domain"; "leeway"; "useRefreshTokens"; "auth0Client"; "cacheLocation";
          "advancedOptions"] ->
     _getParams c authorizeOptions state nonce code_challenge redirect_uri !! k =
       authorizeOptions !! k).
Proof.
  destruct (getParams_fixed c authorizeOptions state nonce code_challenge redirect_uri)
    as (H1 & H2 & H3 & H4 & H5 & H6 & H7 & H8).
  split; [| split].
  - intros k v Hin.
    repeat (apply elem_of_cons in Hin as [Heq | Hin]; [injection Heq as -> ->; assumption |]).
    apply elem_of_nil in Hin. contradiction.
  - intros k. apply getParams_other.
  - intros k Hk.
    assert (Hnot : withoutDomain (options c) !! k = None).
    { destruct (withoutDomain (options c) !! k) as [v |] eqn:E; [| reflexivity].
      exfalso. pose proof (withoutDomain_keys (options c) k (mk_is_Some _ _ E)) as Hin.
      repeat (apply elem_of_cons in Hk as [-> | Hk]; [not_in_list Hin |]).
      apply elem_of_nil in Hk. contradiction. }
    rewrite getParams_other
      by (unfold fixed_parameters; intros Hin;
          repeat (apply elem_of_cons in Hk as [-> | Hk]; [not_in_list Hin |]);
          apply elem_of_nil in Hk; contradiction).
    rewrite Hnot. destruct (authorizeOptions !! k); reflexivity.
Qed.

Lemma buildAuthorizeUrl_world (c : Auth0Client) (o : RedirectLoginOptions)
    (random : RandomStrings) (w : World) :
  w_transactions (snd (buildAuthorizeUrl ext utils c o random w)) =
    <[encode utils (for_state random) :=
        transaction_of (authorize_params utils c o random)
          (encode utils (for_nonce random)) (for_code_verifier random) (rl_appState o)]>
      (w_transactions w) /\
  w_cache (snd (buildAuthorizeUrl ext utils c o random w)) = w_cache w /\
  w_storage (snd (buildAuthorizeUrl ext utils c o random w)) = w_storage w /\
  w_now (snd (buildAuthorizeUrl ext utils c o random w)) = w_now w /\
  w_trace (snd (buildAuthorizeUrl ext utils c o random w)) = w_trace w.
Proof.
  unfold buildAuthorizeUrl, transactionManager_create, bind, modify, ret. simpl.
  repeat split.
Qed.

(** The transaction a login keeps, field by field. *)
Lemma login_transaction (c : Auth0Client) (o : RedirectLoginOptions)
    (random : RandomStrings) :
  transaction_of (authorize_params utils c o random)
    (encode utils (for_nonce random)) (for_code_verifier random) (rl_appState o) =
  {| tx_nonce := encode utils (for_nonce random);
     tx_code_verifier := for_code_verifier random;
     tx_appState := rl_appState o;
     tx_scope :=
       Scope.getUniqueScopes
         [Some (defaultScope c); scope c; as_string (rl_authorize o !! "scope")];
     tx_audience :=
       Js.or_lit
         (match rl_authorize o !! "audience" with
          | Some v => as_string (Some v)
          | None => o_audience (options c)
          end) "default";
     tx_redirect_uri := Js.or_else (rl_redirect_uri o) (o_redirect_uri (options c)) |}.
Proof.
  unfold transaction_of, authorize_params.
  destruct (getParams_fixed c (rl_authorize o)
              (encode utils (for_state random)) (encode utils (for_nonce random))
              (bufferToBase64UrlEncoded utils (sha256 utils (for_code_verifier random)))
              (rl_redirect_uri o)) as (_ & _ & _ & _ & _ & _ & Hs & Hr).
  rewrite Hs, Hr.
  rewrite (getParams_other c (rl_authorize o) _ _ _ _ "audience")
    by (unfold fixed_parameters; intros Hin; not_in_list Hin).
  cbn [as_string]. rewrite or_lit_empty.
  change (match of_string (Js.or_else (rl_redirect_uri o) (o_redirect_uri (options c))) with
          | JsString s => Some s
          | _ => None
          end)
    with (as_string (Some (of_string (Js.or_else (rl_redirect_uri o)
                                        (o_redirect_uri (options c)))))).
  rewrite as_string_of_string.
  f_equal. f_equal.
  destruct (rl_authorize o !! "audience") as [v |]; [reflexivity |].
  rewrite withoutDomain_audience. destruct (o_audience (options c)); reflexivity.
Qed.


(** X22: loginWithRedirect is buildAuthorizeUrl followed by one navigation: it
    sends the browser to exactly the URL buildAuthorizeUrl returns, keeps
    the same single transaction under the encoded state, and neither of the
    two touches the cache or the client storage. *)
Theorem loginWithRedirect_navigates (c : Auth0Client) (o : RedirectLoginOptions)
    (random : RandomStrings) (w : World) :
  exists url,
    fst (buildAuthorizeUrl ext utils c o random w) = Ok url /\
    events_during (buildAuthorizeUrl ext utils c o random) w = [] /\
    fst (loginWithRedirect ext utils c o random w) = Ok tt /\
    events_during (loginWithRedirect ext utils c o random) w = [LocationAssign url] /\
    w_transactions (snd (loginWithRedirect ext utils c o random w)) =
      w_transactions (snd (buildAuthorizeUrl ext utils c o random w)) /\
    (forall s, s <> encode utils (for_state random) ->
       w_transactions (snd (loginWithRedirect ext utils c o random w)) !! s =
         w_transactions w !! s) /\
    is_Some (w_transactions (snd (loginWithRedirect ext utils c o random w))
               !! encode utils (for_state random)) /\
    w_cache (snd (loginWithRedirect ext utils c o random w)) = w_cache w /\
    w_storage (snd (loginWithRedirect ext utils c o random w)) = w_storage w.
Proof.
  unfold events_during, loginWithRedirect, buildAuthorizeUrl, transactionManager_create,
    bind, emit, modify, ret. simpl.
  eexists. split; [reflexivity |]. split; [apply drop_all |].
  split; [reflexivity |]. split; [apply drop_app_length |]. split; [reflexivity |].
  split; [intros s Hs; apply lookup_insert_ne; congruence |].
  split; [rewrite lookup_insert_eq; eauto | split; reflexivity].
Qed.

Lemma login_outcome (c : Auth0Client) (o : RedirectLoginOptions)
    (random : RandomStrings) (url : string) (w : World)
    (tokenResult : TokenResponse) (decodedToken : DecodedToken) :
  occurs "?" url = true ->
  q_state (callback_query ext url) = Some (encode utils (for_state random)) ->
  Js.truthy (q_error (callback_query ext url)) = false ->
  oauthToken ext (code_exchange c o random (q_code (callback_query ext url)))
    = Ok tokenResult ->
  verifyIdToken ext
    (verify_options ext c (tr_id_token tokenResult) (Some (encode utils (for_nonce random))))
    = Ok decodedToken ->
  authorize_params utils c o random !! "code_challenge" =
    Some (JsString (bufferToBase64UrlEncoded utils (sha256 utils (for_code_verifier random)))) /\
  fst (handleRedirectCallback ext c url (snd (buildAuthorizeUrl ext utils c o random w)))
    = Ok {| appState := rl_appState o |} /\
  events_during (handleRedirectCallback ext c url)
    (snd (buildAuthorizeUrl ext utils c o random w)) =
    [TransactionGet (Some (encode utils (for_state random)));
     TransactionRemove (Some (encode utils (for_state random)));
     OauthToken (code_exchange c o random (q_code (callback_query ext url)));
     VerifyIdToken
       (verify_options ext c (tr_id_token tokenResult)
          (Some (encode utils (for_nonce random))));
     CacheSave (login_entry c o tokenResult decodedToken);
     StorageSave "auth0.is.authenticated" true] /\
  w_cache (snd (handleRedirectCallback ext c url
                  (snd (buildAuthorizeUrl ext utils c o random w)))) =
    Cache.save (w_now w) (login_entry c o tokenResult decodedToken) (w_cache w) /\
  is_authenticated_flag
    (snd (handleRedirectCallback ext c url
            (snd (buildAuthorizeUrl ext utils c o random w)))) = true /\
  w_transactions (snd (handleRedirectCallback ext c url
                         (snd (buildAuthorizeUrl ext utils c o random w))))
    !! encode utils (for_state random) = None /\
  w_now (snd (handleRedirectCallback ext c url
                (snd (buildAuthorizeUrl ext utils c o random w)))) = w_now w.
Proof.
  intros Hq Hs Herr Hex Hv.
  destruct (buildAuthorizeUrl_world c o random w) as (Bt & Bc & Bs & Bn & Btr).
  pose proof (login_transaction c o random) as Htx.
  set (w1 := snd (buildAuthorizeUrl ext utils c o random w)) in *.
  set (tx := transaction_of (authorize_params utils c o random)
               (encode utils (for_nonce random)) (for_code_verifier random) (rl_appState o))
    in *.
  assert (Hfound : w_transactions w1 !! encode utils (for_state random) = Some tx)
    by (rewrite Bt; apply lookup_insert_eq).
  assert (Hto : forall code, tokenOptions c tx code = code_exchange c o random code)
    by (intros code; unfold tokenOptions, code_exchange; rewrite Htx; reflexivity).
  assert (Hce : cacheEntry c tx tokenResult decodedToken =
                login_entry c o tokenResult decodedToken)
    by (unfold cacheEntry, login_entry; rewrite Htx; reflexivity).
  assert (Hn : tx_nonce tx = encode utils (for_nonce random)) by (rewrite Htx; reflexivity).
  assert (Ha : tx_appState tx = rl_appState o) by (rewrite Htx; reflexivity).
  split.
  { destruct (getParams_fixed c (rl_authorize o)
                (encode utils (for_state random)) (encode utils (for_nonce random))
                (bufferToBase64UrlEncoded utils (sha256 utils (for_code_verifier random)))
                (rl_redirect_uri o)) as (_ & _ & _ & _ & H5 & _).
    exact H5. }
  pose proof (fragments_of_query url Hq) as Hf.
  clearbody tx w1.
  revert Hf Hs Herr Hex Hv. unfold events_during, handleRedirectCallback, callback_query.
  intros Hf Hs Herr Hex Hv.
  destruct (queryStringFragments url) as [| f fs]; [contradiction |].
  remember (parseQueryResult ext (Js.join_empty (f :: fs))) as q eqn:Eq. clear Eq.
  rewrite <- Hto in Hex. rewrite <- Hn in Hv. rewrite <- Hce, <- Ha, <- Bc, <- Bn.
  rewrite <- Hto, <- Hn.
  unfold TransactionManager.get, TransactionManager.remove, call_oauthToken, _verifyIdToken,
    cache_save, ClientStorage.save, lift_result, bind, emit, modify, reads, ret, throw.
  simpl. rewrite Hs, Hfound, Herr. simpl. rewrite Hex. simpl. rewrite Hv. simpl.
  split; [reflexivity |].
  split; [rewrite <- !app_assoc; apply drop_app_length |].
  split; [reflexivity |].
  split; [unfold is_authenticated_flag; simpl; rewrite lookup_insert_eq; reflexivity |].
  split; [apply lookup_delete_eq | reflexivity].
Qed.


(** X23: the login as a whole.  After buildAuthorizeUrl, a callback that carries
    the state of this login and no error is completed with what the login
    kept: the code is exchanged with the verifier drawn for this login (the
    /authorize request carried its encoded digest as the challenge) and the
    redirect URI sent to /authorize, the id token is verified against the
    nonce sent, the record is saved under the scope and the audience sent,
    the flag is set, the transaction is gone, and the appState given to
    buildAuthorizeUrl is returned. *)
Theorem login_round_trip (c : Auth0Client) (o : RedirectLoginOptions)
    (random : RandomStrings) (url : string) (w : World)
    (tokenResult : TokenResponse) (decodedToken : DecodedToken) :
  occurs "?" url = true ->
  q_state (callback_query ext url) = Some (encode utils (for_state random)) ->
  Js.truthy (q_error (callback_query ext url)) = false ->
  oauthToken ext (code_exchange c o random (q_code (callback_query ext url)))
    = Ok tokenResult ->
  verifyIdToken ext
    (verify_options ext c (tr_id_token tokenResult) (Some (encode utils (for_nonce random))))
    = Ok decodedToken ->
  authorize_params utils c o random !! "code_challenge" =
    Some (JsString (bufferToBase64UrlEncoded utils (sha256 utils (for_code_verifier random)))) /\
  fst (handleRedirectCallback ext c url (snd (buildAuthorizeUrl ext utils c o random w)))
    = Ok {| appState := rl_appState o |} /\
  events_during (handleRedirectCallback ext c url)
    (snd (buildAuthorizeUrl ext utils c o random w)) =
    [TransactionGet (Some (encode utils (for_state random)));
     TransactionRemove (Some (encode utils (for_state random)));
     OauthToken (code_exchange c o random (q_code (callback_query ext url)));
     VerifyIdToken
       (verify_options ext c (tr_id_token tokenResult)
          (Some (encode utils (for_nonce random))));
     CacheSave (login_entry c o tokenResult decodedToken);
     StorageSave "auth0.is.authenticated" true] /\
  w_cache (snd (handleRedirectCallback ext c url
                  (snd (buildAuthorizeUrl ext utils c o random w)))) =
    Cache.save (w_now w) (login_entry c o tokenResult decodedToken) (w_cache w) /\
  is_authenticated_flag
    (snd (handleRedirectCallback ext c url
            (snd (buildAuthorizeUrl ext utils c o random w)))) = true /\
  w_transactions (snd (handleRedirectCallback ext c url
                         (snd (buildAuthorizeUrl ext utils c o random w))))
    !! encode utils (for_state random) = None.
Proof.
  intros Hq Hs Herr Hex Hv.
  destruct (login_outcome c o random url w tokenResult decodedToken Hq Hs Herr Hex Hv)
    as (H1 & H2 & H3 & H4 & H5 & H6 & _).
  repeat split; assumption.
Qed.

(** X24: a login feeds getTokenSilently: after a login completed as above, with
    an access token that is not empty and lasts more than 60 seconds,
    getTokenSilently called with the scope and the audience of the login is
    answered from the cache with the token of the login, without the lock
    and without the token endpoint.  The audience of the login, when given,
    is a string. *)
Theorem login_feeds_getTokenSilently (c : Auth0Client) (o : RedirectLoginOptions)
    (random : RandomStrings) (url : string) (w : World)
    (tokenResult : TokenResponse) (decodedToken : DecodedToken) :
  occurs "?" url = true ->
  q_state (callback_query ext url) = Some (encode utils (for_state random)) ->
  Js.truthy (q_error (callback_query ext url)) = false ->
  oauthToken ext (code_exchange c o random (q_code (callback_query ext url)))
    = Ok tokenResult ->
  verifyIdToken ext
    (verify_options ext c (tr_id_token tokenResult) (Some (encode utils (for_nonce random))))
    = Ok decodedToken ->
  (forall v, rl_authorize o !! "audience" = Some v -> exists a, v = JsString a) ->
  60 < tr_expires_in tokenResult ->
  tr_access_token tokenResult <> EmptyString ->
  fst (getTokenSilently ext c (token_options_of o)
         (snd (handleRedirectCallback ext c url
                 (snd (buildAuthorizeUrl ext utils c o random w)))))
    = Ok (Some (tr_access_token tokenResult)) /\
  events_during (getTokenSilently ext c (token_options_of o))
    (snd (handleRedirectCallback ext c url
            (snd (buildAuthorizeUrl ext utils c o random w)))) =
    [CacheGet (token_cache_key c (token_options_of o)) 60;
     ReleaseLock GET_TOKEN_SILENTLY_LOCK_KEY].
Proof.
  intros Hq Hs Herr Hex Hv Haud Hlong Hne.
  destruct (login_outcome c o random url w tokenResult decodedToken Hq Hs Herr Hex Hv)
    as (_ & _ & _ & Hc & _ & _ & Hn).
  set (w2 := snd (handleRedirectCallback ext c url
                    (snd (buildAuthorizeUrl ext utils c o random w)))) in *.
  assert (Hkey : Cache.key_of (login_entry c o tokenResult decodedToken) =
                 token_cache_key c (token_options_of o)).
  { unfold Cache.key_of, login_entry, token_cache_key, getTokenOptions, token_options_of.
    cbn [ce_client_id ce_audience ce_scope gts_audience gts_scope].
    destruct (rl_authorize o !! "audience") as [v |] eqn:E; [| reflexivity].
    destruct (Haud v eq_refl) as (a & ->). reflexivity. }
  assert (Hhit : cache_hit c (token_options_of o) w2 = Some (tr_access_token tokenResult)).
  { unfold cache_hit. cbn [token_options_of gts_ignoreCache Js.truthyb].
    fold (token_options_of o).
    rewrite Hc, Hn. unfold Cache.get, Cache.save. rewrite Hkey, lookup_insert_eq.
    unfold Cache.fresh.
    assert (Hlt : (w_now w + 60 <? w_now w + tr_expires_in tokenResult) = true)
      by (apply Z.ltb_lt; lia).
    cbn [body expiresAt login_entry ce_expires_in fmap option_fmap option_map].
    rewrite Hlt.
    change (ce_access_token (login_entry c o tokenResult decodedToken))
      with (Some (tr_access_token tokenResult)).
    rewrite (truthy_Some _ Hne). reflexivity. }
  split.
  - apply (getTokenSilently_hit ext c _ _ _ Hhit).
  - apply (getTokenSilently_hit_events ext c _ _ _ Hhit).
Qed.

(** X25: a login opens the session: after a login completed as above that names
    no scope and no audience, with a token that has not expired, getUser and
    getIdTokenClaims called without argument return the user and the claims
    of the id token of the login, and isAuthenticated tells whether that
    token has a user. *)
Theorem session_after_login (c : Auth0Client) (o : RedirectLoginOptions)
    (random : RandomStrings) (url : string) (w : World)
    (tokenResult : TokenResponse) (decodedToken : DecodedToken) :
  occurs "?" url = true ->
  q_state (callback_query ext url) = Some (encode utils (for_state random)) ->
  Js.truthy (q_error (callback_query ext url)) = false ->
  oauthToken ext (code_exchange c o random (q_code (callback_query ext url)))
    = Ok tokenResult ->
  verifyIdToken ext
    (verify_options ext c (tr_id_token tokenResult) (Some (encode utils (for_nonce random))))
    = Ok decodedToken ->
  rl_authorize o !! "audience" = None ->
  rl_authorize o !! "scope" = None ->
  0 < tr_expires_in tokenResult ->
  fst (getUser c None
         (snd (handleRedirectCallback ext c url
                 (snd (buildAuthorizeUrl ext utils c o random w)))))
    = Ok (dt_user decodedToken) /\
  fst (getIdTokenClaims c None
         (snd (handleRedirectCallback ext c url
                 (snd (buildAuthorizeUrl ext utils c o random w)))))
    = Ok (dt_claims decodedToken) /\
  fst (isAuthenticated c
         (snd (handleRedirectCallback ext c url
                 (snd (buildAuthorizeUrl ext utils c o random w)))))
    = Ok (bool_decide (is_Some (dt_user decodedToken))).
Proof.
  intros Hq Hs Herr Hex Hv Haud Hsc Hpos.
  destruct (login_outcome c o random url w tokenResult decodedToken Hq Hs Herr Hex Hv)
    as (_ & _ & _ & Hc & _ & _ & Hn).
  set (w2 := snd (handleRedirectCallback ext c url
                    (snd (buildAuthorizeUrl ext utils c o random w)))) in *.
  assert (Hkey : Cache.key_of (login_entry c o tokenResult decodedToken) =
                 token_cache_key c empty_options).
  { unfold Cache.key_of, login_entry, token_cache_key, getTokenOptions, empty_options.
    cbn [ce_client_id ce_audience ce_scope gts_audience gts_scope].
    rewrite Haud, Hsc. reflexivity. }
  assert (Hserved :
    Cache.get (w_now w2) (token_cache_key c empty_options)
      Cache.DEFAULT_EXPIRY_ADJUSTMENT_SECONDS (w_cache w2)
    = Some (login_entry c o tokenResult decodedToken)).
  { rewrite Hc, Hn. unfold Cache.get, Cache.save. rewrite Hkey, lookup_insert_eq.
    unfold Cache.fresh, Cache.DEFAULT_EXPIRY_ADJUSTMENT_SECONDS.
    assert (Hlt : (w_now w + 0 <? w_now w + tr_expires_in tokenResult) = true)
      by (apply Z.ltb_lt; lia).
    cbn [body expiresAt login_entry ce_expires_in fmap option_fmap option_map].
    rewrite Hlt. reflexivity. }
  destruct (default_reads c w2) as (Hu & Hi).
  rewrite Hserved in Hu, Hi.
  split; [exact Hu |]. split; [exact Hi |].
  unfold isAuthenticated, bind, ret.
  destruct (getUser c None w2) as [r w3].
  simpl in Hu. rewrite Hu. reflexivity.
Qed.

End Login.

(** ** The max_age handed to the verifier *)

Section Verification.

Context (ext : Externals).

(** X26: a max_age configured as a string reaches the verifier as the
    number parseInt reads from it when that number is not 0, and not at all
    when the string does not parse or parses to 0, so never as 0; a max_age
    configured as a number is passed on as it is, 0 included, and none is
    passed when none is configured. *)
Theorem parseNumber_drops_zero (c : Auth0Client) (id_token : string)
    (nonce : option string) :
  match o_max_age (options c) with
  | Some (MaxAgeString s) =>
      (forall n, parseInt10 ext s = Some n -> n <> 0 ->
         v_max_age (verify_options ext c id_token nonce) = Some n) /\
      (parseInt10 ext s = Some 0 \/ parseInt10 ext s = None ->
         v_max_age (verify_options ext c id_token nonce) = None) /\
      v_max_age (verify_options ext c id_token nonce) <> Some 0
  | Some (MaxAgeNumber n) => v_max_age (verify_options ext c id_token nonce) = Some n
  | None => v_max_age (verify_options ext c id_token nonce) = None
  end.
Proof.
  unfold verify_options, _parseNumber. simpl.
  destruct (o_max_age (options c)) as [[n | s] |]; [reflexivity | | reflexivity].
  destruct (parseInt10 ext s) as [n |].
  - destruct (n =? 0) eqn:E.
    + apply Z.eqb_eq in E. subst n.
      split; [intros n Hn Hne; congruence |]. split; [reflexivity | discriminate].
    + apply Z.eqb_neq in E.
      split; [intros m Hm _; exact Hm |].
      split; [intros [H | H]; congruence | congruence].
  - split; [discriminate |]. split; [reflexivity | discriminate].
Qed.

End Verification.

(** * The further properties at concrete inputs *)

(** A callback URL without a query, while an attempt is in flight. *)
Lemma handleRedirectCallback_without_query_witness :
  handleRedirectCallback Demo.ext Demo.plain_client "https://app.example/callback"
    Demo.world_awaiting_callback =
    (Throw (Error "There are no query params available for parsing."),
     Demo.world_awaiting_callback).
Proof.
  apply (handleRedirectCallback_without_query Demo.ext). reflexivity.
Defined.

(** A callback with a code while no attempt is in flight. *)
Lemma handleRedirectCallback_no_transaction_witness :
  fst (handleRedirectCallback Demo.ext Demo.plain_client Demo.code_callback Demo.empty_world)
    = Throw (Error "Invalid state").
Proof.
  refine (proj1 (handleRedirectCallback_no_transaction Demo.ext Demo.plain_client
                   Demo.code_callback Demo.empty_world _ _)).
  - reflexivity.
  - vm_compute. reflexivity.
Defined.

(** The callback of the attempt in flight. *)
Lemma handleRedirectCallback_consumes_transaction_witness :
  w_transactions
    (snd (handleRedirectCallback Demo.ext Demo.plain_client Demo.code_callback
            Demo.world_awaiting_callback)) !! "S-1" = None.
Proof.
  refine (proj1 (handleRedirectCallback_consumes_transaction Demo.ext Demo.plain_client
                   Demo.code_callback Demo.world_awaiting_callback "S-1" Demo.transaction
                   _ _ _)).
  - reflexivity.
  - vm_compute. reflexivity.
  - vm_compute. reflexivity.
Defined.

(** The error callback of the attempt in flight, delivered twice. *)
Lemma handleRedirectCallback_replay_witness :
  fst (handleRedirectCallback Demo.ext Demo.plain_client Demo.error_callback
         (snd (handleRedirectCallback Demo.ext Demo.plain_client Demo.error_callback
                 Demo.world_awaiting_callback))) = Throw (Error "Invalid state").
Proof.
  refine (proj1 (handleRedirectCallback_replay Demo.ext Demo.plain_client
                   Demo.error_callback Demo.world_awaiting_callback "S-1" Demo.transaction
                   _ _ _)).
  - reflexivity.
  - vm_compute. reflexivity.
  - vm_compute. reflexivity.
Defined.


(** The same renewal against a token endpoint that refuses the grant. *)
Lemma getTokenSilently_failure_writes_nothing_witness :
  w_cache (snd (getTokenSilently Sample.refusing Demo.refreshing_client
                  Sample.ignoring_cache Demo.refreshing_world))
    = w_cache Demo.refreshing_world.
Proof.
  refine (proj1 (getTokenSilently_failure_writes_nothing Sample.refusing
                   Demo.refreshing_client Sample.ignoring_cache Demo.refreshing_world
                   (CollaboratorError "login_required") _ _)).
  - vm_compute. reflexivity.
  - discriminate.
Defined.

(** The same renewal while another tab holds the lock. *)
Lemma getTokenSilently_ignores_lock_holder_witness :
  fst (getTokenSilently Demo.ext Demo.refreshing_client Sample.ignoring_cache
         Demo.refreshing_world) =
  fst (getTokenSilently Demo.ext Demo.refreshing_client Sample.ignoring_cache
         Sample.other_tab_renewing).
Proof.
  refine (proj1 (getTokenSilently_ignores_lock_holder Demo.ext Demo.refreshing_client
                   Sample.ignoring_cache Demo.refreshing_world Sample.other_tab_renewing _)).
  repeat split.
Defined.

(** Two calls in a row from a cache whose record has an empty access token. *)
Lemma getTokenSilently_again_is_served_witness :
  fst (getTokenSilently Demo.ext (new_Auth0Client (Demo.client_options true)) Demo.no_options
         (snd (getTokenSilently Demo.ext (new_Auth0Client (Demo.client_options true))
                 Demo.no_options Demo.empty_token_world))) = Ok (Some "AT-2").
Proof.
  refine (proj1 (getTokenSilently_again_is_served Demo.ext (Demo.client_options true)
                   Demo.no_options Demo.empty_token_world Demo.empty_token_record
                   Demo.tokens Demo.decoded _ _ _ _ _ _ _ _ _)).
  - reflexivity.
  - vm_compute. reflexivity.
  - reflexivity.
  - vm_compute. reflexivity.
  - reflexivity.
  - reflexivity.
  - reflexivity.
  - reflexivity.
  - discriminate.
Defined.

(** ignoreCache over a cache that holds a valid record. *)
Lemma getTokenSilently_ignoreCache_witness :
  head (events_during (getTokenSilently Demo.ext Demo.refreshing_client Sample.ignoring_cache)
          Demo.refreshing_world) = Some (AcquireLock GET_TOKEN_SILENTLY_LOCK_KEY 5000).
Proof.
  refine (proj1 (getTokenSilently_ignoreCache Demo.ext Demo.refreshing_client
                   Sample.ignoring_cache Demo.refreshing_world _)).
  reflexivity.
Defined.

(** The token served from the cache of [Demo.cached_world]. *)
Lemma getTokenSilently_returns_a_cached_token_witness :
  exists k p,
    (k = token_cache_key Demo.plain_client Demo.no_options \/
     k = grant_cache_key Demo.plain_client
           (getTokenOptions Demo.plain_client Demo.no_options)) /\
    w_cache (snd (getTokenSilently Demo.ext Demo.plain_client Demo.no_options
                    Demo.cached_world)) !! k = Some p /\
    ce_access_token (body p) = Some "AT-1".
Proof.
  apply (getTokenSilently_returns_a_cached_token Demo.ext Demo.plain_client Demo.no_options
           Demo.cached_world "AT-1").
  vm_compute. reflexivity.
Defined.

(** The user after a renewal from a cache whose record has an empty access
    token. *)
Lemma session_after_refresh_witness :
  fst (getUser (new_Auth0Client (Demo.client_options true)) None
         (snd (getTokenSilently Demo.ext (new_Auth0Client (Demo.client_options true))
                 empty_options Demo.empty_token_world))) = Ok (dt_user Demo.decoded).
Proof.
  refine (proj1 (session_after_refresh Demo.ext (Demo.client_options true)
                   Demo.empty_token_world Demo.empty_token_record Demo.tokens Demo.decoded
                   _ _ _ _ _ _ _)).
  - vm_compute. reflexivity.
  - reflexivity.
  - vm_compute. reflexivity.
  - reflexivity.
  - reflexivity.
  - reflexivity.
  - reflexivity.
Defined.

(** A local-only logout over a cache that holds a record. *)
Lemma logout_ends_the_session_witness :
  w_cache (snd (logout Demo.ext Demo.plain_client Sample.local_logout Demo.cached_world)) = ∅.
Proof.
  refine (proj1 (logout_ends_the_session Demo.ext Demo.plain_client Sample.local_logout
                   Demo.cached_world _)).
  reflexivity.
Defined.

(** checkSession after a local-only logout of a signed-in session. *)
Lemma checkSession_after_logout_witness :
  checkSession Demo.ext Sample.utils Demo.refreshing_client None
    (snd (logout Demo.ext Demo.refreshing_client Sample.local_logout Sample.signed_in)) =
    (Ok tt, snd (logout Demo.ext Demo.refreshing_client Sample.local_logout Sample.signed_in)).
Proof.
  apply (checkSession_after_logout Demo.ext Sample.utils Demo.refreshing_client
           Demo.refreshing_client Sample.local_logout None Sample.signed_in).
  reflexivity.
Defined.


(** checkSession with the flag set, refresh tokens in use and an empty
    cache. *)
Lemma checkSession_missing_refresh_token_witness :
  fst (checkSession Demo.ext Sample.utils Demo.refreshing_client None Sample.flag_only)
    = Throw TYPE_ERROR.
Proof.
  refine (proj1 (checkSession_missing_refresh_token Demo.ext Sample.utils
                   Demo.refreshing_client None Sample.flag_only _ _ _ _)).
  - reflexivity.
  - vm_compute. reflexivity.
  - reflexivity.
  - vm_compute. reflexivity.
Defined.

(** checkSession with the flag set on a client without refresh tokens. *)
Lemma checkSession_without_refresh_tokens_witness :
  fst (checkSession Demo.ext Sample.utils Demo.plain_client None Sample.flag_only) = Ok tt.
Proof.
  refine (proj1 (checkSession_without_refresh_tokens Demo.ext Sample.utils
                   Demo.plain_client None Sample.flag_only _ _ _)).
  - reflexivity.
  - vm_compute. reflexivity.
  - reflexivity.
Defined.

(** A login and its callback. *)
Lemma login_round_trip_witness :
  fst (handleRedirectCallback Demo.ext Demo.plain_client Sample.callback
         (snd (buildAuthorizeUrl Demo.ext Sample.utils Demo.plain_client Sample.login
                 Sample.random Demo.empty_world)))
    = Ok {| appState := Some "{target:/inbox}" |}.
Proof.
  refine (proj1 (proj2 (login_round_trip Demo.ext Sample.utils Demo.plain_client
                          Sample.login Sample.random Sample.callback Demo.empty_world
                          Demo.tokens Demo.decoded _ _ _ _ _))).
  - reflexivity.
  - vm_compute. reflexivity.
  - vm_compute. reflexivity.
  - reflexivity.
  - reflexivity.
Defined.

(** getTokenSilently after that login. *)
Lemma login_feeds_getTokenSilently_witness :
  fst (getTokenSilently Demo.ext Demo.plain_client (token_options_of Sample.login)
         (snd (handleRedirectCallback Demo.ext Demo.plain_client Sample.callback
                 (snd (buildAuthorizeUrl Demo.ext Sample.utils Demo.plain_client
                         Sample.login Sample.random Demo.empty_world)))))
    = Ok (Some "AT-2").
Proof.
  refine (proj1 (login_feeds_getTokenSilently Demo.ext Sample.utils Demo.plain_client
                   Sample.login Sample.random Sample.callback Demo.empty_world
                   Demo.tokens Demo.decoded _ _ _ _ _ _ _ _)).
  - reflexivity.
  - vm_compute. reflexivity.
  - vm_compute. reflexivity.
  - reflexivity.
  - reflexivity.
  - intros v H. vm_compute in H. discriminate.
  - reflexivity.
  - discriminate.
Defined.

(** getUser after that login. *)
Lemma session_after_login_witness :
  fst (getUser Demo.plain_client None
         (snd (handleRedirectCallback Demo.ext Demo.plain_client Sample.callback
                 (snd (buildAuthorizeUrl Demo.ext Sample.utils Demo.plain_client
                         Sample.login Sample.random Demo.empty_world)))))
    = Ok (Some "{sub:alice}").
Proof.
  refine (proj1 (session_after_login Demo.ext Sample.utils Demo.plain_client
                   Sample.login Sample.random Sample.callback Demo.empty_world
                   Demo.tokens Demo.decoded _ _ _ _ _ _ _ _)).
  - reflexivity.
  - vm_compute. reflexivity.
  - vm_compute. reflexivity.
  - reflexivity.
  - reflexivity.
  - reflexivity.
  - reflexivity.
  - reflexivity.
Defined.
